(** * Vedic astrology service: validation and Atmakarak derivation

    A shallow embedding of the TypeScript sources of the repository.
    The service and the route each exist in two revisions:

    - the service with input validation and per-planet filtering
      (validateAstrologyInput, calculateAtmakarak,
      getVedicAstrologyData; part_000)              -> [Module Vedic]
    - the service without them (calculateAtmakarak reading a missing
      degree as 0, getVedicAstrologyData; part_001) -> [Module VedicLegacy]
    - the route with request validation and error classification
      (validateInput, POST /astrology-data; part_002) -> [Module Server]
    - the plain route ([src/server.ts])             -> [Module ServerSimple]

    Modelling conventions.

    - A JavaScript number is [NaN], an infinity, or a finite rational
      ([Q]).  Every finite double is a rational and the comparisons
      [<], [>], [<=], [>=] of doubles agree with those of the rationals
      they denote, so every statement below that is quantified over
      all [number]s covers all doubles.  Negative zero is identified
      with zero (no operation used by the sources tells them apart).
    - A JavaScript value is plain data: undefined, null, booleans,
      numbers, strings, arrays, and objects whose properties are data
      properties ([gmap string value]).  This is what the chart
      library returns and what [express.json] produces.  Functions,
      accessor properties and proxies are outside the model.
    - Exceptions are explicit: [exc A] is either a thrown value or a
      result; [try]/[catch] is a match on it.
    - Console output is diagnostic only and its text is not modelled.
      What is modelled is the conversion to a string of the values a
      log line interpolates: it throws on an object that hides
      [Object.prototype.toString] behind a property of its own. *)

From Stdlib Require Import QArith Lqa ZArith Lia Ascii List.
From stdpp Require Import gmap strings list.

Set Warnings "-register-all".

(** ** JavaScript values and the builtins the sources use *)

Module JS.

Inductive number :=
| NaN
| Infinity (negative : bool)
| Finite (q : Q).

Inductive value :=
| VUndefined
| VNull
| VBool (b : bool)
| VNum (n : number)
| VStr (s : string)
| VObj (props : gmap string value)
| VArr (elems : list value).

(** Thrown values: an [Error] object (with its message) or anything
    else ([error instanceof Error] is false for the latter). *)
Inductive thrown :=
| JsError (message : string)
| NonError.

Definition exc (A : Type) : Type := (thrown + A)%type.

#[global] Instance exc_ret : MRet exc := fun _ x => inr x.
#[global] Instance exc_bind : MBind exc := fun _ _ f m =>
  match m with
  | inl e => inl e
  | inr x => f x
  end.

Definition throw {A} (e : thrown) : exc A := inl e.

(** [for (const x of xs) body] threading the loop state. *)
Fixpoint for_of {A S} (xs : list A) (body : S -> A -> exc S) (st : S) : exc S :=
  match xs with
  | [] => mret st
  | x :: xs' => st' ← body st x; for_of xs' body st'
  end.

Definition Qltb (x y : Q) : bool := negb (Qle_bool y x).

(** [a < b] on numbers; any comparison with NaN is false. *)
Definition num_lt (a b : number) : bool :=
  match a, b with
  | NaN, _ | _, NaN => false
  | Finite x, Finite y => Qltb x y
  | Infinity true, Infinity true => false
  | Infinity true, _ => true
  | _, Infinity true => false
  | Infinity false, _ => false
  | Finite _, Infinity false => true
  end.

Definition num_gt (a b : number) : bool := num_lt b a.

(** [a <= b] on numbers. *)
Definition num_le (a b : number) : bool :=
  match a, b with
  | NaN, _ | _, NaN => false
  | Finite x, Finite y => Qle_bool x y
  | Infinity true, _ => true
  | _, Infinity false => true
  | Infinity false, _ => false
  | Finite _, Infinity true => false
  end.

Definition num_ge (a b : number) : bool := num_le b a.

Definition isNaN (n : number) : bool :=
  match n with
  | NaN => true
  | _ => false
  end.

Definition num_is_zero (n : number) : bool :=
  match n with
  | Finite q => Qeq_bool q 0
  | _ => false
  end.

(** ToBoolean. *)
Definition truthy (v : value) : bool :=
  match v with
  | VUndefined | VNull => false
  | VBool b => b
  | VNum n => negb (isNaN n) && negb (num_is_zero n)
  | VStr s => negb (String.eqb s EmptyString)
  | VObj _ | VArr _ => true
  end.

Definition typeof (v : value) : string :=
  match v with
  | VUndefined => "undefined"
  | VNull => "object"
  | VBool _ => "boolean"
  | VNum _ => "number"
  | VStr _ => "string"
  | VObj _ | VArr _ => "object"
  end.

Definition nullish (v : value) : bool :=
  match v with
  | VUndefined | VNull => true
  | _ => false
  end.

(** Reading an own data property; primitives and arrays have none of
    the property names used by the sources ([meta], planet codes,
    [degree], [rashi], the request fields). *)
Definition prop (v : value) (k : string) : value :=
  match v with
  | VObj o => default VUndefined (o !! k)
  | _ => VUndefined
  end.

Definition type_error (v : value) (k : string) : thrown :=
  JsError ("Cannot read properties of " +:+
           (match v with VNull => "null" | _ => "undefined" end) +:+
           " (reading '" +:+ k +:+ "')").

(** [v.k] / [v[k]]: a TypeError on undefined and null. *)
Definition get (v : value) (k : string) : exc value :=
  if nullish v then throw (type_error v k) else mret (prop v k).

(** [v?.k] *)
Definition get_opt (v : value) (k : string) : value :=
  if nullish v then VUndefined else prop v k.

(** [a || b] on values. *)
Definition or_else (a b : value) : value := if truthy a then a else b.

(** *** Conversion to a string

    ToString, as applied by a template literal and by [String(v)].
    Primitives always convert.  An object converts through its
    [toString] method: a plain object inherits one from
    [Object.prototype] unless a property of its own is in the way,
    and such a property is data here, hence not callable; the
    inherited [valueOf] then returns the object itself and the
    conversion ends in a TypeError.  An array converts by joining the
    conversions of its elements. *)
Fixpoint converts (v : value) : bool :=
  match v with
  | VObj o =>
      match o !! "toString" with
      | Some _ => false
      | None => true
      end
  | VArr l => forallb converts l
  | _ => true
  end.

Definition conversion_error : thrown :=
  JsError "Cannot convert object to primitive value".

(** The substitutions of a template literal whose text goes to the
    console: only the effect of converting them is left. *)
Definition interpolate (vs : list value) : exc unit :=
  if forallb converts vs then mret tt else throw conversion_error.

(** [parseFloat(String(n))] for a number [n]: Number::toString prints
    a representation that reads back as the same number
    (NaN as "NaN", the infinities as "Infinity" / "-Infinity"). *)
Definition parseFloat_String_num (n : number) : number := n.

(** [s.includes(sub)] *)
Fixpoint includes (s sub : string) : bool :=
  String.prefix sub s ||
  match s with
  | EmptyString => false
  | String _ s' => includes s' sub
  end.

(** [xs.join(sep)] *)
Definition join (sep : string) (xs : list string) : string := String.concat sep xs.

(** [xs.push(x)] *)
Definition push {A} (xs : list A) (x : A) : list A := xs ++ [x].

(** *** The two regular expressions of the sources

    Both are anchored sequences of [\d] and literal characters, so a
    pattern is a list of atoms and [test] is a full match. *)
Inductive atom :=
| Digit
| Lit (c : ascii).

Definition is_digit (c : ascii) : bool :=
  (48 <=? nat_of_ascii c)%nat && (nat_of_ascii c <=? 57)%nat.

Definition atom_matches (a : atom) (c : ascii) : bool :=
  match a with
  | Digit => is_digit c
  | Lit c' => Ascii.eqb c' c
  end.

Fixpoint regex_test (p : list atom) (s : string) : bool :=
  match p, s with
  | [], EmptyString => true
  | a :: p', String c s' => atom_matches a c && regex_test p' s'
  | _, _ => false
  end.

(** [/^\d{4}-\d{2}-\d{2}$/] *)
Definition dateRegex : list atom :=
  [Digit; Digit; Digit; Digit; Lit "-"; Digit; Digit; Lit "-"; Digit; Digit].

(** [/^\d{2}:\d{2}:\d{2}$/] *)
Definition timeRegex : list atom :=
  [Digit; Digit; Lit ":"; Digit; Digit; Lit ":"; Digit; Digit].

(** [s.split(sep)] for a one-character separator. *)
Fixpoint split_aux (sep : ascii) (cur : string) (s : string) : list string :=
  match s with
  | EmptyString => [cur]
  | String c s' =>
      if Ascii.eqb c sep then cur :: split_aux sep EmptyString s'
      else split_aux sep (cur +:+ String c EmptyString) s'
  end.

Definition split (sep : ascii) (s : string) : list string := split_aux sep EmptyString s.

Definition digit_val (c : ascii) : Z := Z.of_nat (nat_of_ascii c) - 48.

Fixpoint decimal_aux (acc : Z) (s : string) : option Z :=
  match s with
  | EmptyString => Some acc
  | String c s' =>
      if is_digit c then decimal_aux (10 * acc + digit_val c) s' else None
  end.

(** [Number(s)] on strings.  Strings of decimal digits denote their
    value and the empty string denotes 0; the rest of the
    StringToNumber grammar (signs, fractions, exponents, radix
    prefixes, white space) is not needed by the sources, which apply
    [Number] only to the two-digit groups let through by [timeRegex],
    and is read as [NaN] here. *)
Definition Number_str (s : string) : number :=
  match decimal_aux 0 s with
  | Some z => Finite (inject_Z z)
  | None => NaN
  end.

(** *** Date objects

    [new Date(s)] depends on the engine (how lenient the ISO parser
    is) and on the time zone of the host ([getFullYear] is local
    time).  A date object is either invalid (time value NaN) or
    carries its time value in milliseconds and the local year. *)
Inductive Date :=
| InvalidDate
| ValidDate (time : Z) (localYear : Z).

Definition getTime (d : Date) : number :=
  match d with
  | InvalidDate => NaN
  | ValidDate t _ => Finite (inject_Z t)
  end.

Definition getFullYear (d : Date) : number :=
  match d with
  | InvalidDate => NaN
  | ValidDate _ y => Finite (inject_Z y)
  end.

End JS.

Import JS.

(** Integer literals as JavaScript numbers. *)
Definition num (z : Z) : number := Finite (inject_Z z).

(** ** The result type ([types.ts], known from the object literal
    returned by [getVedicAstrologyData]) *)

Module Types.

Record VedicAstrologyData := {
  moonSign : value;
  sunSign : value;
  ascendant : value;
  atmakarak : string;
  birthChart : value
}.

End Types.

(** ** The chart library as seen by the service

    [require('vedic-astrology')] is probed three times before the
    call, and the call may throw. *)
Inductive package :=
| NoModule
| NoPositioner
| NoGetBirthChart
| Loaded (getBirthChart : value -> value -> value -> value -> value -> exc value).

(** The only external call of the service, recorded with its arguments. *)
Inductive call :=
| GetBirthChart (dateString timeString lat lng timezone : value).

(** Computations that may call the library and may throw. *)
Definition io (A : Type) : Type := (list call * exc A)%type.

#[global] Instance io_ret : MRet io := fun _ x => ([], inr x).
#[global] Instance io_bind : MBind io := fun _ _ f m =>
  match m with
  | (log, inl e) => (log, inl e)
  | (log, inr x) => let '(log', r) := f x in (log ++ log', r)
  end.

Definition io_throw {A} (e : thrown) : io A := ([], inl e).
Definition io_lift {A} (m : exc A) : io A := ([], m).

(** [try { m } catch (error) { throw h error }] *)
Definition try_rethrow {A} (m : io A) (h : thrown -> thrown) : io A :=
  match m with
  | (log, inl e) => (log, inl (h e))
  | (log, inr x) => (log, inr x)
  end.

Definition calls {A} (m : io A) : list call := fst m.
Definition outcome {A} (m : io A) : exc A := snd m.

(** ** [vedic.ts], enhanced revision *)

Module Vedic.

Definition as_string (v : value) : string :=
  match v with
  | VStr s => s
  | _ => EmptyString
  end.

Definition as_number (v : value) : number :=
  match v with
  | VNum n => n
  | _ => NaN
  end.

Section WithDate.

(** [new Date(dateString)] of the host. *)
Variable Date_new : string -> Date.

Definition validateAstrologyInput
    (dateString timeString lat lng timezone : value) : list string :=
  let errors : list string := [] in
  (* Validate date string *)
  let errors :=
    if negb (truthy dateString) || negb (String.eqb (typeof dateString) "string") then
      push errors "Date string is required"
    else
      if negb (regex_test dateRegex (as_string dateString)) then
        push errors "Date must be in YYYY-MM-DD format"
      else
        let date := Date_new (as_string dateString) in
        let errors :=
          if isNaN (getTime date) then push errors "Invalid date provided"
          else errors in
        let year := getFullYear date in
        if num_lt year (num 1900) || num_gt year (num 2100) then
          push errors "Date must be between 1900 and 2100"
        else errors in
  (* Validate time string *)
  let errors :=
    if negb (truthy timeString) || negb (String.eqb (typeof timeString) "string") then
      push errors "Time string is required"
    else
      if negb (regex_test timeRegex (as_string timeString)) then
        push errors "Time must be in HH:MM:SS format"
      else
        let parts := map Number_str (split ":" (as_string timeString)) in
        let hours := nth 0 parts NaN in
        let minutes := nth 1 parts NaN in
        let seconds := nth 2 parts NaN in
        let errors :=
          if num_lt hours (num 0) || num_gt hours (num 23) then
            push errors "Hours must be between 00 and 23"
          else errors in
        let errors :=
          if num_lt minutes (num 0) || num_gt minutes (num 59) then
            push errors "Minutes must be between 00 and 59"
          else errors in
        if num_lt seconds (num 0) || num_gt seconds (num 59) then
          push errors "Seconds must be between 00 and 59"
        else errors in
  (* Validate coordinates *)
  let errors :=
    if negb (String.eqb (typeof lat) "number") || isNaN (as_number lat) then
      push errors "Latitude must be a valid number"
    else if num_lt (as_number lat) (num (-90)) || num_gt (as_number lat) (num 90) then
      push errors "Latitude must be between -90 and 90"
    else errors in
  let errors :=
    if negb (String.eqb (typeof lng) "number") || isNaN (as_number lng) then
      push errors "Longitude must be a valid number"
    else if num_lt (as_number lng) (num (-180)) || num_gt (as_number lng) (num 180) then
      push errors "Longitude must be between -180 and 180"
    else errors in
  (* Validate timezone *)
  let errors :=
    if negb (String.eqb (typeof timezone) "number") || isNaN (as_number timezone) then
      push errors "Timezone must be a valid number"
    else if num_lt (as_number timezone) (num (-12)) || num_gt (as_number timezone) (num 14) then
      push errors "Timezone must be between -12 and 14"
    else errors in
  errors.

End WithDate.

(** *** calculateAtmakarak *)

Definition planets : list string := ["Su"; "Mo"; "Ma"; "Me"; "Ju"; "Ve"; "Sa"].

Definition planetNames : gmap string string :=
  list_to_map
    [("Su", "Sun"); ("Mo", "Moon"); ("Ma", "Mars"); ("Me", "Mercury");
     ("Ju", "Jupiter"); ("Ve", "Venus"); ("Sa", "Saturn")].

(** The mutable locals of the loop. *)
Record locals := Locals {
  maxDegrees : number;
  atmakarak : string;
  validPlanets : list string
}.

Definition locals_init : locals :=
  {| maxDegrees := num 0; atmakarak := "Su"; validPlanets := [] |}.

(** One iteration of [for (const planet of planets)]. *)
Definition scan_planet (meta : value) (st : locals) (planet : string) : exc locals :=
  entry ← get meta planet;
  if truthy entry then
    d ← get entry "degree";
    if String.eqb (typeof d) "number" then
      let degree := parseFloat_String_num (as_number d) in
      if negb (isNaN degree) && num_ge degree (num 0) && num_le degree (num 360) then
        let st := {| maxDegrees := maxDegrees st;
                     atmakarak := atmakarak st;
                     validPlanets := push (validPlanets st) planet |} in
        if num_gt degree (maxDegrees st) then
          mret {| maxDegrees := degree;
                  atmakarak := planet;
                  validPlanets := validPlanets st |}
        else mret st
      else mret st
    else mret st
  else mret st.

(** [planetNames[code] || 'Sun'] *)
Definition planet_name (code : string) : string :=
  match planetNames !! code with
  | Some name => if String.eqb name EmptyString then "Sun" else name
  | None => "Sun"
  end.

(** The body of the [try] block. *)
Definition calculateAtmakarak_try (birthChart : value) : exc string :=
  if negb (truthy birthChart) || negb (String.eqb (typeof birthChart) "object") then
    mret "Sun"
  else
    meta ← get birthChart "meta";
    if negb (truthy meta) || negb (String.eqb (typeof meta) "object") then
      mret "Sun"
    else
      st ← for_of planets (scan_planet meta) locals_init;
      if (length (validPlanets st) =? 0)%nat then mret "Sun"
      else mret (planet_name (atmakarak st)).

Definition calculateAtmakarak (birthChart : value) : string :=
  match calculateAtmakarak_try birthChart with
  | inr name => name
  | inl _ => "Sun"
  end.

(** *** getVedicAstrologyData *)

Section WithHost.

Variable Date_new : string -> Date.
Variable vedicAstrology : package.

(** The classification in the [catch] block. *)
Definition rethrow (error : thrown) : thrown :=
  match error with
  | JsError message =>
      if includes message "Input validation failed" then
        JsError ("Invalid input parameters: " +:+ message)
      else if includes message "vedic-astrology" || includes message "package" then
        JsError "Astrology calculation service is currently unavailable"
      else if includes message "birth chart" || includes message "meta" then
        JsError "Failed to generate valid birth chart data"
      else
        JsError ("Astrology calculation failed: " +:+ message)
  | NonError =>
      JsError "Unknown error occurred during astrology calculation"
  end.

(** The default parameter [timezone = 5.5]. *)
Definition timezone_or_default (timezone : value) : value :=
  match timezone with
  | VUndefined => VNum (Finite (11 # 2))
  | _ => timezone
  end.

Definition getVedicAstrologyData_try
    (dateString timeString lat lng timezone : value) : io Types.VedicAstrologyData :=
  let validationErrors :=
    validateAstrologyInput Date_new dateString timeString lat lng timezone in
  if (0 <? length validationErrors)%nat then
    io_throw (JsError ("Input validation failed: " +:+ join ", " validationErrors))
  else
    match vedicAstrology with
    | NoModule | NoPositioner | NoGetBirthChart =>
        io_throw (JsError
          "Vedic astrology package not properly loaded or missing required methods")
    | Loaded getBirthChart =>
        birthChart ← ([GetBirthChart dateString timeString lat lng timezone],
                      getBirthChart dateString timeString lat lng timezone);
        if negb (truthy birthChart) then
          io_throw (JsError
            "Vedic astrology package returned null/undefined birth chart")
        else
          meta ← io_lift (get birthChart "meta");
          if negb (truthy meta) || negb (String.eqb (typeof meta) "object") then
            io_throw (JsError "Birth chart missing required meta data")
          else
            mo ← io_lift (get meta "Mo");
            let moonSign := or_else (get_opt mo "rashi") (VStr "Unknown") in
            su ← io_lift (get meta "Su");
            let sunSign := or_else (get_opt su "rashi") (VStr "Unknown") in
            asc ← io_lift (get meta "As");
            let ascendant := or_else (get_opt asc "rashi") (VStr "Unknown") in
            let atmakarak := calculateAtmakarak birthChart in
            (* Log the results *)
            _ ← io_lift (interpolate [moonSign; sunSign; ascendant; VStr atmakarak]);
            mret {| Types.moonSign := moonSign;
                    Types.sunSign := sunSign;
                    Types.ascendant := ascendant;
                    Types.atmakarak := atmakarak;
                    Types.birthChart := birthChart |}
    end.

(** The first log line interpolates the four arguments before the
    [try] is entered, so that a throw there is not classified. *)
Definition getVedicAstrologyData
    (dateString timeString lat lng timezone : value) : io Types.VedicAstrologyData :=
  let timezone := timezone_or_default timezone in
  _ ← io_lift (interpolate [dateString; timeString; lat; lng]);
  try_rethrow
    (getVedicAstrologyData_try dateString timeString lat lng timezone)
    rethrow.

End WithHost.

End Vedic.

(** ** [vedic.ts], first revision *)

Module VedicLegacy.

Record locals := Locals {
  maxDegrees : number;
  atmakarak : string
}.

Definition locals_init : locals := {| maxDegrees := num 0; atmakarak := "Su" |}.

Section WithCoercion.

(** [parseFloat(String(v))] for a string [v], and for an array [v]
    whose conversion succeeds: the decimal-prefix parser and the
    printing of the numbers inside an array are builtins of the
    host. *)
Variable parseFloat_String_other : value -> number.

(** [parseFloat(String(v))].  [String(v)] throws where [v] does not
    convert; a plain object that converts reads "[object Object]",
    which is no number. *)
Definition parseFloat_String (v : value) : exc number :=
  if converts v then
    mret match v with
         | VNum n => parseFloat_String_num n
         | VUndefined | VNull | VBool _ | VObj _ => NaN
         | VStr _ | VArr _ => parseFloat_String_other v
         end
  else throw conversion_error.

(** [parseFloat(String(meta[planet]?.degree ?? '0'))] *)
Definition coerced_degree (entry : value) : exc number :=
  let d := get_opt entry "degree" in
  if nullish d then mret (num 0) else parseFloat_String d.

Definition scan_planet (meta : value) (st : locals) (planet : string) : exc locals :=
  entry ← get meta planet;
  degree ← coerced_degree entry;
  if num_gt degree (maxDegrees st) then
    mret {| maxDegrees := degree; atmakarak := planet |}
  else mret st.

Definition calculateAtmakarak (birthChart : value) : exc string :=
  meta ← get birthChart "meta";
  st ← for_of Vedic.planets (scan_planet meta) locals_init;
  mret (Vedic.planet_name (atmakarak st)).

Variable vedicAstrology : package.

Definition getVedicAstrologyData_try
    (dateString timeString lat lng timezone : value) : io Types.VedicAstrologyData :=
  match vedicAstrology with
  | NoModule =>
      io_throw (type_error VUndefined "positioner")
  | NoPositioner =>
      io_throw (type_error VUndefined "getBirthChart")
  | NoGetBirthChart =>
      io_throw (JsError "vedicAstrology.positioner.getBirthChart is not a function")
  | Loaded getBirthChart =>
      birthChart ← ([GetBirthChart dateString timeString lat lng timezone],
                    getBirthChart dateString timeString lat lng timezone);
      meta ← io_lift (get birthChart "meta");
      mo ← io_lift (get meta "Mo");
      let moonSign := or_else (get_opt mo "rashi") (VStr "Unknown") in
      su ← io_lift (get meta "Su");
      let sunSign := or_else (get_opt su "rashi") (VStr "Unknown") in
      asc ← io_lift (get meta "As");
      let ascendant := or_else (get_opt asc "rashi") (VStr "Unknown") in
      atmakarak ← io_lift (calculateAtmakarak birthChart);
      mret {| Types.moonSign := moonSign;
              Types.sunSign := sunSign;
              Types.ascendant := ascendant;
              Types.atmakarak := atmakarak;
              Types.birthChart := birthChart |}
  end.

Definition rethrow (error : thrown) : thrown :=
  JsError ("Failed to calculate vedic astrology data: " +:+
           match error with
           | JsError message => message
           | NonError => "Unknown error"
           end).

Definition getVedicAstrologyData
    (dateString timeString lat lng timezone : value) : io Types.VedicAstrologyData :=
  let timezone := Vedic.timezone_or_default timezone in
  try_rethrow
    (getVedicAstrologyData_try dateString timeString lat lng timezone)
    rethrow.

End WithCoercion.

End VedicLegacy.

(** ** HTTP responses *)

Inductive body :=
| ErrorBody (error : string) (message : option string) (details : option string)
| InvalidInputBody (error : string) (details : list string)
| ResultBody (result : Types.VedicAstrologyData).

Record response := Response {
  status : Z;
  json : body
}.

(** ** [server.ts], enhanced revision

    The handler runs behind [express.json], which hands it an object
    or an array as [req.body], never null or undefined: the handler
    is a function of any value here, and the statements about
    requests are those for a body that is not null or undefined. *)

Module Server.

Section WithHost.

Variable Date_new : string -> Date.

(** [process.env.NODE_ENV === 'development'] *)
Variable development : bool.

(** [getVedicAstrologyData], imported from [./vedic]. *)
Variable getVedicAstrologyData :
  value -> value -> value -> value -> value -> io Types.VedicAstrologyData.

Definition validateInput (dateOfBirth timeOfBirth lat lng : value) : list string :=
  let errors : list string := [] in
  let errors :=
    if negb (truthy dateOfBirth) || negb (String.eqb (typeof dateOfBirth) "string") then
      push errors "dateOfBirth is required and must be a string"
    else
      if negb (regex_test dateRegex (Vedic.as_string dateOfBirth)) then
        push errors "dateOfBirth must be in YYYY-MM-DD format"
      else
        let date := Date_new (Vedic.as_string dateOfBirth) in
        if isNaN (getTime date) then push errors "dateOfBirth must be a valid date"
        else errors in
  let errors :=
    if negb (truthy timeOfBirth) || negb (String.eqb (typeof timeOfBirth) "string") then
      push errors "timeOfBirth is required and must be a string"
    else
      if negb (regex_test timeRegex (Vedic.as_string timeOfBirth)) then
        push errors "timeOfBirth must be in HH:MM:SS format"
      else errors in
  let errors :=
    if nullish lat || negb (String.eqb (typeof lat) "number") then
      push errors "lat is required and must be a number"
    else if num_lt (Vedic.as_number lat) (num (-90)) || num_gt (Vedic.as_number lat) (num 90) then
      push errors "lat must be between -90 and 90"
    else errors in
  let errors :=
    if nullish lng || negb (String.eqb (typeof lng) "number") then
      push errors "lng is required and must be a number"
    else if num_lt (Vedic.as_number lng) (num (-180)) || num_gt (Vedic.as_number lng) (num 180) then
      push errors "lng must be between -180 and 180"
    else errors in
  errors.

(** The [try] block of the route: either a response was sent or
    something was thrown. *)
Definition astrology_data_try (reqBody : value) : io response :=
  dateOfBirth ← io_lift (get reqBody "dateOfBirth");
  timeOfBirth ← io_lift (get reqBody "timeOfBirth");
  lat ← io_lift (get reqBody "lat");
  lng ← io_lift (get reqBody "lng");
  let validationErrors := validateInput dateOfBirth timeOfBirth lat lng in
  if (0 <? length validationErrors)%nat then
    mret {| status := 400;
            json := InvalidInputBody "Invalid input" validationErrors |}
  else
    result ← getVedicAstrologyData dateOfBirth timeOfBirth lat lng VUndefined;
    mret {| status := 200; json := ResultBody result |}.

(** The [catch] block of the route. *)
Definition error_response (error : thrown) : response :=
  match error with
  | JsError message =>
      if includes message "Invalid date" || includes message "Invalid time" then
        {| status := 400;
           json := ErrorBody "Invalid date or time format" (Some message) None |}
      else if includes message "coordinates" || includes message "latitude"
              || includes message "longitude" then
        {| status := 400;
           json := ErrorBody "Invalid coordinates" (Some message) None |}
      else if includes message "Input validation failed" then
        {| status := 400;
           json := ErrorBody "Invalid input parameters" (Some message) None |}
      else if includes message "vedic-astrology" || includes message "package" then
        {| status := 503;
           json := ErrorBody "Astrology service unavailable"
                     (Some "The astrology calculation service is currently unavailable. Please try again later.")
                     None |}
      else
        {| status := 500;
           json := ErrorBody "Internal server error"
                     (Some "Failed to calculate astrology data. Please try again later.")
                     (if development then Some message else None) |}
  | NonError =>
      {| status := 500;
         json := ErrorBody "Unknown server error"
                   (Some "An unexpected error occurred. Please try again later.")
                   None |}
  end.

(** [app.post('/astrology-data', ...)]: the external calls made and
    the response sent. *)
Definition astrology_data (reqBody : value) : list call * response :=
  match astrology_data_try reqBody with
  | (log, inr res) => (log, res)
  | (log, inl error) => (log, error_response error)
  end.

End WithHost.

End Server.

(** ** [src/server.ts], first revision *)

Module ServerSimple.

Section WithService.

Variable getVedicAstrologyData :
  value -> value -> value -> value -> value -> io Types.VedicAstrologyData.

(** [const { dateOfBirth, timeOfBirth, lat, lng } = req.body]: a
    TypeError on undefined and null. *)
Definition destructure (reqBody : value) : exc (value * value * value * value) :=
  if nullish reqBody then
    throw (JsError ("Cannot destructure property 'dateOfBirth' of 'req.body' as it is " +:+
                    (match reqBody with VNull => "null" | _ => "undefined" end) +:+ "."))
  else
    mret (prop reqBody "dateOfBirth", prop reqBody "timeOfBirth",
          prop reqBody "lat", prop reqBody "lng").

(** The destructuring of [req.body] is outside the [try]; a throw
    there leaves the route without a response. *)
Definition astrology_data (reqBody : value) : io response :=
  '(dateOfBirth, timeOfBirth, lat, lng) ← io_lift (destructure reqBody);
  if negb (truthy dateOfBirth) || negb (truthy timeOfBirth) || nullish lat || nullish lng then
    mret {| status := 400; json := ErrorBody "Missing required fields" None None |}
  else
    match getVedicAstrologyData dateOfBirth timeOfBirth lat lng VUndefined with
    | (log, inr result) => (log, inr {| status := 200; json := ResultBody result |})
    | (log, inl error) =>
        (log, inr {| status := 500;
                     json := ErrorBody
                               match error with
                               | JsError message =>
                                   if String.eqb message EmptyString then "Unknown server error"
                                   else message
                               | NonError => "Unknown server error"
                               end None None |})
    end.

End WithService.

End ServerSimple.

(** ** Vocabulary of the specification *)

(** [chart.meta[code].degree], read as undefined wherever a link of
    the chain is missing. *)
Definition degree_field (chart : value) (code : string) : value :=
  prop (prop (prop chart "meta") code) "degree".

(** The degree of a planet when it is present, numeric and within
    [0, 360]. *)
Definition in_range_degree (d : value) : option Q :=
  match d with
  | VNum (Finite q) => if Qle_bool 0 q && Qle_bool q 360 then Some q else None
  | _ => None
  end.

Definition valid_degree (chart : value) (code : string) : option Q :=
  in_range_degree (degree_field chart code).

Definition full_names : list string :=
  ["Sun"; "Moon"; "Mars"; "Mercury"; "Jupiter"; "Venus"; "Saturn"].

(** The full English name of the planet a two-letter code stands
    for, as the specification lists them. *)
Definition english_name (code : string) : string :=
  if String.eqb code "Su" then "Sun"
  else if String.eqb code "Mo" then "Moon"
  else if String.eqb code "Ma" then "Mars"
  else if String.eqb code "Me" then "Mercury"
  else if String.eqb code "Ju" then "Jupiter"
  else if String.eqb code "Ve" then "Venus"
  else if String.eqb code "Sa" then "Saturn"
  else EmptyString.

(** The five fields of a birth query. *)
Inductive field := FDate | FTime | FLat | FLng | FTimezone.

Definition in_range (lo hi : Z) (n : number) : bool :=
  num_le (num lo) n && num_le n (num hi).

(** *** The calendar *)

Definition leap_year (y : Z) : bool :=
  ((y mod 4 =? 0)%Z && negb (y mod 100 =? 0)%Z) || (y mod 400 =? 0)%Z.

Definition days_in_month (y m : Z) : Z :=
  if (m =? 2)%Z then (if leap_year y then 29 else 28)%Z
  else if (m =? 4)%Z || (m =? 6)%Z || (m =? 9)%Z || (m =? 11)%Z then 30%Z
  else 31%Z.

(** The year, month and day written in a string of the shape
    YYYY-MM-DD. *)
Definition written_date (s : string) : option (Z * Z * Z) :=
  if regex_test dateRegex s then
    match decimal_aux 0 (String.substring 0 4 s),
          decimal_aux 0 (String.substring 5 2 s),
          decimal_aux 0 (String.substring 8 2 s) with
    | Some y, Some m, Some d => Some (y, m, d)
    | _, _, _ => None
    end
  else None.

(** Month and day are within 01-12 and 01-31. *)
Definition month_day_in_bounds (m d : Z) : bool :=
  (1 <=? m)%Z && (m <=? 12)%Z && (1 <=? d)%Z && (d <=? 31)%Z.

(** The day exists in the calendar. *)
Definition real_date (y m d : Z) : bool :=
  (1 <=? m)%Z && (m <=? 12)%Z && (1 <=? d)%Z && (d <=? days_in_month y m)%Z.

(** *** The rules of the specification, field by field

    The date is a string YYYY-MM-DD that names a real calendar date
    with its year in [1900, 2100]; the time is a string HH:MM:SS with
    hours in [0, 23], minutes and seconds in [0, 59]; latitude,
    longitude and timezone are numbers in [-90, 90], [-180, 180] and
    [-12, 14].  None of this refers to the host. *)
Definition date_rule_ok (v : value) : bool :=
  match v with
  | VStr s =>
      match written_date s with
      | Some (y, m, d) => real_date y m d && (1900 <=? y)%Z && (y <=? 2100)%Z
      | None => false
      end
  | _ => false
  end.

Definition time_ok (v : value) : bool :=
  match v with
  | VStr s =>
      regex_test timeRegex s &&
      match map Number_str (split ":" s) with
      | [h; m; sec] => in_range 0 23 h && in_range 0 59 m && in_range 0 59 sec
      | _ => false
      end
  | _ => false
  end.

Definition number_ok (lo hi : Z) (v : value) : bool :=
  match v with
  | VNum n => in_range lo hi n
  | _ => false
  end.

(** A field follows the rule the specification gives for it. *)
Definition field_rule_ok (f : field) (dateString timeString lat lng timezone : value) : bool :=
  match f with
  | FDate => date_rule_ok dateString
  | FTime => time_ok timeString
  | FLat => number_ok (-90) 90 lat
  | FLng => number_ok (-180) 180 lng
  | FTimezone => number_ok (-12) 14 timezone
  end.

(** *** What every host does with a date of the shape YYYY-MM-DD

    A date-only string is read as midnight UTC of the day it names,
    and [getFullYear] answers in local time, which is less than a day
    away from UTC: the local year is the written one, except west of
    UTC on 1 January, where it is the year before.  A month outside
    01-12 or a day outside 01-31 makes the date invalid.  Two things
    are left to the engine: a day 29-31 that the month does not have
    (V8 runs on into the next month, others answer Invalid Date), and
    a string with a month or day out of bounds whose first group can
    be a month and whose second can be a day, as in 0006-15-90 (V8
    falls back on reading month, day and two-digit year). *)
Definition legacy_readable (y m : Z) : bool :=
  (1 <=? y)%Z && (y <=? 12)%Z && (1 <=? m)%Z && (m <=? 31)%Z.

Definition host_conforms (Date_new : string -> Date) : Prop :=
  forall s y m d,
    written_date s = Some (y, m, d) ->
    (month_day_in_bounds m d = false -> legacy_readable y m = false ->
     Date_new s = InvalidDate) /\
    (real_date y m d = true ->
     exists t ly, Date_new s = ValidDate t ly /\
                  (ly = y \/ (m = 1%Z /\ d = 1%Z /\ ly = (y - 1)%Z))).

(** The dates on which the validator's verdict is the host's and not
    the calendar's: a day 29-31 past the end of its month; 1 January
    of the years 1900 and 2101, next to the bounds of the range; and
    the strings open to the month-day-year reading. *)
Definition date_host_dependent (v : value) : bool :=
  match v with
  | VStr s =>
      match written_date s with
      | Some (y, m, d) =>
          (month_day_in_bounds m d && negb (real_date y m d))
          || ((m =? 1)%Z && (d =? 1)%Z && ((y =? 1900)%Z || (y =? 2101)%Z))
          || (negb (month_day_in_bounds m d) && legacy_readable y m)
      | None => false
      end
  | _ => false
  end.

(** *** The test of the date block, on a given host

    What [validateAstrologyInput] requires of a date, with the
    host's [new Date] and its local [getFullYear]. *)
Definition date_passes (Date_new : string -> Date) (v : value) : bool :=
  match v with
  | VStr s =>
      regex_test dateRegex s &&
      match Date_new s with
      | ValidDate _ y => (1900 <=? y)%Z && (y <=? 2100)%Z
      | InvalidDate => false
      end
  | _ => false
  end.

(** The violation messages that belong to each field. *)
Definition field_messages (f : field) : list string :=
  match f with
  | FDate =>
      ["Date string is required"; "Date must be in YYYY-MM-DD format";
       "Invalid date provided"; "Date must be between 1900 and 2100"]
  | FTime =>
      ["Time string is required"; "Time must be in HH:MM:SS format";
       "Hours must be between 00 and 23"; "Minutes must be between 00 and 59";
       "Seconds must be between 00 and 59"]
  | FLat =>
      ["Latitude must be a valid number"; "Latitude must be between -90 and 90"]
  | FLng =>
      ["Longitude must be a valid number"; "Longitude must be between -180 and 180"]
  | FTimezone =>
      ["Timezone must be a valid number"; "Timezone must be between -12 and 14"]
  end.

(** ** The blocks of [validateAstrologyInput]

    The validator is a sequence of five blocks, each extending the
    list of errors it receives; [validate_blocks] below shows that
    their composition is the function itself. *)
Section ValidatorBlocks.

Variable Date_new : string -> Date.

Definition check_date (errors : list string) (dateString : value) : list string :=
  if negb (truthy dateString) || negb (String.eqb (typeof dateString) "string") then
    push errors "Date string is required"
  else
    if negb (regex_test dateRegex (Vedic.as_string dateString)) then
      push errors "Date must be in YYYY-MM-DD format"
    else
      let date := Date_new (Vedic.as_string dateString) in
      let errors :=
        if isNaN (getTime date) then push errors "Invalid date provided"
        else errors in
      let year := getFullYear date in
      if num_lt year (num 1900) || num_gt year (num 2100) then
        push errors "Date must be between 1900 and 2100"
      else errors.

Definition check_time (errors : list string) (timeString : value) : list string :=
  if negb (truthy timeString) || negb (String.eqb (typeof timeString) "string") then
    push errors "Time string is required"
  else
    if negb (regex_test timeRegex (Vedic.as_string timeString)) then
      push errors "Time must be in HH:MM:SS format"
    else
      let parts := map Number_str (split ":" (Vedic.as_string timeString)) in
      let hours := nth 0 parts NaN in
      let minutes := nth 1 parts NaN in
      let seconds := nth 2 parts NaN in
      let errors :=
        if num_lt hours (num 0) || num_gt hours (num 23) then
          push errors "Hours must be between 00 and 23"
        else errors in
      let errors :=
        if num_lt minutes (num 0) || num_gt minutes (num 59) then
          push errors "Minutes must be between 00 and 59"
        else errors in
      if num_lt seconds (num 0) || num_gt seconds (num 59) then
        push errors "Seconds must be between 00 and 59"
      else errors.

Definition check_lat (errors : list string) (lat : value) : list string :=
  if negb (String.eqb (typeof lat) "number") || isNaN (Vedic.as_number lat) then
    push errors "Latitude must be a valid number"
  else if num_lt (Vedic.as_number lat) (num (-90)) || num_gt (Vedic.as_number lat) (num 90) then
    push errors "Latitude must be between -90 and 90"
  else errors.

Definition check_lng (errors : list string) (lng : value) : list string :=
  if negb (String.eqb (typeof lng) "number") || isNaN (Vedic.as_number lng) then
    push errors "Longitude must be a valid number"
  else if num_lt (Vedic.as_number lng) (num (-180)) || num_gt (Vedic.as_number lng) (num 180) then
    push errors "Longitude must be between -180 and 180"
  else errors.

Definition check_timezone (errors : list string) (timezone : value) : list string :=
  if negb (String.eqb (typeof timezone) "number") || isNaN (Vedic.as_number timezone) then
    push errors "Timezone must be a valid number"
  else if num_lt (Vedic.as_number timezone) (num (-12))
          || num_gt (Vedic.as_number timezone) (num 14) then
    push errors "Timezone must be between -12 and 14"
  else errors.

End ValidatorBlocks.

(** What a block contributes: nothing when its field is in order,
    otherwise between one and [bound] messages of that field. *)
Definition block_spec (ok : bool) (errors : list string) (f : field) (bound : nat) : Prop :=
  (ok = true /\ errors = []) \/
  (ok = false /\ (1 <= length errors <= bound)%nat /\
   forall e, In e errors -> In e (field_messages f)).

(** ** The loop of [calculateAtmakarak] as a fold

    One iteration, as a function of the planet's valid degree, and
    the whole scan of a chart. *)
Definition scan_step (vd : option Q) (st : Vedic.locals) (planet : string) : Vedic.locals :=
  match vd with
  | Some q =>
      if num_gt (Finite q) (Vedic.maxDegrees st) then
        {| Vedic.maxDegrees := Finite q;
           Vedic.atmakarak := planet;
           Vedic.validPlanets := push (Vedic.validPlanets st) planet |}
      else
        {| Vedic.maxDegrees := Vedic.maxDegrees st;
           Vedic.atmakarak := Vedic.atmakarak st;
           Vedic.validPlanets := push (Vedic.validPlanets st) planet |}
  | None => st
  end.

Definition scan_all (chart : value) (ps : list string) (st : Vedic.locals) : Vedic.locals :=
  fold_left (fun st p => scan_step (valid_degree chart p) st p) ps st.

(** The chart has the shape the two guards of [calculateAtmakarak]
    let through: an object, or an array, under [meta]. *)
Definition chart_shape_ok (chart : value) : bool :=
  match chart with
  | VObj _ =>
      match prop chart "meta" with
      | VObj _ | VArr _ => true
      | _ => false
      end
  | _ => false
  end.

(** ** A sample host and sample data *)

(** Days since 1970-01-01 of a proleptic Gregorian date; a day number
    past the end of the month runs on into the next month. *)
Definition days_from_civil (y m d : Z) : Z :=
  let y' := if (m <=? 2)%Z then (y - 1)%Z else y in
  let era := (y' / 400)%Z in
  let yoe := (y' - era * 400)%Z in
  let mp := if (2 <? m)%Z then (m - 3)%Z else (m + 9)%Z in
  let doy := ((153 * mp + 2) / 5 + d - 1)%Z in
  let doe := (yoe * 365 + yoe / 4 - yoe / 100 + doy)%Z in
  (era * 146097 + doe - 719468)%Z.

(** [new Date(s)] for [s] of the shape YYYY-MM-DD as V8 computes it in
    a process running in UTC: months 01-12 and days 01-31 are
    accepted.  Where the month or the day is out of these bounds, V8
    hands the three numbers to its legacy parser, which takes them
    for month, day and two-digit year when the first is a day number
    (00-49 stand for 2000-2049, 50-99 for 1950-1999), and for year,
    month and day otherwise.  Both validators construct a date only
    from strings of that shape. *)
Definition Date_new_utc (s : string) : Date :=
  if regex_test dateRegex s then
    match decimal_aux 0 (String.substring 0 4 s),
          decimal_aux 0 (String.substring 5 2 s),
          decimal_aux 0 (String.substring 8 2 s) with
    | Some y, Some m, Some d =>
        if (1 <=? m)%Z && (m <=? 12)%Z && (1 <=? d)%Z && (d <=? 31)%Z then
          ValidDate (86400000 * days_from_civil y m d) y
        else if legacy_readable y m then
          let year := (if (d <=? 49)%Z then 2000 + d else 1900 + d)%Z in
          ValidDate (86400000 * days_from_civil year y m) year
        else InvalidDate
    | _, _, _ => InvalidDate
    end
  else InvalidDate.

(** The same engine in a process running west of UTC: midnight UTC
    of 1 January is still 31 December of the year before. *)
Definition Date_new_west (s : string) : Date :=
  match Date_new_utc s, written_date s with
  | ValidDate t y, Some (_, m, d) =>
      ValidDate t (if (m =? 1)%Z && (d =? 1)%Z then (y - 1)%Z else y)
  | date, _ => date
  end.

Definition planet_entry (degree : Q) : value :=
  VObj {[ "degree" := VNum (Finite degree) ]}.

Definition chart_of (entries : list (string * value)) : value :=
  VObj {[ "meta" := VObj (list_to_map entries) ]}.

(** All seven planets present with distinct degrees; Mars leads. *)
Definition chart_distinct : value :=
  chart_of [("Su", planet_entry 10); ("Mo", planet_entry 20);
            ("Ma", planet_entry 200); ("Me", planet_entry 40);
            ("Ju", planet_entry 50); ("Ve", planet_entry 60);
            ("Sa", planet_entry 70)].

(** Sun and Mars tie at 200, every other planet is lower. *)
Definition chart_tie : value :=
  chart_of [("Su", planet_entry 200); ("Mo", planet_entry 20);
            ("Ma", planet_entry 200); ("Me", planet_entry 40);
            ("Ju", planet_entry 50); ("Ve", planet_entry 60);
            ("Sa", planet_entry 70)].

(** Moon and Mars tie at 120; Sun has no entry. *)
Definition chart_tie_no_sun : value :=
  chart_of [("Mo", planet_entry 120); ("Ma", planet_entry 120);
            ("Me", planet_entry 40)].

(** Moon and Mars are the only planets with data, both at 0. *)
Definition chart_tie_at_zero : value :=
  chart_of [("Mo", planet_entry 0); ("Ma", planet_entry 0)].

(** Only Venus has data, at exactly 0. *)
Definition chart_venus_zero : value :=
  chart_of [("Ve", planet_entry 0)].

(** Sun at exactly 0 and Moon at exactly 360. *)
Definition chart_boundaries : value :=
  chart_of [("Su", planet_entry 0); ("Mo", planet_entry 360)].

(** Degrees that are absent, of the wrong type, NaN or out of range. *)
Definition chart_malformed : value :=
  chart_of [("Su", VObj {[ "degree" := VStr "120" ]});
            ("Mo", planet_entry (3600001 # 10000));
            ("Ma", planet_entry (-1 # 10000));
            ("Me", VObj {[ "degree" := VNum NaN ]});
            ("Ju", VNum (Finite 5));
            ("Ve", VObj ∅)].

Definition good_date : value := VStr "1990-06-15".
Definition good_time : value := VStr "14:30:00".
Definition good_lat : value := VNum (Finite (286 # 10)).
Definition good_lng : value := VNum (Finite (772 # 10)).
Definition good_timezone : value := VNum (Finite (11 # 2)).

(** Hours and minutes are both out of range. *)
Definition bad_time : value := VStr "25:61:00".

(** Wrong separator. *)
Definition bad_date : value := VStr "1990/06/15".

(** Before 1900. *)
Definition early_date : value := VStr "1850-06-15".

Definition sample_query : value :=
  VObj (list_to_map
          [("dateOfBirth", VStr "1990-06-15"); ("timeOfBirth", VStr "14:30:00");
           ("lat", VNum (Finite (286 # 10))); ("lng", VNum (Finite (772 # 10)))]).

(** A library that answers every query with [chart_distinct]. *)
Definition sample_package : package :=
  Loaded (fun _ _ _ _ _ => mret chart_distinct).

(** ** More sample data *)

(** [chart_distinct] with sign labels, the ascendant, a body outside
    the seven and one degree written as a string beside them. *)
Definition chart_distinct_extra : value :=
  VObj (list_to_map
    [("meta",
      VObj (list_to_map
        [("Su", VObj (list_to_map [("degree", VNum (Finite 10)); ("rashi", VStr "Aries")]));
         ("Mo", VObj (list_to_map [("degree", VNum (Finite 20)); ("rashi", VStr "Cancer")]));
         ("Ma", planet_entry 200); ("Me", planet_entry 40);
         ("Ju", planet_entry 50); ("Ve", planet_entry 60);
         ("Sa", planet_entry 70);
         ("Ra", planet_entry 359);
         ("As", VObj (list_to_map [("degree", VStr "12"); ("rashi", VStr "Leo")]))]));
     ("house", VNum (Finite 1))]).

(** ** What the service derives from a chart *)

(** [birthChart.meta.X?.rashi || 'Unknown'] *)
Definition sign_of (chart : value) (code : string) : value :=
  or_else (get_opt (prop (prop chart "meta") code) "rashi") (VStr "Unknown").

Definition summary_of (chart : value) : Types.VedicAstrologyData :=
  {| Types.moonSign := sign_of chart "Mo";
     Types.sunSign := sign_of chart "Su";
     Types.ascendant := sign_of chart "As";
     Types.atmakarak := Vedic.calculateAtmakarak chart;
     Types.birthChart := chart |}.

(** Libraries that answer with null, with a chart lacking [meta], or
    by throwing something that is not an [Error]. *)
Definition null_chart_package : package :=
  Loaded (fun _ _ _ _ _ => mret VNull).

Definition no_meta_package : package :=
  Loaded (fun _ _ _ _ _ => mret (VObj (list_to_map [("house", VNum (Finite 1))]))).

Definition throwing_package : package :=
  Loaded (fun _ _ _ _ _ => throw NonError).

(** A library that answers with [chart_distinct_extra]. *)
Definition signs_package : package :=
  Loaded (fun _ _ _ _ _ => mret chart_distinct_extra).

(** Requests: a date with the wrong separator and no latitude; a
    well-formed date before 1900; no time of birth. *)
Definition query_wrong_separator : value :=
  VObj (list_to_map
          [("dateOfBirth", bad_date); ("timeOfBirth", good_time); ("lng", good_lng)]).

Definition query_early_year : value :=
  VObj (list_to_map
          [("dateOfBirth", early_date); ("timeOfBirth", good_time);
           ("lat", good_lat); ("lng", good_lng)]).

Definition query_without_time : value :=
  VObj (list_to_map
          [("dateOfBirth", good_date); ("lat", good_lat); ("lng", good_lng)]).

(** ** The blocks of [validateInput]

    As for the service's validator: four blocks, each extending the
    errors it receives ([validateInput_blocks] below). *)
Section RouteValidatorBlocks.

Variable Date_new : string -> Date.

Definition route_check_date (errors : list string) (dateOfBirth : value) : list string :=
  if negb (truthy dateOfBirth) || negb (String.eqb (typeof dateOfBirth) "string") then
    push errors "dateOfBirth is required and must be a string"
  else
    if negb (regex_test dateRegex (Vedic.as_string dateOfBirth)) then
      push errors "dateOfBirth must be in YYYY-MM-DD format"
    else
      let date := Date_new (Vedic.as_string dateOfBirth) in
      if isNaN (getTime date) then push errors "dateOfBirth must be a valid date"
      else errors.

Definition route_check_time (errors : list string) (timeOfBirth : value) : list string :=
  if negb (truthy timeOfBirth) || negb (String.eqb (typeof timeOfBirth) "string") then
    push errors "timeOfBirth is required and must be a string"
  else
    if negb (regex_test timeRegex (Vedic.as_string timeOfBirth)) then
      push errors "timeOfBirth must be in HH:MM:SS format"
    else errors.

Definition route_check_lat (errors : list string) (lat : value) : list string :=
  if nullish lat || negb (String.eqb (typeof lat) "number") then
    push errors "lat is required and must be a number"
  else if num_lt (Vedic.as_number lat) (num (-90)) || num_gt (Vedic.as_number lat) (num 90) then
    push errors "lat must be between -90 and 90"
  else errors.

Definition route_check_lng (errors : list string) (lng : value) : list string :=
  if nullish lng || negb (String.eqb (typeof lng) "number") then
    push errors "lng is required and must be a number"
  else if num_lt (Vedic.as_number lng) (num (-180)) || num_gt (Vedic.as_number lng) (num 180) then
    push errors "lng must be between -180 and 180"
  else errors.

End RouteValidatorBlocks.

(** ** The first revision's loop as a fold *)

(** [meta[planet]?.degree] is null or undefined, so that the first
    revision reads the degree as 0. *)
Definition degree_missing (chart : value) (code : string) : bool :=
  nullish (get_opt (prop (prop chart "meta") code) "degree").

(** [String(meta[planet]?.degree ?? '0')] does not throw. *)
Definition degree_converts (chart : value) (code : string) : bool :=
  converts (get_opt (prop (prop chart "meta") code) "degree").

Section LegacyFold.

Variable coerce : value -> number.

(** The degree the first revision compares for a planet whose
    degree converts. *)
Definition legacy_degree (chart : value) (code : string) : number :=
  match VedicLegacy.coerced_degree coerce (prop (prop chart "meta") code) with
  | inr degree => degree
  | inl _ => NaN
  end.

Definition legacy_step (degree : number) (st : VedicLegacy.locals) (planet : string)
    : VedicLegacy.locals :=
  if num_gt degree (VedicLegacy.maxDegrees st) then
    {| VedicLegacy.maxDegrees := degree; VedicLegacy.atmakarak := planet |}
  else st.

Definition legacy_all (chart : value) (ps : list string) (st : VedicLegacy.locals)
    : VedicLegacy.locals :=
  fold_left (fun st p => legacy_step (legacy_degree chart p) st p) ps st.

End LegacyFold.

(** Charts for the first revision: Moon beyond the range, and a
    chart where only Moon and Mercury have data. *)
Definition chart_beyond_range : value :=
  chart_of [("Su", planet_entry 10); ("Mo", planet_entry 400);
            ("Ma", planet_entry 200)].

Definition chart_partial : value :=
  chart_of [("Mo", planet_entry 120); ("Me", planet_entry 40);
            ("Ve", VObj (list_to_map [("rashi", VStr "Libra")]));
            ("Sa", VObj (list_to_map [("degree", VNull)]))].

(** ** Values that do not convert to a string *)

(** An object whose own [toString] is a number, as
    [{"toString": 1}] parsed from JSON. *)
Definition unprintable : value := VObj {[ "toString" := VNum (Finite 1) ]}.

(** A chart in which the sign of the Moon is such an object, and one
    in which the degree of the Moon is. *)
Definition chart_unprintable_sign : value :=
  chart_of [("Su", planet_entry 10);
            ("Mo", VObj (list_to_map [("degree", VNum (Finite 20));
                                      ("rashi", unprintable)]))].

Definition chart_unprintable_degree : value :=
  chart_of [("Su", planet_entry 10);
            ("Mo", VObj (list_to_map [("degree", unprintable)]))].

Definition unprintable_sign_package : package :=
  Loaded (fun _ _ _ _ _ => mret chart_unprintable_sign).

(** A request whose latitude is such an object. *)
Definition query_unprintable_lat : value :=
  VObj (list_to_map
          [("dateOfBirth", good_date); ("timeOfBirth", good_time);
           ("lat", unprintable); ("lng", good_lng)]).

(** The three signs of a chart convert to strings. *)
Definition signs_convert (chart : value) : bool :=
  converts (sign_of chart "Mo") && converts (sign_of chart "Su")
  && converts (sign_of chart "As").

(** ** Dates next to the limits of the calendar and of the range *)

(** The 30th of February; New Year's Day of 1900 and of 2101. *)
Definition impossible_date : value := VStr "2023-02-30".
Definition new_year_1900 : value := VStr "1900-01-01".
Definition new_year_2101 : value := VStr "2101-01-01".

(** Month 15 of the year 6, or the 15th of June 1990. *)
Definition legacy_date : value := VStr "0006-15-90".

(** * Properties *)

(** ** Numbers *)

Lemma Qltb_lt (x y : Q) : Qltb x y = true <-> (x < y)%Q.
Proof.
  unfold Qltb. rewrite negb_true_iff. split.
  - intros H. apply Qnot_le_lt. intros Hle.
    apply Qle_bool_iff in Hle. congruence.
  - intros H. destruct (Qle_bool y x) eqn:E; [|reflexivity].
    apply Qle_bool_iff in E. exfalso. apply (Qlt_not_le _ _ H E).
Qed.

Lemma Qltb_ge (x y : Q) : Qltb x y = false <-> (y <= x)%Q.
Proof.
  unfold Qltb. rewrite negb_false_iff. apply Qle_bool_iff.
Qed.

Lemma Qle_bool_false (x y : Q) : Qle_bool x y = false <-> (y < x)%Q.
Proof.
  rewrite <- Qltb_lt. unfold Qltb. rewrite negb_true_iff. reflexivity.
Qed.

(** Off NaN, [<] is the complement of the converse [<=]. *)
Lemma num_lt_not_le (a b : number) :
  isNaN a = false -> isNaN b = false -> num_lt a b = negb (num_le b a).
Proof.
  destruct a as [|[]|x], b as [|[]|y]; simpl; intros; try congruence; reflexivity.
Qed.

Lemma num_lt_NaN_l (b : number) : num_lt NaN b = false.
Proof. reflexivity. Qed.

Lemma num_lt_NaN_r (a : number) : num_lt a NaN = false.
Proof. destruct a as [|[]|x]; reflexivity. Qed.

(** ** Strings *)

Lemma prefix_app (p s : string) : String.prefix p (p +:+ s) = true.
Proof.
  induction p as [|c p IH]; simpl.
  - destruct s; reflexivity.
  - destruct (ascii_dec c c) as [_|Hne]; [exact IH | congruence].
Qed.

Lemma includes_prefix (p s : string) : includes (p +:+ s) p = true.
Proof.
  destruct p as [|c p].
  - destruct s; reflexivity.
  - change (includes (String c p +:+ s) (String c p))
      with (String.prefix (String c p) (String c p +:+ s) || includes (p +:+ s) (String c p)).
    rewrite prefix_app. reflexivity.
Qed.

Lemma includes_app_r (p s sub : string) :
  includes s sub = true -> includes (p +:+ s) sub = true.
Proof.
  intros H. induction p as [|c p IH].
  - exact H.
  - change (includes (String c p +:+ s) sub)
      with (String.prefix sub (String c (p +:+ s)) || includes (p +:+ s) sub).
    rewrite IH. apply orb_true_r.
Qed.

(** ** The Atmakarak scan *)

Lemma valid_degree_range (chart : value) (c : string) (q : Q) :
  valid_degree chart c = Some q -> (0 <= q)%Q /\ (q <= 360)%Q.
Proof.
  unfold valid_degree, in_range_degree.
  destruct (degree_field chart c) as [| | |[| |q']| | |]; try discriminate.
  destruct (Qle_bool 0 q') eqn:E1; [|discriminate].
  destruct (Qle_bool q' 360) eqn:E2; [|discriminate].
  simpl. intros [= <-]. split; apply Qle_bool_iff; assumption.
Qed.

Lemma valid_degree_shape (chart : value) (c : string) (q : Q) :
  valid_degree chart c = Some q -> chart_shape_ok chart = true.
Proof.
  unfold valid_degree, degree_field, chart_shape_ok.
  destruct chart as [| | | | |o|]; try discriminate.
  destruct (prop (VObj o) "meta") as [| | | | |m|a]; try discriminate; reflexivity.
Qed.

(** One iteration of the source loop is [scan_step] at the planet's
    valid degree; it never throws when [meta] is not null or
    undefined. *)
Lemma scan_planet_meta (meta : value) (st : Vedic.locals) (p : string) :
  nullish meta = false ->
  Vedic.scan_planet meta st p
  = inr (scan_step (in_range_degree (prop (prop meta p) "degree")) st p).
Proof.
  intros Hmeta. unfold Vedic.scan_planet, get. rewrite Hmeta.
  change (mret (prop meta p) ≫= _) with
    (let entry := prop meta p in
     if truthy entry then
       (if nullish entry then throw (type_error entry "degree")
        else mret (prop entry "degree")) ≫= fun d =>
         if String.eqb (typeof d) "number" then
           let degree := parseFloat_String_num (Vedic.as_number d) in
           if negb (isNaN degree) && num_ge degree (num 0) && num_le degree (num 360) then
             if num_gt degree (Vedic.maxDegrees st) then
               mret {| Vedic.maxDegrees := degree;
                       Vedic.atmakarak := p;
                       Vedic.validPlanets := push (Vedic.validPlanets st) p |}
             else
               mret {| Vedic.maxDegrees := Vedic.maxDegrees st;
                       Vedic.atmakarak := Vedic.atmakarak st;
                       Vedic.validPlanets := push (Vedic.validPlanets st) p |}
           else mret st
         else mret st
     else (mret st : exc Vedic.locals)).
  cbv zeta.
  destruct (prop meta p) as [| |b|n|s|e|]; simpl; try reflexivity.
  - destruct b; reflexivity.
  - destruct (negb (isNaN n) && negb (num_is_zero n)); reflexivity.
  - destruct (negb (String.eqb s EmptyString)); reflexivity.
  - destruct (default VUndefined (e !! "degree")) as [| | |[| |q]| | |];
      simpl; try reflexivity.
    + destruct negative; reflexivity.
    + unfold parseFloat_String_num, scan_step.
      change (Qle_bool (inject_Z 0) q && Qle_bool q (inject_Z 360))
        with (Qle_bool 0 q && Qle_bool q 360).
      destruct (Qle_bool 0 q && Qle_bool q 360); simpl; [|reflexivity].
      destruct (num_gt (Finite q) (Vedic.maxDegrees st)); reflexivity.
Qed.

Lemma scan_planet_step (chart : value) (st : Vedic.locals) (p : string) :
  chart_shape_ok chart = true ->
  Vedic.scan_planet (prop chart "meta") st p
  = inr (scan_step (valid_degree chart p) st p).
Proof.
  intros Hshape. apply scan_planet_meta.
  unfold chart_shape_ok in Hshape.
  destruct chart as [| | | | |o|]; try discriminate.
  destruct (prop (VObj o) "meta") as [| | | | |m|a]; try discriminate; reflexivity.
Qed.

Lemma for_of_scan (chart : value) (ps : list string) (st : Vedic.locals) :
  chart_shape_ok chart = true ->
  for_of ps (Vedic.scan_planet (prop chart "meta")) st = inr (scan_all chart ps st).
Proof.
  intros Hshape. revert st.
  induction ps as [|p ps IH]; intros st; simpl.
  - reflexivity.
  - rewrite (scan_planet_step chart st p Hshape). simpl. apply IH.
Qed.

(** The two shapes of the result. *)
Lemma calculateAtmakarak_try_shaped (chart : value) :
  chart_shape_ok chart = true ->
  Vedic.calculateAtmakarak_try chart
  = inr (let st := scan_all chart Vedic.planets Vedic.locals_init in
         if (length (Vedic.validPlanets st) =? 0)%nat then "Sun"
         else Vedic.planet_name (Vedic.atmakarak st)).
Proof.
  intros Hshape. unfold Vedic.calculateAtmakarak_try.
  pose proof (for_of_scan chart Vedic.planets Vedic.locals_init Hshape) as Hscan.
  unfold chart_shape_ok in Hshape.
  destruct chart as [| | | | |o|]; try discriminate.
  change (match get (VObj o) "meta" with
          | inl e => inl e
          | inr meta =>
              if negb (truthy meta) || negb (String.eqb (typeof meta) "object")
              then inr "Sun"
              else
                match for_of Vedic.planets (Vedic.scan_planet meta) Vedic.locals_init with
                | inl e => inl e
                | inr st =>
                    if (length (Vedic.validPlanets st) =? 0)%nat then inr "Sun"
                    else inr (Vedic.planet_name (Vedic.atmakarak st))
                end
          end
          = inr (let st := scan_all (VObj o) Vedic.planets Vedic.locals_init in
                 if (length (Vedic.validPlanets st) =? 0)%nat then "Sun"
                 else Vedic.planet_name (Vedic.atmakarak st))).
  change (get (VObj o) "meta") with (@inr thrown value (prop (VObj o) "meta")).
  cbv beta iota.
  destruct (prop (VObj o) "meta") as [| | | | |m|a] eqn:Hm; try discriminate.
  - change (negb (truthy (VObj m)) || negb (String.eqb (typeof (VObj m)) "object"))
      with false.
    cbv beta iota. rewrite Hscan. cbv beta iota zeta.
    destruct (length _ =? 0)%nat; reflexivity.
  - change (negb (truthy (VArr a)) || negb (String.eqb (typeof (VArr a)) "object"))
      with false.
    cbv beta iota. rewrite Hscan. cbv beta iota zeta.
    destruct (length _ =? 0)%nat; reflexivity.
Qed.

Lemma calculateAtmakarak_try_unshaped (chart : value) :
  chart_shape_ok chart = false ->
  Vedic.calculateAtmakarak_try chart = inr "Sun".
Proof.
  unfold chart_shape_ok, Vedic.calculateAtmakarak_try.
  destruct chart as [| |b|n|s|o|]; try reflexivity.
  - intros _. destruct b; reflexivity.
  - intros _. simpl. destruct (negb (isNaN n) && negb (num_is_zero n)); reflexivity.
  - intros _. simpl. destruct (negb (String.eqb s EmptyString)); reflexivity.
  - simpl. unfold get. simpl.
    destruct (default VUndefined (o !! "meta")) as [| |b|n|s|m|]; try discriminate;
      intros _; simpl; try reflexivity.
    + destruct b; reflexivity.
    + destruct (negb (isNaN n) && negb (num_is_zero n)); reflexivity.
    + destruct (negb (String.eqb s EmptyString)); reflexivity.
Qed.

(** The [try] block never throws on plain data, so the [catch] is
    not reached. *)
Lemma calculateAtmakarak_try_returns (chart : value) :
  Vedic.calculateAtmakarak_try chart = inr (Vedic.calculateAtmakarak chart).
Proof.
  unfold Vedic.calculateAtmakarak.
  destruct (chart_shape_ok chart) eqn:Hshape.
  - rewrite (calculateAtmakarak_try_shaped chart Hshape). reflexivity.
  - rewrite (calculateAtmakarak_try_unshaped chart Hshape). reflexivity.
Qed.

Lemma unshaped_no_valid_degree (chart : value) (c : string) :
  chart_shape_ok chart = false -> valid_degree chart c = None.
Proof.
  intros Hshape. destruct (valid_degree chart c) as [q|] eqn:E; [|reflexivity].
  apply valid_degree_shape in E. congruence.
Qed.

(** *** Facts about the fold *)

Lemma scan_all_app (chart : value) (l1 l2 : list string) (st : Vedic.locals) :
  scan_all chart (l1 ++ l2) st = scan_all chart l2 (scan_all chart l1 st).
Proof. unfold scan_all. apply fold_left_app. Qed.

Lemma scan_all_cons (chart : value) (p : string) (ps : list string) (st : Vedic.locals) :
  scan_all chart (p :: ps) st
  = scan_all chart ps (scan_step (valid_degree chart p) st p).
Proof. reflexivity. Qed.

(** Planets whose valid degree does not exceed the running maximum
    leave maximum and winner alone. *)
Lemma scan_all_no_update (chart : value) (ps : list string) :
  forall (st : Vedic.locals) (m : Q),
    Vedic.maxDegrees st = Finite m ->
    (forall c q, In c ps -> valid_degree chart c = Some q -> (q <= m)%Q) ->
    Vedic.maxDegrees (scan_all chart ps st) = Vedic.maxDegrees st /\
    Vedic.atmakarak (scan_all chart ps st) = Vedic.atmakarak st.
Proof.
  induction ps as [|p ps IH]; intros st m Hm Hle.
  - split; reflexivity.
  - rewrite scan_all_cons.
    assert (Hstep : Vedic.maxDegrees (scan_step (valid_degree chart p) st p)
                    = Vedic.maxDegrees st /\
                    Vedic.atmakarak (scan_step (valid_degree chart p) st p)
                    = Vedic.atmakarak st).
    { unfold scan_step. destruct (valid_degree chart p) as [q|] eqn:E; [|split; reflexivity].
      rewrite Hm. unfold num_gt. simpl.
      destruct (Qltb m q) eqn:Hlt.
      - apply Qltb_lt in Hlt. specialize (Hle p q (or_introl eq_refl) E).
        exfalso. apply (Qlt_not_le _ _ Hlt Hle).
      - simpl. split; reflexivity. }
    destruct Hstep as [Hmax Hatm].
    destruct (IH (scan_step (valid_degree chart p) st p) m) as [IH1 IH2].
    + rewrite Hmax. exact Hm.
    + intros c q Hin. apply Hle. right. exact Hin.
    + split; [rewrite IH1; exact Hmax | rewrite IH2; exact Hatm].
Qed.

(** Planets whose valid degrees are all below a bound keep the
    running maximum below it. *)
Lemma scan_all_below (chart : value) (ps : list string) (b : Q) :
  forall (st : Vedic.locals) (m : Q),
    Vedic.maxDegrees st = Finite m -> (m < b)%Q ->
    (forall c q, In c ps -> valid_degree chart c = Some q -> (q < b)%Q) ->
    exists m', Vedic.maxDegrees (scan_all chart ps st) = Finite m' /\ (m' < b)%Q.
Proof.
  induction ps as [|p ps IH]; intros st m Hm Hmb Hlt.
  - exists m. split; assumption.
  - rewrite scan_all_cons.
    assert (Hstep : exists m1,
               Vedic.maxDegrees (scan_step (valid_degree chart p) st p) = Finite m1
               /\ (m1 < b)%Q).
    { unfold scan_step. destruct (valid_degree chart p) as [q|] eqn:E.
      - destruct (num_gt (Finite q) (Vedic.maxDegrees st)).
        + exists q. split; [reflexivity|]. apply (Hlt p q); [left; reflexivity | exact E].
        + exists m. split; assumption.
      - exists m. split; assumption. }
    destruct Hstep as (m1 & Hm1 & Hm1b).
    apply (IH _ m1 Hm1 Hm1b).
    intros c q Hin. apply Hlt. right. exact Hin.
Qed.

(** The first planet whose valid degree exceeds everything before it
    and is not exceeded afterwards is the winner. *)
Lemma scan_all_winner (chart : value) (l1 l2 : list string) (w : string) (qw : Q) :
  forall (st : Vedic.locals) (m : Q),
    Vedic.maxDegrees st = Finite m -> (m < qw)%Q ->
    valid_degree chart w = Some qw ->
    (forall c q, In c l1 -> valid_degree chart c = Some q -> (q < qw)%Q) ->
    (forall c q, In c l2 -> valid_degree chart c = Some q -> (q <= qw)%Q) ->
    Vedic.maxDegrees (scan_all chart (l1 ++ w :: l2) st) = Finite qw /\
    Vedic.atmakarak (scan_all chart (l1 ++ w :: l2) st) = w.
Proof.
  intros st m Hm Hmq Hw Hbefore Hafter.
  rewrite scan_all_app, scan_all_cons.
  destruct (scan_all_below chart l1 qw st m Hm Hmq Hbefore) as (m1 & Hm1 & Hm1q).
  set (st1 := scan_all chart l1 st) in *.
  assert (Hstep : scan_step (valid_degree chart w) st1 w
                  = {| Vedic.maxDegrees := Finite qw;
                       Vedic.atmakarak := w;
                       Vedic.validPlanets := push (Vedic.validPlanets st1) w |}).
  { unfold scan_step. rewrite Hw, Hm1. unfold num_gt. simpl.
    apply Qltb_lt in Hm1q. rewrite Hm1q. reflexivity. }
  rewrite Hstep.
  destruct (scan_all_no_update chart l2
              {| Vedic.maxDegrees := Finite qw;
                 Vedic.atmakarak := w;
                 Vedic.validPlanets := push (Vedic.validPlanets st1) w |}
              qw eq_refl Hafter) as [H1 H2].
  split; [rewrite H1 | rewrite H2]; reflexivity.
Qed.

(** The planets recorded as valid are those with a valid degree. *)
Lemma scan_all_validPlanets (chart : value) (ps : list string) :
  forall st : Vedic.locals,
    Vedic.validPlanets (scan_all chart ps st)
    = Vedic.validPlanets st
      ++ List.filter (fun c => match valid_degree chart c with
                               | Some _ => true
                               | None => false
                               end) ps.
Proof.
  induction ps as [|p ps IH]; intros st.
  - simpl. rewrite app_nil_r. reflexivity.
  - rewrite scan_all_cons, IH. unfold scan_step. simpl.
    destruct (valid_degree chart p) as [q|].
    + destruct (num_gt (Finite q) (Vedic.maxDegrees st)); simpl;
        unfold push; rewrite <- app_assoc; reflexivity.
    + reflexivity.
Qed.

(** The winner is the initial one or one of the scanned planets. *)
Lemma scan_all_atmakarak_in (chart : value) (ps : list string) :
  forall st : Vedic.locals,
    In (Vedic.atmakarak (scan_all chart ps st)) (Vedic.atmakarak st :: ps).
Proof.
  induction ps as [|p ps IH]; intros st.
  - left. reflexivity.
  - rewrite scan_all_cons.
    destruct (IH (scan_step (valid_degree chart p) st p)) as [H|H].
    + rewrite <- H. unfold scan_step.
      destruct (valid_degree chart p) as [q|]; [|left; reflexivity].
      destruct (num_gt (Finite q) (Vedic.maxDegrees st)); simpl;
        [right; left; reflexivity | left; reflexivity].
    + right. right. exact H.
Qed.

Lemma scan_all_records (chart : value) (ps : list string) (st : Vedic.locals)
    (w : string) (q : Q) :
  In w ps -> valid_degree chart w = Some q ->
  (length (Vedic.validPlanets (scan_all chart ps st)) =? 0)%nat = false.
Proof.
  intros Hin Hw. rewrite scan_all_validPlanets.
  assert (Hf : In w (List.filter (fun c => match valid_degree chart c with
                                           | Some _ => true
                                           | None => false
                                           end) ps)).
  { apply filter_In. split; [exact Hin | rewrite Hw; reflexivity]. }
  destruct (List.filter _ ps) as [|x xs]; [destruct Hf|].
  rewrite length_app. simpl. apply Nat.eqb_neq. lia.
Qed.

Lemma scan_all_none (chart : value) (ps : list string) (st : Vedic.locals) :
  (forall c, In c ps -> valid_degree chart c = None) ->
  scan_all chart ps st = st.
Proof.
  revert st. induction ps as [|p ps IH]; intros st Hnone.
  - reflexivity.
  - rewrite scan_all_cons, (Hnone p (or_introl eq_refl)). simpl.
    apply IH. intros c Hin. apply Hnone. right. exact Hin.
Qed.

Lemma calculateAtmakarak_shaped (chart : value) :
  chart_shape_ok chart = true ->
  Vedic.calculateAtmakarak chart
  = let st := scan_all chart Vedic.planets Vedic.locals_init in
    if (length (Vedic.validPlanets st) =? 0)%nat then "Sun"
    else Vedic.planet_name (Vedic.atmakarak st).
Proof.
  intros Hshape. unfold Vedic.calculateAtmakarak.
  rewrite (calculateAtmakarak_try_shaped chart Hshape). reflexivity.
Qed.

Lemma calculateAtmakarak_unshaped (chart : value) :
  chart_shape_ok chart = false -> Vedic.calculateAtmakarak chart = "Sun".
Proof.
  intros Hshape. unfold Vedic.calculateAtmakarak.
  rewrite (calculateAtmakarak_try_unshaped chart Hshape). reflexivity.
Qed.

(** The earliest planet holding a positive maximum wins. *)
Lemma atmakarak_of_first_maximum (chart : value) (l1 l2 : list string)
    (w : string) (qw : Q) :
  Vedic.planets = l1 ++ w :: l2 ->
  valid_degree chart w = Some qw ->
  (0 < qw)%Q ->
  (forall c q, In c l1 -> valid_degree chart c = Some q -> (q < qw)%Q) ->
  (forall c q, In c l2 -> valid_degree chart c = Some q -> (q <= qw)%Q) ->
  Vedic.calculateAtmakarak chart = Vedic.planet_name w.
Proof.
  intros Hsplit Hw Hpos Hbefore Hafter.
  rewrite (calculateAtmakarak_shaped chart (valid_degree_shape chart w qw Hw)).
  cbv zeta. rewrite Hsplit.
  destruct (scan_all_winner chart l1 l2 w qw Vedic.locals_init 0 eq_refl
              Hpos Hw Hbefore Hafter) as [_ Hatm].
  rewrite Hatm.
  rewrite (scan_all_records chart (l1 ++ w :: l2) Vedic.locals_init w qw);
    [reflexivity | apply in_elt | exact Hw].
Qed.

(** When nothing exceeds 0 the initial winner stays. *)
Lemma atmakarak_without_positive_degree (chart : value) :
  (forall c q, In c Vedic.planets -> valid_degree chart c = Some q -> (q <= 0)%Q) ->
  Vedic.calculateAtmakarak chart = "Sun".
Proof.
  intros Hle.
  destruct (chart_shape_ok chart) eqn:Hshape;
    [|apply calculateAtmakarak_unshaped; exact Hshape].
  rewrite (calculateAtmakarak_shaped chart Hshape). cbv zeta.
  destruct (scan_all_no_update chart Vedic.planets Vedic.locals_init 0 eq_refl Hle)
    as [_ Hatm].
  rewrite Hatm. destruct (length _ =? 0)%nat; reflexivity.
Qed.

(** Sun wins whenever it holds the maximum, whatever its value. *)
Lemma atmakarak_sun_holds_maximum (chart : value) (q : Q) :
  valid_degree chart "Su" = Some q ->
  (forall c q', In c Vedic.planets -> valid_degree chart c = Some q' -> (q' <= q)%Q) ->
  Vedic.calculateAtmakarak chart = "Sun".
Proof.
  intros Hsu Hmax.
  destruct (Qlt_le_dec 0 q) as [Hpos|Hzero].
  - apply (atmakarak_of_first_maximum chart [] ["Mo"; "Ma"; "Me"; "Ju"; "Ve"; "Sa"]
             "Su" q eq_refl Hsu Hpos).
    + intros c q' [].
    + intros c q' Hin. apply Hmax. right. exact Hin.
  - apply atmakarak_without_positive_degree.
    intros c q' Hin Hc. apply Qle_trans with q; [apply (Hmax c q' Hin Hc) | exact Hzero].
Qed.

Ltac each_planet H :=
  unfold Vedic.planets in H; simpl in H;
  repeat (destruct H as [H|H]; [try subst|]); [..|contradiction].

(** Side conditions of [atmakarak_of_first_maximum] at a concrete
    split of the planet list. *)
Ltac earlier_side Hlt :=
  let c := fresh "c" in let q := fresh "q" in let Hin := fresh "Hin" in
  intros c q Hin; simpl in Hin; apply Hlt; [vm_compute|];
  intuition (subst; discriminate || auto).

Ltac later_side Hle :=
  let c := fresh "c" in let q := fresh "q" in let Hin := fresh "Hin" in
  intros c q Hin; simpl in Hin; apply Hle; vm_compute; intuition.

Lemma planet_name_lookup (w : string) :
  In w Vedic.planets -> Vedic.planetNames !! w = Some (Vedic.planet_name w).
Proof. intros H. each_planet H; reflexivity. Qed.

(** The table of the source gives each code the name the
    specification gives it. *)
Lemma planet_name_english (w : string) :
  In w Vedic.planets -> Vedic.planet_name w = english_name w.
Proof. intros H. each_planet H; reflexivity. Qed.

Lemma planet_name_full (w : string) :
  In w Vedic.planets -> In (Vedic.planet_name w) full_names.
Proof. intros H. each_planet H; vm_compute; tauto. Qed.

(** C1. When all seven planets carry a numeric degree within [0, 360]
    and the degrees are pairwise distinct, [calculateAtmakarak]
    returns the full English name of the planet with the largest
    degree. *)
Theorem atmakarak_largest_distinct_degree :
  forall (chart : value) (deg : string -> Q) (w : string),
    (forall c, In c Vedic.planets -> valid_degree chart c = Some (deg c)) ->
    (forall c c', In c Vedic.planets -> In c' Vedic.planets ->
                  c <> c' -> ~ (deg c == deg c')%Q) ->
    In w Vedic.planets ->
    (forall c, In c Vedic.planets -> (deg c <= deg w)%Q) ->
    Vedic.calculateAtmakarak chart = english_name w.
Proof.
  intros chart deg w Hvalid Hdistinct Hw Hmax.
  assert (Hstrict : forall c, In c Vedic.planets -> c <> w -> (deg c < deg w)%Q).
  { intros c Hc Hne. destruct (Qle_lteq (deg c) (deg w)) as [Hcases _].
    destruct (Hcases (Hmax c Hc)) as [Hlt|Heq]; [exact Hlt|].
    exfalso. exact (Hdistinct c w Hc Hw Hne Heq). }
  assert (Hpos : (0 < deg w)%Q).
  { destruct (String.string_dec w "Su") as [->|Hne].
    - apply Qle_lt_trans with (deg "Mo").
      + apply (valid_degree_range chart "Mo"). apply Hvalid. vm_compute. tauto.
      + apply Hstrict; [vm_compute; tauto | discriminate].
    - apply Qle_lt_trans with (deg "Su").
      + apply (valid_degree_range chart "Su"). apply Hvalid. vm_compute. tauto.
      + apply Hstrict; [vm_compute; tauto | congruence]. }
  assert (Hlt : forall c q, In c Vedic.planets -> c <> w ->
                            valid_degree chart c = Some q -> (q < deg w)%Q).
  { intros c q Hc Hne Hq. rewrite (Hvalid c Hc) in Hq. injection Hq as <-.
    apply Hstrict; assumption. }
  assert (Hle : forall c q, In c Vedic.planets ->
                            valid_degree chart c = Some q -> (q <= deg w)%Q).
  { intros c q Hc Hq. rewrite (Hvalid c Hc) in Hq. injection Hq as <-.
    apply Hmax; assumption. }
  rewrite <- (planet_name_english w Hw).
  pose proof (Hvalid w Hw) as Hwv.
  each_planet Hw.
  - apply (atmakarak_of_first_maximum chart [] ["Mo"; "Ma"; "Me"; "Ju"; "Ve"; "Sa"]
             "Su" (deg "Su") eq_refl Hwv Hpos); [earlier_side Hlt | later_side Hle].
  - apply (atmakarak_of_first_maximum chart ["Su"] ["Ma"; "Me"; "Ju"; "Ve"; "Sa"]
             "Mo" (deg "Mo") eq_refl Hwv Hpos); [earlier_side Hlt | later_side Hle].
  - apply (atmakarak_of_first_maximum chart ["Su"; "Mo"] ["Me"; "Ju"; "Ve"; "Sa"]
             "Ma" (deg "Ma") eq_refl Hwv Hpos); [earlier_side Hlt | later_side Hle].
  - apply (atmakarak_of_first_maximum chart ["Su"; "Mo"; "Ma"] ["Ju"; "Ve"; "Sa"]
             "Me" (deg "Me") eq_refl Hwv Hpos); [earlier_side Hlt | later_side Hle].
  - apply (atmakarak_of_first_maximum chart ["Su"; "Mo"; "Ma"; "Me"] ["Ve"; "Sa"]
             "Ju" (deg "Ju") eq_refl Hwv Hpos); [earlier_side Hlt | later_side Hle].
  - apply (atmakarak_of_first_maximum chart ["Su"; "Mo"; "Ma"; "Me"; "Ju"] ["Sa"]
             "Ve" (deg "Ve") eq_refl Hwv Hpos); [earlier_side Hlt | later_side Hle].
  - apply (atmakarak_of_first_maximum chart ["Su"; "Mo"; "Ma"; "Me"; "Ju"; "Ve"] []
             "Sa" (deg "Sa") eq_refl Hwv Hpos); [earlier_side Hlt | later_side Hle].
Qed.

Lemma atmakarak_largest_distinct_degree_witness :
  Vedic.calculateAtmakarak chart_distinct = "Mars".
Proof.
  apply (atmakarak_largest_distinct_degree chart_distinct
           (fun c => default 0%Q (valid_degree chart_distinct c)) "Ma").
  - intros c H. each_planet H; reflexivity.
  - intros c c' H H'. each_planet H; each_planet H'; intros Hne;
      try congruence; vm_compute; discriminate.
  - vm_compute. tauto.
  - intros c H. each_planet H; vm_compute; discriminate.
Defined.

(** C2, amended.  When two or more planets share the maximum valid
    degree, and that degree is above 0 or its earliest holder is Sun,
    [calculateAtmakarak] returns the earliest holder in the order
    Sun, Moon, Mars, Mercury, Jupiter, Venus, Saturn.  With Sun and
    Mars at 200 and every other planet lower the result is Sun. *)
Theorem atmakarak_tie_earliest_wins :
  forall (chart : value) (earlier later : list string) (w c : string) (q qc : Q),
    Vedic.planets = earlier ++ w :: later ->
    valid_degree chart w = Some q ->
    In c later -> valid_degree chart c = Some qc -> (qc == q)%Q ->
    (forall p qp, In p earlier -> valid_degree chart p = Some qp -> (qp < q)%Q) ->
    (forall p qp, In p later -> valid_degree chart p = Some qp -> (qp <= q)%Q) ->
    (0 < q)%Q \/ w = "Su" ->
    Vedic.calculateAtmakarak chart = english_name w.
Proof.
  intros chart earlier later w c q qc Hsplit Hw _ _ _ Hearlier Hlater Hcase.
  assert (Hin : In w Vedic.planets) by (rewrite Hsplit; apply in_elt).
  rewrite <- (planet_name_english w Hin).
  destruct Hcase as [Hpos | ->].
  - apply (atmakarak_of_first_maximum chart earlier later w q Hsplit Hw Hpos Hearlier Hlater).
  - apply (atmakarak_sun_holds_maximum chart q Hw).
    intros p qp Hp Hqp. rewrite Hsplit in Hp.
    apply in_app_or in Hp. destruct Hp as [Hp | [<- | Hp]].
    + apply Qlt_le_weak. apply (Hearlier p qp Hp Hqp).
    + rewrite Hw in Hqp. injection Hqp as <-. apply Qle_refl.
    + apply (Hlater p qp Hp Hqp).
Qed.

Lemma atmakarak_tie_earliest_wins_witness :
  Vedic.calculateAtmakarak chart_tie = "Sun" /\
  Vedic.calculateAtmakarak chart_tie_no_sun = "Moon".
Proof.
  split.
  - apply (atmakarak_tie_earliest_wins chart_tie
             [] ["Mo"; "Ma"; "Me"; "Ju"; "Ve"; "Sa"] "Su" "Ma" 200 200).
    + reflexivity.
    + reflexivity.
    + simpl. tauto.
    + reflexivity.
    + reflexivity.
    + intros p qp [].
    + intros p qp Hin. simpl in Hin.
      repeat (destruct Hin as [<-|Hin]; [vm_compute; intros [= <-]; discriminate|]).
      contradiction.
    + right. reflexivity.
  - apply (atmakarak_tie_earliest_wins chart_tie_no_sun
             ["Su"] ["Ma"; "Me"; "Ju"; "Ve"; "Sa"] "Mo" "Ma" 120 120).
    + reflexivity.
    + reflexivity.
    + simpl. tauto.
    + reflexivity.
    + reflexivity.
    + intros p qp Hin. simpl in Hin.
      repeat (destruct Hin as [<-|Hin]; [vm_compute; discriminate|]).
      contradiction.
    + intros p qp Hin. simpl in Hin.
      repeat (destruct Hin as [<-|Hin];
              [vm_compute; try discriminate; intros [= <-]; discriminate|]).
      contradiction.
    + left. reflexivity.
Defined.

(** C2 as stated fails when the shared maximum is 0 and Sun has no
    valid degree: Moon and Mars tie at 0, Moon is the earliest holder,
    and the result is the default Sun. *)
Lemma tie_at_zero_goes_to_sun :
  valid_degree chart_tie_at_zero "Mo" = Some 0%Q /\
  valid_degree chart_tie_at_zero "Ma" = Some 0%Q /\
  (forall c, In c Vedic.planets -> c <> "Mo" -> c <> "Ma" ->
             valid_degree chart_tie_at_zero c = None) /\
  Vedic.calculateAtmakarak chart_tie_at_zero = "Sun" /\
  Vedic.calculateAtmakarak chart_tie_at_zero <> english_name "Mo".
Proof.
  repeat split; try reflexivity.
  - intros c H Hmo Hma. each_planet H; try reflexivity; congruence.
  - vm_compute. discriminate.
Qed.

(** C3. When none of the seven planets has a degree that is present,
    numeric and within [0, 360], [calculateAtmakarak] returns Sun, and
    its [try] block completes without throwing. *)
Theorem atmakarak_default_without_valid_degree :
  forall chart : value,
    (forall c, In c Vedic.planets -> valid_degree chart c = None) ->
    Vedic.calculateAtmakarak_try chart = inr "Sun" /\
    Vedic.calculateAtmakarak chart = "Sun".
Proof.
  intros chart Hnone.
  assert (Hsun : Vedic.calculateAtmakarak chart = "Sun").
  { apply atmakarak_without_positive_degree.
    intros c q Hc Hq. rewrite (Hnone c Hc) in Hq. discriminate. }
  split; [|exact Hsun].
  rewrite calculateAtmakarak_try_returns, Hsun. reflexivity.
Qed.

Lemma atmakarak_default_without_valid_degree_witness :
  Vedic.calculateAtmakarak_try chart_malformed = inr "Sun" /\
  Vedic.calculateAtmakarak chart_malformed = "Sun".
Proof.
  apply (atmakarak_default_without_valid_degree chart_malformed).
  intros c H. each_planet H; reflexivity.
Defined.

(** C4. For every chart value, including null, non-objects and charts
    with malformed entries, [calculateAtmakarak] completes without
    throwing and returns one of the seven full planet names, which is
    never the empty string. *)
Theorem atmakarak_total_and_named :
  forall chart : value,
    Vedic.calculateAtmakarak_try chart = inr (Vedic.calculateAtmakarak chart) /\
    In (Vedic.calculateAtmakarak chart) full_names /\
    Vedic.calculateAtmakarak chart <> EmptyString.
Proof.
  intros chart.
  assert (Hin : In (Vedic.calculateAtmakarak chart) full_names).
  { destruct (chart_shape_ok chart) eqn:Hshape.
    - rewrite (calculateAtmakarak_shaped chart Hshape). cbv zeta.
      destruct (length _ =? 0)%nat; [left; reflexivity|].
      destruct (scan_all_atmakarak_in chart Vedic.planets Vedic.locals_init) as [H|H].
      + rewrite <- H. left. reflexivity.
      + apply planet_name_full. exact H.
    - rewrite (calculateAtmakarak_unshaped chart Hshape). left. reflexivity. }
  split; [apply calculateAtmakarak_try_returns|].
  split; [exact Hin|].
  intros Hempty. rewrite Hempty in Hin. simpl in Hin.
  repeat (destruct Hin as [Hin|Hin]; [discriminate|]). contradiction.
Qed.

(** C5. In the per-planet filter a degree of exactly 0 or exactly 360
    is valid data: the planet is recorded and compared.  A degree
    strictly below 0 or strictly above 360 skips the planet: the
    locals are left as they were, the degree is not read as zero. *)
Theorem degree_filter_boundaries :
  forall (meta : value) (st : Vedic.locals) (planet : string) (n : number),
    nullish meta = false ->
    prop (prop meta planet) "degree" = VNum n ->
    (forall q, n = Finite q -> (q == 0 \/ q == 360)%Q ->
       Vedic.scan_planet meta st planet = inr (scan_step (Some q) st planet)) /\
    (num_lt n (num 0) = true \/ num_gt n (num 360) = true ->
       Vedic.scan_planet meta st planet = inr st).
Proof.
  intros meta st planet n Hmeta Hdeg.
  rewrite (scan_planet_meta meta st planet Hmeta), Hdeg.
  split.
  - intros q -> Hq. unfold in_range_degree.
    assert (H0 : Qle_bool 0 q = true) by (apply Qle_bool_iff; destruct Hq; lra).
    assert (H360 : Qle_bool q 360 = true) by (apply Qle_bool_iff; destruct Hq; lra).
    rewrite H0, H360. reflexivity.
  - intros Hout. unfold in_range_degree.
    destruct n as [|neg|q]; try reflexivity.
    assert (Hcond : Qle_bool 0 q && Qle_bool q 360 = false).
    { destruct Hout as [Hlow|Hhigh].
      - apply Qltb_lt in Hlow. apply andb_false_iff. left.
        apply Qle_bool_false. exact Hlow.
      - apply Qltb_lt in Hhigh. apply andb_false_iff. right.
        apply Qle_bool_false. exact Hhigh. }
    rewrite Hcond. reflexivity.
Qed.

Lemma degree_filter_boundaries_witness :
  Vedic.scan_planet (prop chart_boundaries "meta") Vedic.locals_init "Su"
  = inr (scan_step (Some 0%Q) Vedic.locals_init "Su") /\
  Vedic.scan_planet (prop chart_boundaries "meta") Vedic.locals_init "Mo"
  = inr (scan_step (Some 360%Q) Vedic.locals_init "Mo") /\
  Vedic.scan_planet (prop chart_malformed "meta") Vedic.locals_init "Mo"
  = inr Vedic.locals_init /\
  Vedic.scan_planet (prop chart_malformed "meta") Vedic.locals_init "Ma"
  = inr Vedic.locals_init.
Proof.
  split; [|split; [|split]].
  - apply (degree_filter_boundaries (prop chart_boundaries "meta")
             Vedic.locals_init "Su" (Finite 0));
      [reflexivity | reflexivity | reflexivity | left; reflexivity].
  - apply (degree_filter_boundaries (prop chart_boundaries "meta")
             Vedic.locals_init "Mo" (Finite 360));
      [reflexivity | reflexivity | reflexivity | right; reflexivity].
  - apply (degree_filter_boundaries (prop chart_malformed "meta")
             Vedic.locals_init "Mo" (Finite (3600001 # 10000)));
      [reflexivity | reflexivity | right; reflexivity].
  - apply (degree_filter_boundaries (prop chart_malformed "meta")
             Vedic.locals_init "Ma" (Finite (-1 # 10000)));
      [reflexivity | reflexivity | left; reflexivity].
Defined.

(** The boundaries seen from the whole function: Moon at exactly 360
    wins over Sun at exactly 0. *)
Example boundary_degrees_compete :
  Vedic.calculateAtmakarak chart_boundaries = "Moon".
Proof. reflexivity. Qed.

(** ** The two revisions of the Atmakarak computation *)

Lemma valid_degree_field (chart : value) (c : string) (q : Q) :
  valid_degree chart c = Some q ->
  exists e, prop (prop chart "meta") c = VObj e /\
            prop (VObj e) "degree" = VNum (Finite q).
Proof.
  unfold valid_degree, degree_field, in_range_degree.
  destruct (prop (prop chart "meta") c) as [| | | | |e|]; try discriminate.
  intros H. exists e. split; [reflexivity|].
  destruct (prop (VObj e) "degree") as [| | |[| |q']| | |]; try discriminate.
  destruct (Qle_bool 0 q' && Qle_bool q' 360); [|discriminate].
  injection H as <-. reflexivity.
Qed.

Lemma legacy_scan_planet_valid (coerce : value -> number) (chart : value)
    (st : VedicLegacy.locals) (p : string) (q : Q) :
  chart_shape_ok chart = true ->
  valid_degree chart p = Some q ->
  VedicLegacy.scan_planet coerce (prop chart "meta") st p
  = inr (if num_gt (Finite q) (VedicLegacy.maxDegrees st)
         then {| VedicLegacy.maxDegrees := Finite q; VedicLegacy.atmakarak := p |}
         else st).
Proof.
  intros Hshape Hq.
  destruct (valid_degree_field chart p q Hq) as (e & He & Hd).
  assert (Hn : nullish (prop chart "meta") = false).
  { destruct (prop chart "meta"); try discriminate He; reflexivity. }
  unfold VedicLegacy.scan_planet, get. rewrite Hn.
  change (mret (prop (prop chart "meta") p) ≫= ?f) with (f (prop (prop chart "meta") p)).
  cbv beta. rewrite He.
  unfold VedicLegacy.coerced_degree, get_opt.
  change (nullish (VObj e)) with false. cbv iota zeta. rewrite Hd.
  change (nullish (VNum (Finite q))) with false. cbv iota.
  change (VedicLegacy.parseFloat_String coerce (VNum (Finite q)))
    with (@inr thrown number (Finite q)).
  change (inr (Finite q) ≫= ?f) with (f (Finite q)). cbv beta.
  destruct (num_gt (Finite q) (VedicLegacy.maxDegrees st)); reflexivity.
Qed.

(** With valid degrees everywhere the two loops stay in step. *)
Lemma legacy_scan_simulation (coerce : value -> number) (chart : value)
    (ps : list string) :
  chart_shape_ok chart = true ->
  (forall c, In c ps -> exists q, valid_degree chart c = Some q) ->
  forall (st : Vedic.locals) (st' : VedicLegacy.locals),
    VedicLegacy.maxDegrees st' = Vedic.maxDegrees st ->
    VedicLegacy.atmakarak st' = Vedic.atmakarak st ->
    exists st'',
      for_of ps (VedicLegacy.scan_planet coerce (prop chart "meta")) st' = inr st'' /\
      VedicLegacy.maxDegrees st'' = Vedic.maxDegrees (scan_all chart ps st) /\
      VedicLegacy.atmakarak st'' = Vedic.atmakarak (scan_all chart ps st).
Proof.
  intros Hshape. induction ps as [|p ps IH]; intros Hvalid st st' Hmax Hatm.
  - exists st'. repeat split; assumption.
  - destruct (Hvalid p (or_introl eq_refl)) as [q Hq].
    rewrite scan_all_cons.
    change (for_of (p :: ps) (VedicLegacy.scan_planet coerce (prop chart "meta")) st')
      with (VedicLegacy.scan_planet coerce (prop chart "meta") st' p ≫=
            for_of ps (VedicLegacy.scan_planet coerce (prop chart "meta"))).
    rewrite (legacy_scan_planet_valid coerce chart st' p q Hshape Hq).
    change (inr ?x ≫= ?f) with (f x).
    apply IH.
    + intros c Hc. apply Hvalid. right. exact Hc.
    + unfold scan_step. rewrite Hq, Hmax.
      destruct (num_gt (Finite q) (Vedic.maxDegrees st)); [reflexivity | exact Hmax].
    + unfold scan_step. rewrite Hq, Hmax.
      destruct (num_gt (Finite q) (Vedic.maxDegrees st)); [reflexivity | exact Hatm].
Qed.

(** C9. On every chart whose meta mapping is an object and whose seven
    planets all carry a numeric degree within [0, 360], the first
    revision (which reads a missing degree as 0) returns without
    throwing, and returns the planet name the validity-filtering
    revision returns. *)
Theorem atmakarak_revisions_agree :
  forall (coerce : value -> number) (chart : value),
    (forall c, In c Vedic.planets -> exists q, valid_degree chart c = Some q) ->
    VedicLegacy.calculateAtmakarak coerce chart = inr (Vedic.calculateAtmakarak chart).
Proof.
  intros coerce chart Hvalid.
  destruct (Hvalid "Su") as [q Hq]; [vm_compute; tauto|].
  pose proof (valid_degree_shape chart "Su" q Hq) as Hshape.
  rewrite (calculateAtmakarak_shaped chart Hshape). cbv zeta.
  rewrite (scan_all_records chart Vedic.planets Vedic.locals_init "Su" q);
    [|vm_compute; tauto|exact Hq].
  destruct (legacy_scan_simulation coerce chart Vedic.planets Hshape Hvalid
              Vedic.locals_init VedicLegacy.locals_init eq_refl eq_refl)
    as (st'' & Hrun & _ & Hatm).
  unfold VedicLegacy.calculateAtmakarak, get.
  unfold chart_shape_ok in Hshape.
  destruct chart as [| | | | |o|]; try discriminate.
  change (nullish (VObj o)) with false. cbv iota.
  change (mret (prop (VObj o) "meta") ≫= ?f) with (f (prop (VObj o) "meta")).
  cbv beta. rewrite Hrun.
  change (inr st'' ≫= ?f) with (f st''). cbv beta.
  rewrite Hatm. reflexivity.
Qed.

Lemma atmakarak_revisions_agree_witness :
  VedicLegacy.calculateAtmakarak (fun _ => NaN) chart_distinct = inr "Mars" /\
  VedicLegacy.calculateAtmakarak (fun _ => NaN) chart_tie = inr "Sun".
Proof.
  split.
  - apply (atmakarak_revisions_agree (fun _ => NaN) chart_distinct).
    intros c H. each_planet H; eexists; reflexivity.
  - apply (atmakarak_revisions_agree (fun _ => NaN) chart_tie).
    intros c H. each_planet H; eexists; reflexivity.
Defined.

(** ** A planet at 0 degrees *)

(** C10. When the only planet with a valid degree is not Sun and its
    degree is exactly 0, the validity-filtering [calculateAtmakarak]
    returns Sun: the running maximum starts at 0 and the comparison
    is strict. *)
Theorem lone_zero_degree_yields_sun :
  forall (chart : value) (p : string) (q : Q),
    In p Vedic.planets -> p <> "Su" ->
    valid_degree chart p = Some q -> (q == 0)%Q ->
    (forall c, In c Vedic.planets -> c <> p -> valid_degree chart c = None) ->
    Vedic.calculateAtmakarak chart = "Sun" /\
    Vedic.planetNames !! p <> Some (Vedic.calculateAtmakarak chart).
Proof.
  intros chart p q Hp Hne Hq Hzero Hothers.
  assert (Hsun : Vedic.calculateAtmakarak chart = "Sun").
  { apply atmakarak_without_positive_degree.
    intros c q' Hc Hq'.
    destruct (String.string_dec c p) as [->|Hcp].
    - rewrite Hq in Hq'. injection Hq' as <-. rewrite Hzero. apply Qle_refl.
    - rewrite (Hothers c Hc Hcp) in Hq'. discriminate. }
  split; [exact Hsun|].
  rewrite Hsun. each_planet Hp; try congruence; vm_compute; discriminate.
Qed.

Lemma lone_zero_degree_yields_sun_witness :
  Vedic.calculateAtmakarak chart_venus_zero = "Sun" /\
  Vedic.planetNames !! "Ve" <> Some (Vedic.calculateAtmakarak chart_venus_zero).
Proof.
  apply (lone_zero_degree_yields_sun chart_venus_zero "Ve" 0).
  - vm_compute. tauto.
  - discriminate.
  - reflexivity.
  - reflexivity.
  - intros c H Hne. each_planet H; try reflexivity; congruence.
Defined.

(** A winner other than the initial one was put there by a degree
    above the running maximum, hence above 0. *)
Lemma scan_all_winner_positive (chart : value) (ps : list string) :
  forall (st : Vedic.locals) (m : Q),
    Vedic.maxDegrees st = Finite m -> (0 <= m)%Q ->
    Vedic.atmakarak (scan_all chart ps st) = Vedic.atmakarak st \/
    exists q, valid_degree chart (Vedic.atmakarak (scan_all chart ps st)) = Some q
              /\ (0 < q)%Q.
Proof.
  induction ps as [|p ps IH]; intros st m Hm Hpos.
  - left. reflexivity.
  - rewrite scan_all_cons. unfold scan_step.
    destruct (valid_degree chart p) as [q|] eqn:Hq; [|apply (IH st m Hm Hpos)].
    rewrite Hm. unfold num_gt. simpl.
    destruct (Qltb m q) eqn:Hlt.
    + apply Qltb_lt in Hlt.
      assert (Hqpos : (0 < q)%Q) by (apply Qle_lt_trans with m; assumption).
      destruct (IH {| Vedic.maxDegrees := Finite q;
                      Vedic.atmakarak := p;
                      Vedic.validPlanets := push (Vedic.validPlanets st) p |}
                   q eq_refl (Qlt_le_weak _ _ Hqpos)) as [Hsame|Hright].
      * right. exists q. rewrite Hsame. simpl. split; assumption.
      * right. exact Hright.
    + destruct (IH {| Vedic.maxDegrees := Finite m;
                      Vedic.atmakarak := Vedic.atmakarak st;
                      Vedic.validPlanets := push (Vedic.validPlanets st) p |}
                   m eq_refl Hpos) as [Hsame|Hright].
      * left. exact Hsame.
      * right. exact Hright.
Qed.

Lemma planet_name_injective (a b : string) :
  In a Vedic.planets -> In b Vedic.planets ->
  Vedic.planet_name a = Vedic.planet_name b -> a = b.
Proof.
  intros Ha Hb. each_planet Ha; each_planet Hb; vm_compute; intros H;
    first [reflexivity | discriminate H].
Qed.

(** No planet other than Sun becomes the Atmakarak at 0 degrees. *)
Lemma zero_degree_never_wins (chart : value) (p : string) :
  In p Vedic.planets -> p <> "Su" ->
  Vedic.calculateAtmakarak chart = Vedic.planet_name p ->
  exists q, valid_degree chart p = Some q /\ (0 < q)%Q.
Proof.
  intros Hp Hne Hres.
  assert (Hnot_sun : Vedic.planet_name p <> "Sun").
  { intros H. apply Hne. apply planet_name_injective;
      [exact Hp | vm_compute; tauto | exact H]. }
  destruct (chart_shape_ok chart) eqn:Hshape.
  - rewrite (calculateAtmakarak_shaped chart Hshape) in Hres. cbv zeta in Hres.
    destruct (length _ =? 0)%nat; [congruence|].
    pose proof (scan_all_atmakarak_in chart Vedic.planets Vedic.locals_init) as Hin.
    destruct (scan_all_winner_positive chart Vedic.planets Vedic.locals_init 0
                eq_refl (Qle_refl 0)) as [Hsame|(q & Hq & Hpos)].
    + exfalso. apply Hnot_sun. rewrite <- Hres, Hsame. reflexivity.
    + destruct Hin as [Hinit|Hin].
      * exfalso. apply Hnot_sun. rewrite <- Hres, <- Hinit. reflexivity.
      * apply planet_name_injective in Hres; [|exact Hin|exact Hp].
        rewrite Hres in Hq. exists q. split; assumption.
  - rewrite (calculateAtmakarak_unshaped chart Hshape) in Hres. congruence.
Qed.

(** ** The validator *)

Lemma validate_blocks (Date_new : string -> Date)
    (dateString timeString lat lng timezone : value) :
  Vedic.validateAstrologyInput Date_new dateString timeString lat lng timezone
  = check_timezone
      (check_lng
         (check_lat
            (check_time (check_date Date_new [] dateString) timeString)
            lat)
         lng)
      timezone.
Proof. reflexivity. Qed.

Lemma Qle_bool_inject_Z (a b : Z) : Qle_bool (inject_Z a) (inject_Z b) = (a <=? b)%Z.
Proof. unfold Qle_bool. simpl. rewrite !Z.mul_1_r. reflexivity. Qed.

Lemma num_le_num (a b : Z) : num_le (num a) (num b) = (a <=? b)%Z.
Proof. apply Qle_bool_inject_Z. Qed.

Lemma num_lt_num (a b : Z) : num_lt (num a) (num b) = (a <? b)%Z.
Proof.
  unfold num, num_lt, Qltb. rewrite Qle_bool_inject_Z.
  rewrite Z.ltb_antisym. reflexivity.
Qed.

(** Each block only appends to the errors it receives. *)
Lemma check_date_app (Date_new : string -> Date) (errors : list string) (v : value) :
  check_date Date_new errors v = errors ++ check_date Date_new [] v.
Proof.
  unfold check_date, push.
  repeat match goal with
         | |- context [if ?b then _ else _] => destruct b
         end; cbv zeta; simpl; rewrite <- ?app_assoc, ?app_nil_r; reflexivity.
Qed.

Lemma check_time_app (errors : list string) (v : value) :
  check_time errors v = errors ++ check_time [] v.
Proof.
  unfold check_time, push.
  repeat match goal with
         | |- context [if ?b then _ else _] => destruct b
         end; cbv zeta; simpl; rewrite <- ?app_assoc, ?app_nil_r; reflexivity.
Qed.

Lemma check_lat_app (errors : list string) (v : value) :
  check_lat errors v = errors ++ check_lat [] v.
Proof.
  unfold check_lat, push.
  repeat match goal with
         | |- context [if ?b then _ else _] => destruct b
         end; simpl; rewrite ?app_nil_r; reflexivity.
Qed.

Lemma check_lng_app (errors : list string) (v : value) :
  check_lng errors v = errors ++ check_lng [] v.
Proof.
  unfold check_lng, push.
  repeat match goal with
         | |- context [if ?b then _ else _] => destruct b
         end; simpl; rewrite ?app_nil_r; reflexivity.
Qed.

Lemma check_timezone_app (errors : list string) (v : value) :
  check_timezone errors v = errors ++ check_timezone [] v.
Proof.
  unfold check_timezone, push.
  repeat match goal with
         | |- context [if ?b then _ else _] => destruct b
         end; simpl; rewrite ?app_nil_r; reflexivity.
Qed.

(** The violations are the concatenation of the five blocks'. *)
Lemma validate_concat (Date_new : string -> Date)
    (dateString timeString lat lng timezone : value) :
  Vedic.validateAstrologyInput Date_new dateString timeString lat lng timezone
  = check_date Date_new [] dateString ++ check_time [] timeString
    ++ check_lat [] lat ++ check_lng [] lng ++ check_timezone [] timezone.
Proof.
  rewrite validate_blocks.
  rewrite check_timezone_app, check_lng_app, check_lat_app, check_time_app.
  rewrite <- !app_assoc. reflexivity.
Qed.

Lemma digit_not_colon (c : ascii) : is_digit c = true -> Ascii.eqb c ":" = false.
Proof.
  destruct c as [[] [] [] [] [] [] [] []]; intros H; try discriminate H; reflexivity.
Qed.

(** A string let through by [timeRegex] splits into three numbers
    between 0 and 99. *)
Lemma time_parts (s : string) :
  regex_test timeRegex s = true ->
  exists h m sec : Z,
    map Number_str (split ":" s) = [num h; num m; num sec].
Proof.
  intros H.
  destruct s as [|c1 [|c2 [|c3 [|c4 [|c5 [|c6 [|c7 [|c8 [|c9 s]]]]]]]]];
    unfold timeRegex in H; cbn [regex_test atom_matches] in H;
    rewrite ?andb_false_r in H; try discriminate H.
  repeat match type of H with
         | _ && _ = true => apply andb_true_iff in H; destruct H as [? H]
         end.
  repeat match goal with
         | E : Ascii.eqb _ _ = true |- _ => apply Ascii.eqb_eq in E; subst
         end.
  unfold split. cbn [split_aux].
  change (Ascii.eqb ":" ":") with true. cbv iota.
  repeat match goal with
         | E : is_digit ?c = true |- _ =>
             rewrite (digit_not_colon c E); revert E
         end.
  intros.
  unfold Number_str. cbv [String.append map]. cbn [decimal_aux].
  repeat match goal with
         | E : is_digit ?c = true |- _ => rewrite E; clear E
         end.
  eexists _, _, _. reflexivity.
Qed.

Lemma string_guard (v : value) :
  negb (truthy v) || negb (String.eqb (typeof v) "string")
  = match v with
    | VStr s => String.eqb s EmptyString
    | _ => true
    end.
Proof.
  destruct v as [| |b|n|s|o|]; try reflexivity.
  - simpl. apply orb_true_r.
  - simpl. apply orb_true_r.
  - simpl. destruct (String.eqb s EmptyString); reflexivity.
Qed.

Lemma number_guard (v : value) :
  negb (String.eqb (typeof v) "number") || isNaN (Vedic.as_number v)
  = match v with
    | VNum n => isNaN n
    | _ => true
    end.
Proof. destruct v; reflexivity. Qed.

Lemma range_guard (lo hi : Z) (n : number) :
  isNaN n = false ->
  num_lt n (num lo) || num_gt n (num hi) = negb (in_range lo hi n).
Proof.
  intros Hn. unfold num_gt, in_range.
  rewrite (num_lt_not_le n (num lo) Hn eq_refl).
  rewrite (num_lt_not_le (num hi) n eq_refl Hn).
  rewrite negb_andb. reflexivity.
Qed.

Lemma in_range_NaN (lo hi : Z) : in_range lo hi NaN = false.
Proof. reflexivity. Qed.

Lemma check_date_spec (Date_new : string -> Date) (v : value) :
  block_spec (date_passes Date_new v) (check_date Date_new [] v) FDate 1.
Proof.
  unfold block_spec, check_date. rewrite string_guard.
  destruct v as [| |b|n|s|o|];
    try (right; split; [reflexivity|]; split; [simpl; lia|];
         intros e [<-|[]]; simpl; tauto).
  unfold date_passes, Vedic.as_string.
  destruct (String.eqb s EmptyString) eqn:Hs.
  - apply String.eqb_eq in Hs. subst s.
    right. split; [reflexivity|]. split; [simpl; lia|].
    intros e [<-|[]]; simpl; tauto.
  - destruct (regex_test dateRegex s).
    + cbn [negb andb]. cbv zeta.
      destruct (Date_new s) as [|t y].
      * right. split; [reflexivity|]. split; [simpl; lia|].
        intros e [<-|[]]; simpl; tauto.
      * cbn [getTime getFullYear isNaN].
        change (Finite (inject_Z y)) with (num y).
        unfold num_gt. rewrite !num_lt_num.
        destruct (Z.leb_spec 1900 y), (Z.leb_spec y 2100),
                 (Z.ltb_spec y 1900), (Z.ltb_spec 2100 y); try lia; cbn [orb andb].
        -- left. split; reflexivity.
        -- right. split; [reflexivity|]. split; [simpl; lia|].
           intros e [<-|[]]; simpl; tauto.
        -- right. split; [reflexivity|]. split; [simpl; lia|].
           intros e [<-|[]]; simpl; tauto.
    + right. split; [reflexivity|]. split; [simpl; lia|].
      intros e [<-|[]]; simpl; tauto.
Qed.

Ltac one_message :=
  right; split; [reflexivity|]; split; [simpl; lia|];
  let e := fresh "e" in intros e [<-|[]]; simpl; tauto.

Lemma check_time_spec (v : value) :
  block_spec (time_ok v) (check_time [] v) FTime 3.
Proof.
  unfold block_spec, check_time. rewrite string_guard.
  destruct v as [| |b|n|s|o|]; try one_message.
  unfold time_ok, Vedic.as_string.
  destruct (String.eqb s EmptyString) eqn:Hs.
  - apply String.eqb_eq in Hs. subst s. one_message.
  - destruct (regex_test timeRegex s) eqn:Hre; [|one_message].
    destruct (time_parts s Hre) as (h & m & sec & Hparts).
    rewrite Hparts. cbn [negb andb nth]. cbv zeta.
    rewrite !range_guard by reflexivity.
    destruct (in_range 0 23 (num h)), (in_range 0 59 (num m)),
             (in_range 0 59 (num sec)); cbn [negb andb push app].
    + left. split; reflexivity.
    + one_message.
    + one_message.
    + right. split; [reflexivity|]. split; [simpl; lia|].
      intros e Hin. simpl in Hin. simpl. tauto.
    + one_message.
    + right. split; [reflexivity|]. split; [simpl; lia|].
      intros e Hin. simpl in Hin. simpl. tauto.
    + right. split; [reflexivity|]. split; [simpl; lia|].
      intros e Hin. simpl in Hin. simpl. tauto.
    + right. split; [reflexivity|]. split; [simpl; lia|].
      intros e Hin. simpl in Hin. simpl. tauto.
Qed.

(** Hours, minutes and seconds each draw their own violation. *)
Lemma time_violations_by_component (s : string) :
  regex_test timeRegex s = true ->
  exists h m sec : Z,
    map Number_str (split ":" s) = [num h; num m; num sec] /\
    check_time [] (VStr s)
    = (if in_range 0 23 (num h) then [] else ["Hours must be between 00 and 23"])
      ++ (if in_range 0 59 (num m) then [] else ["Minutes must be between 00 and 59"])
      ++ (if in_range 0 59 (num sec) then [] else ["Seconds must be between 00 and 59"]).
Proof.
  intros Hre. destruct (time_parts s Hre) as (h & m & sec & Hparts).
  exists h, m, sec. split; [exact Hparts|].
  unfold check_time. rewrite string_guard. unfold Vedic.as_string.
  destruct (String.eqb s EmptyString) eqn:Hs.
  - apply String.eqb_eq in Hs. subst s. discriminate Hre.
  - rewrite Hre, Hparts. cbn [negb nth]. cbv zeta.
    rewrite !range_guard by reflexivity.
    destruct (in_range 0 23 (num h)), (in_range 0 59 (num m)),
             (in_range 0 59 (num sec)); reflexivity.
Qed.

Lemma check_lat_spec (v : value) :
  block_spec (number_ok (-90) 90 v) (check_lat [] v) FLat 1.
Proof.
  unfold block_spec, check_lat. rewrite number_guard.
  destruct v as [| |b|n|s|o|]; try one_message.
  unfold number_ok, Vedic.as_number.
  destruct (isNaN n) eqn:Hn.
  - destruct n; try discriminate Hn. one_message.
  - rewrite (range_guard _ _ n Hn).
    destruct (in_range (-90) 90 n); cbn [negb];
      [left; split; reflexivity | one_message].
Qed.

Lemma check_lng_spec (v : value) :
  block_spec (number_ok (-180) 180 v) (check_lng [] v) FLng 1.
Proof.
  unfold block_spec, check_lng. rewrite number_guard.
  destruct v as [| |b|n|s|o|]; try one_message.
  unfold number_ok, Vedic.as_number.
  destruct (isNaN n) eqn:Hn.
  - destruct n; try discriminate Hn. one_message.
  - rewrite (range_guard _ _ n Hn).
    destruct (in_range (-180) 180 n); cbn [negb];
      [left; split; reflexivity | one_message].
Qed.

Lemma check_timezone_spec (v : value) :
  block_spec (number_ok (-12) 14 v) (check_timezone [] v) FTimezone 1.
Proof.
  unfold block_spec, check_timezone. rewrite number_guard.
  destruct v as [| |b|n|s|o|]; try one_message.
  unfold number_ok, Vedic.as_number.
  destruct (isNaN n) eqn:Hn.
  - destruct n; try discriminate Hn. one_message.
  - rewrite (range_guard _ _ n Hn).
    destruct (in_range (-12) 14 n); cbn [negb];
      [left; split; reflexivity | one_message].
Qed.

Lemma block_ok_nil (ok : bool) (errors : list string) (f : field) (bound : nat) :
  block_spec ok errors f bound -> ok = true -> errors = [].
Proof. intros [[_ H]|[H _]] Hok; [exact H | congruence]. Qed.

Lemma block_bad (ok : bool) (errors : list string) (f : field) (bound : nat) :
  block_spec ok errors f bound -> ok = false ->
  (1 <= length errors <= bound)%nat /\
  forall e, In e errors -> In e (field_messages f).
Proof. intros [[H _]|[_ H]] Hok; [congruence | exact H]. Qed.

(** ** The date rule and the host *)

Lemma days_in_month_bounds (y m : Z) : (28 <= days_in_month y m <= 31)%Z.
Proof.
  unfold days_in_month.
  destruct (m =? 2)%Z; [destruct (leap_year y); lia|].
  destruct ((m =? 4)%Z || (m =? 6)%Z || (m =? 9)%Z || (m =? 11)%Z); lia.
Qed.

Lemma real_date_in_bounds (y m d : Z) :
  real_date y m d = true -> month_day_in_bounds m d = true.
Proof.
  unfold real_date, month_day_in_bounds. intros H.
  pose proof (days_in_month_bounds y m) as Hdim.
  apply andb_true_iff in H. destruct H as [H Hd].
  rewrite H. cbn [andb]. apply Z.leb_le. apply Z.leb_le in Hd. lia.
Qed.

(** A string let through by [dateRegex] has a year, a month and a
    day written in it. *)
Lemma regex_written_date (s : string) :
  regex_test dateRegex s = true -> exists y m d, written_date s = Some (y, m, d).
Proof.
  intros H. unfold written_date. rewrite H.
  destruct s as [|c1 [|c2 [|c3 [|c4 [|c5 [|c6 [|c7 [|c8 [|c9 [|c10 [|c11 s]]]]]]]]]]];
    unfold dateRegex in H; cbn [regex_test atom_matches] in H;
    rewrite ?andb_false_r in H; try discriminate H.
  repeat match type of H with
         | _ && _ = true => apply andb_true_iff in H; destruct H as [? H]
         end.
  cbn [String.substring decimal_aux].
  repeat match goal with
         | E : is_digit ?c = true |- _ => rewrite E; clear E
         end.
  eexists _, _, _. reflexivity.
Qed.

Lemma written_date_regex (s : string) (ymd : Z * Z * Z) :
  written_date s = Some ymd -> regex_test dateRegex s = true.
Proof.
  unfold written_date. destruct (regex_test dateRegex s); [reflexivity | discriminate].
Qed.

(** On a conforming host, and off the dates left to the host, the
    test of the date block is the rule of the specification. *)
Lemma date_passes_rule (Date_new : string -> Date) (v : value) :
  host_conforms Date_new ->
  date_host_dependent v = false ->
  date_passes Date_new v = date_rule_ok v.
Proof.
  intros Hhost Hdep. destruct v as [| | | |s| |]; try reflexivity.
  unfold date_passes, date_rule_ok.
  destruct (regex_test dateRegex s) eqn:Hre.
  - destruct (regex_written_date s Hre) as (y & m & d & Hw).
    unfold date_host_dependent in Hdep. rewrite Hw in Hdep. rewrite Hw.
    apply orb_false_iff in Hdep. destruct Hdep as [Hdep Hleg].
    apply orb_false_iff in Hdep. destruct Hdep as [Hover Hnew].
    destruct (Hhost s y m d Hw) as [Hout Hreal].
    cbn [andb].
    destruct (real_date y m d) eqn:Hr.
    + destruct (Hreal eq_refl) as (t & ly & -> & Hly). cbn [andb].
      destruct Hly as [-> | (-> & -> & ->)]; [reflexivity|].
      cbn in Hnew.
      destruct (Z.eqb_spec y 1900), (Z.eqb_spec y 2101); try discriminate Hnew.
      destruct (Z.leb_spec 1900 (y - 1)), (Z.leb_spec (y - 1) 2100),
               (Z.leb_spec 1900 y), (Z.leb_spec y 2100); try lia; reflexivity.
    + destruct (month_day_in_bounds m d) eqn:Hb; [discriminate Hover|].
      cbn [negb andb] in Hleg.
      rewrite (Hout eq_refl Hleg). reflexivity.
  - unfold written_date. rewrite Hre. reflexivity.
Qed.

Lemma check_date_rule_spec (Date_new : string -> Date) (v : value) :
  host_conforms Date_new ->
  date_host_dependent v = false ->
  block_spec (date_rule_ok v) (check_date Date_new [] v) FDate 1.
Proof.
  intros Hhost Hdep. rewrite <- (date_passes_rule Date_new v Hhost Hdep).
  apply check_date_spec.
Qed.

(** The sample hosts conform. *)
Lemma Date_new_utc_written (s : string) (y m d : Z) :
  written_date s = Some (y, m, d) ->
  Date_new_utc s
  = if month_day_in_bounds m d then ValidDate (86400000 * days_from_civil y m d) y
    else if legacy_readable y m then
      let year := (if (d <=? 49)%Z then 2000 + d else 1900 + d)%Z in
      ValidDate (86400000 * days_from_civil year y m) year
    else InvalidDate.
Proof.
  intros Hw. unfold Date_new_utc.
  rewrite (written_date_regex s _ Hw).
  unfold written_date in Hw. rewrite (written_date_regex s _ Hw) in Hw.
  destruct (decimal_aux 0 (String.substring 0 4 s)) as [y'|]; [|discriminate Hw].
  destruct (decimal_aux 0 (String.substring 5 2 s)) as [m'|]; [|discriminate Hw].
  destruct (decimal_aux 0 (String.substring 8 2 s)) as [d'|]; [|discriminate Hw].
  injection Hw as -> -> ->. reflexivity.
Qed.

Lemma Date_new_utc_conforms : host_conforms Date_new_utc.
Proof.
  intros s y m d Hw. rewrite (Date_new_utc_written s y m d Hw). split.
  - intros -> ->. reflexivity.
  - intros Hr. rewrite (real_date_in_bounds y m d Hr).
    eexists _, _. split; [reflexivity|]. left. reflexivity.
Qed.

Lemma Date_new_west_conforms : host_conforms Date_new_west.
Proof.
  intros s y m d Hw. unfold Date_new_west.
  rewrite (Date_new_utc_written s y m d Hw), Hw. split.
  - intros -> ->. reflexivity.
  - intros Hr. rewrite (real_date_in_bounds y m d Hr).
    eexists _, _. split; [reflexivity|].
    destruct (Z.eqb_spec m 1), (Z.eqb_spec d 1); cbn [andb]; auto.
Qed.

(** The verdicts left to the host.  On V8 the 30th of February is a
    date, and the validator finds nothing wrong with it. *)
Lemma impossible_day_accepted :
  date_rule_ok impossible_date = false /\
  Vedic.validateAstrologyInput Date_new_utc impossible_date good_time good_lat good_lng
    good_timezone = [].
Proof. split; reflexivity. Qed.

(** On V8 again, a string that is no date of the calendar is read as
    month, day and year, and accepted. *)
Lemma legacy_reading_accepted :
  date_rule_ok legacy_date = false /\
  Date_new_utc "0006-15-90" = Date_new_utc "1990-06-15" /\
  Vedic.validateAstrologyInput Date_new_utc legacy_date good_time good_lat good_lng
    good_timezone = [].
Proof. split; [|split]; reflexivity. Qed.

(** West of UTC, New Year's Day of 1900 is local 1899 and rejected,
    and New Year's Day of 2101 is local 2100 and accepted. *)
Lemma new_year_west_of_utc :
  date_rule_ok new_year_1900 = true /\
  Vedic.validateAstrologyInput Date_new_west new_year_1900 good_time good_lat good_lng
    good_timezone = ["Date must be between 1900 and 2100"] /\
  Vedic.validateAstrologyInput Date_new_utc new_year_1900 good_time good_lat good_lng
    good_timezone = [] /\
  date_rule_ok new_year_2101 = false /\
  Vedic.validateAstrologyInput Date_new_west new_year_2101 good_time good_lat good_lng
    good_timezone = [].
Proof. repeat split. Qed.

(** C6, amended.  When exactly one field is malformed or out of
    range, the date being judged by the calendar, and the other four
    are valid, every violation returned belongs to that field; there
    is exactly one when the field is the date, the latitude, the
    longitude or the timezone, and between one and three (one per
    component out of range) when it is the time.  The dates on which
    the validator takes the verdict of the host are left aside: a
    day 29-31 past the end of its month, 1 January of 1900 and of
    2101, and the strings open to a month-day-year reading. *)
Theorem single_bad_field_violations :
  forall (Date_new : string -> Date) (dateString timeString lat lng timezone : value)
         (f : field),
    host_conforms Date_new ->
    date_host_dependent dateString = false ->
    field_rule_ok f dateString timeString lat lng timezone = false ->
    (forall g, g <> f ->
               field_rule_ok g dateString timeString lat lng timezone = true) ->
    let errors :=
      Vedic.validateAstrologyInput Date_new dateString timeString lat lng timezone in
    (forall e, In e errors -> In e (field_messages f)) /\
    (1 <= length errors <= 3)%nat /\
    (f <> FTime -> length errors = 1%nat).
Proof.
  intros Date_new d t la ln tz f Hhost Hdep Hbad Hothers errors. subst errors.
  rewrite validate_concat.
  pose proof (check_date_rule_spec Date_new d Hhost Hdep) as Sd.
  pose proof (check_time_spec t) as St.
  pose proof (check_lat_spec la) as Sla.
  pose proof (check_lng_spec ln) as Sln.
  pose proof (check_timezone_spec tz) as Stz.
  destruct f; simpl in Hbad.
  - rewrite (block_ok_nil _ _ _ _ St (Hothers FTime ltac:(discriminate))).
    rewrite (block_ok_nil _ _ _ _ Sla (Hothers FLat ltac:(discriminate))).
    rewrite (block_ok_nil _ _ _ _ Sln (Hothers FLng ltac:(discriminate))).
    rewrite (block_ok_nil _ _ _ _ Stz (Hothers FTimezone ltac:(discriminate))).
    rewrite !app_nil_r.
    destruct (block_bad _ _ _ _ Sd Hbad) as [Hlen Hmsg].
    split; [exact Hmsg|]. split; lia.
  - rewrite (block_ok_nil _ _ _ _ Sd (Hothers FDate ltac:(discriminate))).
    rewrite (block_ok_nil _ _ _ _ Sla (Hothers FLat ltac:(discriminate))).
    rewrite (block_ok_nil _ _ _ _ Sln (Hothers FLng ltac:(discriminate))).
    rewrite (block_ok_nil _ _ _ _ Stz (Hothers FTimezone ltac:(discriminate))).
    rewrite !app_nil_r, app_nil_l.
    destruct (block_bad _ _ _ _ St Hbad) as [Hlen Hmsg].
    split; [exact Hmsg|]. split; [lia | congruence].
  - rewrite (block_ok_nil _ _ _ _ Sd (Hothers FDate ltac:(discriminate))).
    rewrite (block_ok_nil _ _ _ _ St (Hothers FTime ltac:(discriminate))).
    rewrite (block_ok_nil _ _ _ _ Sln (Hothers FLng ltac:(discriminate))).
    rewrite (block_ok_nil _ _ _ _ Stz (Hothers FTimezone ltac:(discriminate))).
    rewrite !app_nil_r, !app_nil_l.
    destruct (block_bad _ _ _ _ Sla Hbad) as [Hlen Hmsg].
    split; [exact Hmsg|]. split; lia.
  - rewrite (block_ok_nil _ _ _ _ Sd (Hothers FDate ltac:(discriminate))).
    rewrite (block_ok_nil _ _ _ _ St (Hothers FTime ltac:(discriminate))).
    rewrite (block_ok_nil _ _ _ _ Sla (Hothers FLat ltac:(discriminate))).
    rewrite (block_ok_nil _ _ _ _ Stz (Hothers FTimezone ltac:(discriminate))).
    rewrite !app_nil_r, !app_nil_l.
    destruct (block_bad _ _ _ _ Sln Hbad) as [Hlen Hmsg].
    split; [exact Hmsg|]. split; lia.
  - rewrite (block_ok_nil _ _ _ _ Sd (Hothers FDate ltac:(discriminate))).
    rewrite (block_ok_nil _ _ _ _ St (Hothers FTime ltac:(discriminate))).
    rewrite (block_ok_nil _ _ _ _ Sla (Hothers FLat ltac:(discriminate))).
    rewrite (block_ok_nil _ _ _ _ Sln (Hothers FLng ltac:(discriminate))).
    rewrite !app_nil_l.
    destruct (block_bad _ _ _ _ Stz Hbad) as [Hlen Hmsg].
    split; [exact Hmsg|]. split; lia.
Qed.

Lemma single_bad_field_violations_witness :
  (let errors :=
     Vedic.validateAstrologyInput Date_new_utc bad_date good_time good_lat good_lng
       good_timezone in
   (forall e, In e errors -> In e (field_messages FDate)) /\
   (1 <= length errors <= 3)%nat /\
   (FDate <> FTime -> length errors = 1%nat)) /\
  (let errors :=
     Vedic.validateAstrologyInput Date_new_utc good_date bad_time good_lat good_lng
       good_timezone in
   (forall e, In e errors -> In e (field_messages FTime)) /\
   (1 <= length errors <= 3)%nat /\
   (FTime <> FTime -> length errors = 1%nat)) /\
  (let errors :=
     Vedic.validateAstrologyInput Date_new_west early_date good_time good_lat good_lng
       good_timezone in
   (forall e, In e errors -> In e (field_messages FDate)) /\
   (1 <= length errors <= 3)%nat /\
   (FDate <> FTime -> length errors = 1%nat)).
Proof.
  split; [|split].
  - apply (single_bad_field_violations Date_new_utc bad_date good_time good_lat
             good_lng good_timezone FDate).
    + exact Date_new_utc_conforms.
    + reflexivity.
    + reflexivity.
    + intros g Hg. destruct g; try reflexivity. congruence.
  - apply (single_bad_field_violations Date_new_utc good_date bad_time good_lat
             good_lng good_timezone FTime).
    + exact Date_new_utc_conforms.
    + reflexivity.
    + reflexivity.
    + intros g Hg. destruct g; try reflexivity. congruence.
  - apply (single_bad_field_violations Date_new_west early_date good_time good_lat
             good_lng good_timezone FDate).
    + exact Date_new_west_conforms.
    + reflexivity.
    + reflexivity.
    + intros g Hg. destruct g; try reflexivity. congruence.
Defined.

(** C6 as stated fails for the time field: with every other field
    valid, a time whose hours and minutes are both out of range draws
    two violations, not one. *)
Lemma one_bad_time_two_violations :
  field_rule_ok FTime good_date bad_time good_lat good_lng good_timezone = false /\
  (forall g, g <> FTime ->
             field_rule_ok g good_date bad_time good_lat good_lng good_timezone = true) /\
  Vedic.validateAstrologyInput Date_new_utc good_date bad_time good_lat good_lng
    good_timezone
  = ["Hours must be between 00 and 23"; "Minutes must be between 00 and 59"] /\
  length (Vedic.validateAstrologyInput Date_new_utc good_date bad_time good_lat
            good_lng good_timezone) <> 1%nat.
Proof.
  split; [reflexivity|]. split; [|split].
  - intros g Hg. destruct g; try reflexivity. congruence.
  - reflexivity.
  - vm_compute. discriminate.
Qed.

(** ** The service *)

(** The service is its first log line followed by the classified
    [try] block. *)
Lemma service_unfold (Date_new : string -> Date) (vedicAstrology : package)
    (dateString timeString lat lng timezone : value) :
  Vedic.getVedicAstrologyData Date_new vedicAstrology
    dateString timeString lat lng timezone
  = if forallb converts [dateString; timeString; lat; lng] then
      try_rethrow
        (Vedic.getVedicAstrologyData_try Date_new vedicAstrology
           dateString timeString lat lng (Vedic.timezone_or_default timezone))
        Vedic.rethrow
    else ([], inl conversion_error).
Proof.
  unfold Vedic.getVedicAstrologyData, interpolate. cbv zeta.
  destruct (forallb converts [dateString; timeString; lat; lng]); [|reflexivity].
  cbv [io_lift mbind io_bind mret exc_ret].
  destruct (try_rethrow _ _) as [log r]. reflexivity.
Qed.

Lemma rejected_in_try (Date_new : string -> Date) (vedicAstrology : package)
    (dateString timeString lat lng timezone : value) :
  Vedic.validateAstrologyInput Date_new dateString timeString lat lng timezone <> [] ->
  try_rethrow
    (Vedic.getVedicAstrologyData_try Date_new vedicAstrology
       dateString timeString lat lng timezone)
    Vedic.rethrow
  = ([], inl (JsError ("Invalid input parameters: Input validation failed: " +:+
                       join ", " (Vedic.validateAstrologyInput Date_new dateString
                                    timeString lat lng timezone)))).
Proof.
  intros Hbad. unfold Vedic.getVedicAstrologyData_try. cbv zeta.
  destruct (Vedic.validateAstrologyInput Date_new dateString timeString lat lng timezone)
    as [|e es]; [congruence|].
  change (0 <? length (e :: es))%nat with true. cbv iota.
  unfold io_throw, try_rethrow, Vedic.rethrow.
  change ("Input validation failed: " +:+ join ", " (e :: es))
    with ("Input validation failed" +:+ (": " +:+ join ", " (e :: es))).
  rewrite includes_prefix. reflexivity.
Qed.




(** Valid input does reach the library, once. *)
Lemma accepted_input_calls_library_once :
  calls (Vedic.getVedicAstrologyData Date_new_utc sample_package
           good_date good_time good_lat good_lng VUndefined)
  = [GetBirthChart good_date good_time good_lat good_lng good_timezone].
Proof. reflexivity. Qed.

(** ** The route *)

Lemma includes_cons_ne (c c' : ascii) (s sub : string) :
  c' <> c -> includes (String c s) (String c' sub) = includes s (String c' sub).
Proof.
  intros Hne.
  change (includes (String c s) (String c' sub))
    with (String.prefix (String c' sub) (String c s) || includes s (String c' sub)).
  simpl. destruct (ascii_dec c' c) as [Heq|_]; [contradiction | reflexivity].
Qed.

Lemma includes_after_failed_prefix (c : ascii) (sub msg : string) :
  c <> "A"%char -> c <> "s"%char -> c <> "t"%char -> c <> "r"%char ->
  c <> "o"%char -> c <> "l"%char -> c <> "g"%char -> c <> "y"%char ->
  c <> " "%char -> c <> "c"%char -> c <> "a"%char -> c <> "u"%char ->
  c <> "i"%char -> c <> "n"%char -> c <> "f"%char -> c <> "e"%char ->
  c <> "d"%char -> c <> ":"%char ->
  includes ("Astrology calculation failed: " +:+ msg) (String c sub)
  = includes msg (String c sub).
Proof.
  intros. cbv [String.append].
  repeat (rewrite includes_cons_ne by assumption).
  reflexivity.
Qed.

Lemma error_response_503 (development : bool) (error : thrown) :
  status (Server.error_response development error) = 503%Z ->
  exists message,
    error = JsError message /\
    includes message "Input validation failed" = false /\
    includes message "vedic-astrology" || includes message "package" = true.
Proof.
  destruct error as [message|]; [|discriminate].
  unfold Server.error_response.
  destruct (includes message "Invalid date" || includes message "Invalid time");
    [discriminate|].
  destruct (includes message "coordinates" || includes message "latitude"
            || includes message "longitude"); [discriminate|].
  destruct (includes message "Input validation failed") eqn:Hval; [discriminate|].
  destruct (includes message "vedic-astrology" || includes message "package") eqn:Hpkg;
    [|discriminate].
  intros _. exists message. split; [reflexivity|]. split; assumption.
Qed.

(** Whatever the service rethrows, the route does not answer 503. *)
Lemma rethrown_never_503 (development : bool) (error : thrown) :
  status (Server.error_response development (Vedic.rethrow error)) <> 503%Z.
Proof.
  intros H. apply error_response_503 in H. destruct H as (m & Hm & Hval & Hpkg).
  unfold Vedic.rethrow in Hm. destruct error as [message|].
  - destruct (includes message "Input validation failed") eqn:E1.
    { injection Hm as <-.
      rewrite (includes_app_r "Invalid input parameters: " message _ E1) in Hval.
      discriminate. }
    destruct (includes message "vedic-astrology" || includes message "package") eqn:E2.
    { injection Hm as <-. vm_compute in Hpkg. discriminate. }
    destruct (includes message "birth chart" || includes message "meta").
    { injection Hm as <-. vm_compute in Hpkg. discriminate. }
    injection Hm as <-.
    rewrite !includes_after_failed_prefix in Hpkg by discriminate.
    congruence.
  - injection Hm as <-. vm_compute in Hpkg. discriminate.
Qed.

(** What the service throws is the TypeError of its first log line
    or comes out of the classification of the [catch] block. *)
Lemma service_throws_rethrown (Date_new : string -> Date) (vedicAstrology : package)
    (dateString timeString lat lng timezone : value) (error : thrown) :
  outcome (Vedic.getVedicAstrologyData Date_new vedicAstrology
             dateString timeString lat lng timezone) = inl error ->
  error = conversion_error \/ exists error0, error = Vedic.rethrow error0.
Proof.
  rewrite service_unfold. unfold try_rethrow, outcome.
  destruct (forallb converts [dateString; timeString; lat; lng]).
  - destruct (Vedic.getVedicAstrologyData_try _ _ _ _ _ _ _) as [log [e|r]];
      cbn [snd]; [|discriminate].
    intros [= <-]. right. exists e. reflexivity.
  - cbn [snd]. intros [= <-]. left. reflexivity.
Qed.

Section Route.

Variable Date_new : string -> Date.
Variable development : bool.
Variable service :
  value -> value -> value -> value -> value -> io Types.VedicAstrologyData.

(** What the [try] block of the route can end in. *)
Lemma astrology_data_try_cases (reqBody : value) :
  (nullish reqBody = true /\
   Server.astrology_data_try Date_new service reqBody
   = ([], inl (type_error reqBody "dateOfBirth"))) \/
  (exists details,
      Server.astrology_data_try Date_new service reqBody
      = ([], inr {| status := 400; json := InvalidInputBody "Invalid input" details |})) \/
  (exists dateOfBirth timeOfBirth lat lng,
      Server.astrology_data_try Date_new service reqBody
      = match service dateOfBirth timeOfBirth lat lng VUndefined with
        | (log, inr result) => (log, inr {| status := 200; json := ResultBody result |})
        | (log, inl error) => (log, inl error)
        end).
Proof.
  unfold Server.astrology_data_try, get.
  destruct (nullish reqBody) eqn:Hn.
  - left. split; reflexivity.
  - right.
    cbv [mbind io_bind io_lift mret io_ret exc_ret]. cbv beta iota.
    destruct (0 <? length _)%nat.
    + left. eexists. reflexivity.
    + right. exists (prop reqBody "dateOfBirth"), (prop reqBody "timeOfBirth"),
        (prop reqBody "lat"), (prop reqBody "lng").
      destruct (service _ _ _ _ _) as [log [e|r]]; cbn [app]; try reflexivity.
      rewrite app_nil_r. reflexivity.
Qed.

End Route.

(** The 503 branch of the route is dead code: the service replaces
    every message that mentions the package by one that does not. *)
Lemma route_never_answers_503 (Date_new : string -> Date) (development : bool)
    (vedicAstrology : package) (reqBody : value) :
  status (snd (Server.astrology_data Date_new development
                 (Vedic.getVedicAstrologyData Date_new vedicAstrology) reqBody))
  <> 503%Z.
Proof.
  unfold Server.astrology_data.
  destruct (astrology_data_try_cases Date_new
              (Vedic.getVedicAstrologyData Date_new vedicAstrology) reqBody)
    as [[Hn ->] | [[details ->] | (d & t & la & ln & ->)]].
  - destruct reqBody; try discriminate Hn; destruct development;
      vm_compute; discriminate.
  - cbn [snd status]. discriminate.
  - destruct (Vedic.getVedicAstrologyData Date_new vedicAstrology d t la ln VUndefined)
      as [log [e|r]] eqn:Hcall.
    + cbn [snd].
      destruct (service_throws_rethrown Date_new vedicAstrology d t la ln VUndefined e)
        as [-> | [e0 ->]]; [rewrite Hcall; reflexivity | |].
      * destruct development; vm_compute; discriminate.
      * apply rethrown_never_503.
    + cbn [snd status]. discriminate.
Qed.

(** C8, failing input.  A well-formed request served while the chart
    library lacks its positioner: the service reports the library as
    unavailable, and the route answers 500 "Internal server error"
    where the claim requires 503. *)
Theorem unavailable_library_answered_500 :
  Vedic.getVedicAstrologyData Date_new_utc NoPositioner
    good_date good_time good_lat good_lng VUndefined
  = ([], inl (JsError "Astrology calculation service is currently unavailable")) /\
  Server.astrology_data Date_new_utc false
    (Vedic.getVedicAstrologyData Date_new_utc NoPositioner) sample_query
  = ([], {| status := 500;
            json := ErrorBody "Internal server error"
                      (Some "Failed to calculate astrology data. Please try again later.")
                      None |}).
Proof. split; reflexivity. Qed.

(** The same request through the first revision of the route, which
    answers every failure of the service with 500. *)
Lemma simple_route_answers_500 :
  ServerSimple.astrology_data (Vedic.getVedicAstrologyData Date_new_utc NoPositioner)
    sample_query
  = ([], inr {| status := 500;
                json := ErrorBody "Astrology calculation service is currently unavailable"
                          None None |}).
Proof. reflexivity. Qed.

(** A library whose call throws a message naming the package is
    answered 500 as well. *)
Lemma throwing_library_answered_500 :
  status (snd (Server.astrology_data Date_new_utc false
                 (Vedic.getVedicAstrologyData Date_new_utc
                    (Loaded (fun _ _ _ _ _ =>
                               throw (JsError "vedic-astrology: ephemeris not found"))))
                 sample_query))
  = 500%Z.
Proof. reflexivity. Qed.

(** Validation faults raised by the service are answered 400. *)
Lemma service_validation_fault_answered_400 :
  status (snd (Server.astrology_data Date_new_utc false
                 (Vedic.getVedicAstrologyData Date_new_utc sample_package)
                 (VObj (list_to_map
                          [("dateOfBirth", early_date); ("timeOfBirth", good_time);
                           ("lat", good_lat); ("lng", good_lng)]))))
  = 400%Z.
Proof. reflexivity. Qed.

(** * Further properties *)

(** ** The winner of the scan *)

Lemma scan_all_ext (chart chart' : value) (ps : list string) :
  (forall c, In c ps -> valid_degree chart c = valid_degree chart' c) ->
  forall st : Vedic.locals, scan_all chart ps st = scan_all chart' ps st.
Proof.
  induction ps as [|p ps IH]; intros Hsame st.
  - reflexivity.
  - rewrite !scan_all_cons, (Hsame p (or_introl eq_refl)).
    apply IH. intros c Hc. apply Hsame. right. exact Hc.
Qed.

(** After the scan the running maximum bounds every valid degree
    seen; either nothing was updated, or the winner is the first
    planet to reach that maximum. *)
Lemma scan_all_maximum (chart : value) (ps : list string) :
  forall (st : Vedic.locals) (m0 : Q),
    Vedic.maxDegrees st = Finite m0 ->
    exists m,
      Vedic.maxDegrees (scan_all chart ps st) = Finite m /\
      (forall c q, In c ps -> valid_degree chart c = Some q -> (q <= m)%Q) /\
      ((m = m0 /\ Vedic.atmakarak (scan_all chart ps st) = Vedic.atmakarak st) \/
       (exists l1 l2,
           ps = l1 ++ Vedic.atmakarak (scan_all chart ps st) :: l2 /\
           valid_degree chart (Vedic.atmakarak (scan_all chart ps st)) = Some m /\
           (m0 < m)%Q /\
           forall c q, In c l1 -> valid_degree chart c = Some q -> (q < m)%Q)).
Proof.
  induction ps as [|p ps IH]; intros st m0 Hm.
  - exists m0. split; [exact Hm|]. split; [intros c q []|].
    left. split; reflexivity.
  - rewrite scan_all_cons.
    destruct (valid_degree chart p) as [qp|] eqn:Hp.
    + unfold scan_step. rewrite Hm. unfold num_gt. cbn [num_lt].
      destruct (Qltb m0 qp) eqn:Hlt.
      * apply Qltb_lt in Hlt.
        destruct (IH {| Vedic.maxDegrees := Finite qp;
                        Vedic.atmakarak := p;
                        Vedic.validPlanets := push (Vedic.validPlanets st) p |}
                     qp eq_refl) as (m & Hmax & Hall & Hcase).
        exists m. split; [exact Hmax|].
        destruct Hcase as [[-> Hatm] | (l1 & l2 & Hsplit & Hw & Hqm & Hl1)].
        -- cbn [Vedic.atmakarak] in Hatm. split.
           ++ intros c q [<-|Hc] Hq.
              ** rewrite Hp in Hq. injection Hq as <-. apply Qle_refl.
              ** apply (Hall c q Hc Hq).
           ++ right. exists [], ps. rewrite Hatm.
              split; [reflexivity|]. split; [exact Hp|]. split; [exact Hlt|].
              intros c q [].
        -- split.
           ++ intros c q [<-|Hc] Hq.
              ** rewrite Hp in Hq. injection Hq as <-. apply Qlt_le_weak. exact Hqm.
              ** apply (Hall c q Hc Hq).
           ++ right. exists (p :: l1), l2.
              split; [simpl; f_equal; exact Hsplit|]. split; [exact Hw|].
              split; [apply Qlt_trans with qp; assumption|].
              intros c q [<-|Hc] Hq.
              ** rewrite Hp in Hq. injection Hq as <-. exact Hqm.
              ** apply (Hl1 c q Hc Hq).
      * apply Qltb_ge in Hlt.
        destruct (IH {| Vedic.maxDegrees := Finite m0;
                        Vedic.atmakarak := Vedic.atmakarak st;
                        Vedic.validPlanets := push (Vedic.validPlanets st) p |}
                     m0 eq_refl) as (m & Hmax & Hall & Hcase).
        exists m. split; [exact Hmax|].
        destruct Hcase as [[-> Hatm] | (l1 & l2 & Hsplit & Hw & Hqm & Hl1)].
        -- split.
           ++ intros c q [<-|Hc] Hq.
              ** rewrite Hp in Hq. injection Hq as <-. exact Hlt.
              ** apply (Hall c q Hc Hq).
           ++ left. split; [reflexivity | exact Hatm].
        -- split.
           ++ intros c q [<-|Hc] Hq.
              ** rewrite Hp in Hq. injection Hq as <-.
                 apply Qlt_le_weak. apply Qle_lt_trans with m0; assumption.
              ** apply (Hall c q Hc Hq).
           ++ right. exists (p :: l1), l2.
              split; [simpl; f_equal; exact Hsplit|]. split; [exact Hw|].
              split; [exact Hqm|].
              intros c q [<-|Hc] Hq.
              ** rewrite Hp in Hq. injection Hq as <-.
                 apply Qle_lt_trans with m0; assumption.
              ** apply (Hl1 c q Hc Hq).
    + cbn [scan_step].
      destruct (IH st m0 Hm) as (m & Hmax & Hall & Hcase).
      exists m. split; [exact Hmax|].
      split.
      * intros c q [<-|Hc] Hq; [congruence | apply (Hall c q Hc Hq)].
      * destruct Hcase as [Hsame | (l1 & l2 & Hsplit & Hw & Hqm & Hl1)].
        -- left. exact Hsame.
        -- right. exists (p :: l1), l2.
           split; [simpl; f_equal; exact Hsplit|]. split; [exact Hw|].
           split; [exact Hqm|].
           intros c q [<-|Hc] Hq; [congruence | apply (Hl1 c q Hc Hq)].
Qed.

Lemma scan_all_no_valid (chart : value) (ps : list string) (st : Vedic.locals) :
  (length (Vedic.validPlanets (scan_all chart ps st)) =? 0)%nat = true ->
  forall c, In c ps -> valid_degree chart c = None.
Proof.
  rewrite scan_all_validPlanets, length_app. intros Hlen c Hc.
  apply Nat.eqb_eq in Hlen.
  destruct (valid_degree chart c) as [q|] eqn:Hq; [|reflexivity].
  assert (Hin : In c (List.filter (fun c => match valid_degree chart c with
                                           | Some _ => true
                                           | None => false
                                           end) ps)).
  { apply filter_In. split; [exact Hc | rewrite Hq; reflexivity]. }
  destruct (List.filter _ ps); [destruct Hin | simpl in Hlen; lia].
Qed.

Lemma name_is_sun (c : string) :
  In c ("Su" :: Vedic.planets) -> Vedic.planet_name c = "Sun" -> c = "Su".
Proof.
  intros [<-|Hc] Hname; [reflexivity|].
  apply planet_name_injective; [exact Hc | vm_compute; tauto | exact Hname].
Qed.

(** X1. A winner other than Sun holds the maximum: its degree is
    valid, above 0, at least every valid degree of the chart and
    strictly above the valid degrees of the planets before it. *)
Theorem atmakarak_winner_holds_maximum :
  forall (chart : value) (p : string),
    In p Vedic.planets -> p <> "Su" ->
    Vedic.planetNames !! p = Some (Vedic.calculateAtmakarak chart) ->
    exists (q : Q) (earlier later : list string),
      Vedic.planets = earlier ++ p :: later /\
      valid_degree chart p = Some q /\ (0 < q)%Q /\
      (forall c q', In c Vedic.planets -> valid_degree chart c = Some q' -> (q' <= q)%Q) /\
      (forall c q', In c earlier -> valid_degree chart c = Some q' -> (q' < q)%Q).
Proof.
  intros chart p Hp Hne Hres.
  rewrite (planet_name_lookup p Hp) in Hres. injection Hres as Hres.
  assert (Hnot_sun : Vedic.planet_name p <> "Sun").
  { intros H. apply Hne. apply name_is_sun; [right; exact Hp | exact H]. }
  destruct (chart_shape_ok chart) eqn:Hshape.
  - rewrite (calculateAtmakarak_shaped chart Hshape) in Hres. cbv zeta in Hres.
    destruct (length _ =? 0)%nat; [congruence|].
    pose proof (scan_all_atmakarak_in chart Vedic.planets Vedic.locals_init) as Hin.
    destruct (scan_all_maximum chart Vedic.planets Vedic.locals_init 0 eq_refl)
      as (m & _ & Hall & Hcase).
    destruct Hcase as [[_ Hatm] | (l1 & l2 & Hsplit & Hw & Hpos & Hl1)].
    + exfalso. apply Hnot_sun. rewrite Hres, Hatm. reflexivity.
    + assert (Hwin : Vedic.atmakarak (scan_all chart Vedic.planets Vedic.locals_init) = p).
      { destruct Hin as [Hinit|Hin].
        - exfalso. apply Hnot_sun. rewrite Hres, <- Hinit. reflexivity.
        - apply planet_name_injective; [exact Hin | exact Hp | symmetry; exact Hres]. }
      rewrite Hwin in Hsplit, Hw.
      exists m, l1, l2. repeat split; assumption.
  - rewrite (calculateAtmakarak_unshaped chart Hshape) in Hres. congruence.
Qed.

Lemma atmakarak_winner_holds_maximum_witness :
  exists (q : Q) (earlier later : list string),
    Vedic.planets = earlier ++ "Ma" :: later /\
    valid_degree chart_distinct "Ma" = Some q /\ (0 < q)%Q /\
    (forall c q', In c Vedic.planets -> valid_degree chart_distinct c = Some q' ->
                  (q' <= q)%Q) /\
    (forall c q', In c earlier -> valid_degree chart_distinct c = Some q' -> (q' < q)%Q).
Proof.
  apply (atmakarak_winner_holds_maximum chart_distinct "Ma").
  - vm_compute. tauto.
  - discriminate.
  - reflexivity.
Defined.

(** X2. The result is Sun exactly when no valid degree exceeds Sun's
    own valid degree, read as 0 when Sun has none. *)
Theorem atmakarak_sun_iff :
  forall chart : value,
    Vedic.calculateAtmakarak chart = "Sun" <->
    (forall c q, In c Vedic.planets -> valid_degree chart c = Some q ->
                 (q <= default 0%Q (valid_degree chart "Su"))%Q).
Proof.
  intros chart. split.
  - intros Hres c q Hc Hq.
    pose proof (valid_degree_shape chart c q Hq) as Hshape.
    rewrite (calculateAtmakarak_shaped chart Hshape) in Hres. cbv zeta in Hres.
    destruct (length _ =? 0)%nat eqn:Hlen.
    { rewrite (scan_all_no_valid chart Vedic.planets Vedic.locals_init Hlen c Hc) in Hq.
      discriminate. }
    apply name_is_sun in Hres;
      [|apply (scan_all_atmakarak_in chart Vedic.planets Vedic.locals_init)].
    destruct (scan_all_maximum chart Vedic.planets Vedic.locals_init 0 eq_refl)
      as (m & _ & Hall & Hcase).
    destruct Hcase as [[-> _] | (l1 & l2 & _ & Hw & _ & _)].
    + apply Qle_trans with 0%Q; [apply (Hall c q Hc Hq)|].
      destruct (valid_degree chart "Su") as [qs|] eqn:Hs; [|apply Qle_refl].
      apply (valid_degree_range chart "Su" qs Hs).
    + rewrite Hres in Hw. rewrite Hw. apply (Hall c q Hc Hq).
  - intros Hle.
    destruct (valid_degree chart "Su") as [qs|] eqn:Hs.
    + apply (atmakarak_sun_holds_maximum chart qs Hs). exact Hle.
    + apply atmakarak_without_positive_degree. exact Hle.
Qed.

(** X3. Only the valid degrees of the seven planets matter: charts
    that agree on them get the same Atmakarak, whatever else they
    contain. *)
Theorem atmakarak_depends_on_valid_degrees :
  forall chart chart' : value,
    (forall c, In c Vedic.planets -> valid_degree chart c = valid_degree chart' c) ->
    Vedic.calculateAtmakarak chart = Vedic.calculateAtmakarak chart'.
Proof.
  intros chart chart' Hsame.
  assert (Hnone : forall a b : value,
             (forall c, In c Vedic.planets -> valid_degree a c = valid_degree b c) ->
             chart_shape_ok a = false ->
             Vedic.calculateAtmakarak a = "Sun" /\ Vedic.calculateAtmakarak b = "Sun").
  { intros a b Hab Ha. split; apply atmakarak_without_positive_degree; intros c q Hc Hq.
    - rewrite (unshaped_no_valid_degree a c Ha) in Hq. discriminate.
    - rewrite <- (Hab c Hc), (unshaped_no_valid_degree a c Ha) in Hq. discriminate. }
  destruct (chart_shape_ok chart) eqn:Hshape.
  - destruct (chart_shape_ok chart') eqn:Hshape'.
    + rewrite (calculateAtmakarak_shaped chart Hshape),
        (calculateAtmakarak_shaped chart' Hshape').
      cbv zeta. rewrite (scan_all_ext chart chart' Vedic.planets Hsame). reflexivity.
    + destruct (Hnone chart' chart) as [H1 H2];
        [intros c Hc; symmetry; apply (Hsame c Hc) | exact Hshape' | congruence].
  - destruct (Hnone chart chart' Hsame Hshape) as [H1 H2]. congruence.
Qed.

Lemma atmakarak_depends_on_valid_degrees_witness :
  Vedic.calculateAtmakarak chart_distinct = Vedic.calculateAtmakarak chart_distinct_extra.
Proof.
  apply (atmakarak_depends_on_valid_degrees chart_distinct chart_distinct_extra).
  intros c H. each_planet H; reflexivity.
Defined.

(** ** The validator, all fields at once *)

Lemma block_nil_ok (ok : bool) (f : field) (bound : nat) :
  block_spec ok [] f bound -> ok = true.
Proof. intros [[H _]|[_ [H _]]]; [exact H | simpl in H; lia]. Qed.

Lemma block_length (ok : bool) (errors : list string) (f : field) :
  block_spec ok errors f 1 -> length errors = Nat.b2n (negb ok).
Proof.
  intros [[-> ->]|[-> [H _]]]; [reflexivity | simpl; lia].
Qed.

Lemma validate_nil_fields_ok (Date_new : string -> Date)
    (dateString timeString lat lng timezone : value) :
  Vedic.validateAstrologyInput Date_new dateString timeString lat lng timezone = [] ->
  date_passes Date_new dateString = true /\ time_ok timeString = true /\
  number_ok (-90) 90 lat = true /\ number_ok (-180) 180 lng = true /\
  number_ok (-12) 14 timezone = true.
Proof.
  rewrite validate_concat. intros H.
  apply app_eq_nil in H. destruct H as [Hd H].
  apply app_eq_nil in H. destruct H as [Ht H].
  apply app_eq_nil in H. destruct H as [Hla H].
  apply app_eq_nil in H. destruct H as [Hln Htz].
  pose proof (check_date_spec Date_new dateString) as Sd. rewrite Hd in Sd.
  pose proof (check_time_spec timeString) as St. rewrite Ht in St.
  pose proof (check_lat_spec lat) as Sla. rewrite Hla in Sla.
  pose proof (check_lng_spec lng) as Sln. rewrite Hln in Sln.
  pose proof (check_timezone_spec timezone) as Stz. rewrite Htz in Stz.
  repeat split; eapply block_nil_ok; eassumption.
Qed.

(** Input that passes the validator is made of strings and numbers,
    which convert. *)
Lemma valid_input_converts (Date_new : string -> Date)
    (dateString timeString lat lng timezone : value) :
  Vedic.validateAstrologyInput Date_new dateString timeString lat lng timezone = [] ->
  forallb converts [dateString; timeString; lat; lng] = true.
Proof.
  intros H. apply validate_nil_fields_ok in H.
  destruct H as (Hd & Ht & Hla & Hln & _).
  destruct dateString; try discriminate Hd.
  destruct timeString; try discriminate Ht.
  destruct lat; try discriminate Hla.
  destruct lng; try discriminate Hln.
  reflexivity.
Qed.

(** X4. On a host that reads dates as every engine does, and off the
    dates whose verdict is left to the host (a day 29-31 past the end
    of its month, 1 January of 1900 and of 2101, the strings open to
    a month-day-year reading), the validator returns no violation
    exactly when each of the five fields follows the rule the
    specification gives for it. *)
Theorem validator_accepts_iff :
  forall (Date_new : string -> Date) (dateString timeString lat lng timezone : value),
    host_conforms Date_new ->
    date_host_dependent dateString = false ->
    (Vedic.validateAstrologyInput Date_new dateString timeString lat lng timezone = [] <->
     (forall f, field_rule_ok f dateString timeString lat lng timezone = true)).
Proof.
  intros Date_new d t la ln tz Hhost Hdep.
  pose proof (check_date_rule_spec Date_new d Hhost Hdep) as Sd.
  pose proof (check_time_spec t) as St.
  pose proof (check_lat_spec la) as Sla.
  pose proof (check_lng_spec ln) as Sln.
  pose proof (check_timezone_spec tz) as Stz.
  rewrite validate_concat. split.
  - intros H.
    apply app_eq_nil in H. destruct H as [Hd H].
    apply app_eq_nil in H. destruct H as [Ht H].
    apply app_eq_nil in H. destruct H as [Hla H].
    apply app_eq_nil in H. destruct H as [Hln Htz].
    rewrite Hd in Sd. rewrite Ht in St. rewrite Hla in Sla.
    rewrite Hln in Sln. rewrite Htz in Stz.
    intros f. destruct f; simpl; eapply block_nil_ok; eassumption.
  - intros Hok.
    rewrite (block_ok_nil _ _ _ _ Sd (Hok FDate)).
    rewrite (block_ok_nil _ _ _ _ St (Hok FTime)).
    rewrite (block_ok_nil _ _ _ _ Sla (Hok FLat)).
    rewrite (block_ok_nil _ _ _ _ Sln (Hok FLng)).
    rewrite (block_ok_nil _ _ _ _ Stz (Hok FTimezone)).
    reflexivity.
Qed.

Lemma validator_accepts_iff_witness :
  (Vedic.validateAstrologyInput Date_new_utc good_date good_time good_lat good_lng
     good_timezone = [] <->
   (forall f, field_rule_ok f good_date good_time good_lat good_lng good_timezone = true)) /\
  (Vedic.validateAstrologyInput Date_new_west early_date good_time good_lat good_lng
     good_timezone = [] <->
   (forall f, field_rule_ok f early_date good_time good_lat good_lng good_timezone = true)).
Proof.
  split.
  - apply (validator_accepts_iff Date_new_utc good_date good_time good_lat good_lng
             good_timezone).
    + exact Date_new_utc_conforms.
    + reflexivity.
  - apply (validator_accepts_iff Date_new_west early_date good_time good_lat good_lng
             good_timezone).
    + exact Date_new_west_conforms.
    + reflexivity.
Defined.

(** X5. The violations come in the order of the fields: those of the
    date, then of the time, the latitude, the longitude and the
    timezone.  Each field contributes none when it follows its rule
    and otherwise at least one of its own messages, at most one for
    every field but the time, which gives at most three.  (Host and
    dates as in X4.) *)
Theorem violations_follow_field_order :
  forall (Date_new : string -> Date) (dateString timeString lat lng timezone : value),
    host_conforms Date_new ->
    date_host_dependent dateString = false ->
    exists ed et ela eln etz : list string,
      Vedic.validateAstrologyInput Date_new dateString timeString lat lng timezone
      = ed ++ et ++ ela ++ eln ++ etz /\
      block_spec (date_rule_ok dateString) ed FDate 1 /\
      block_spec (time_ok timeString) et FTime 3 /\
      block_spec (number_ok (-90) 90 lat) ela FLat 1 /\
      block_spec (number_ok (-180) 180 lng) eln FLng 1 /\
      block_spec (number_ok (-12) 14 timezone) etz FTimezone 1.
Proof.
  intros Date_new d t la ln tz Hhost Hdep.
  exists (check_date Date_new [] d), (check_time [] t), (check_lat [] la),
    (check_lng [] ln), (check_timezone [] tz).
  split; [apply validate_concat|].
  split; [apply check_date_rule_spec; assumption|]. split; [apply check_time_spec|].
  split; [apply check_lat_spec|]. split; [apply check_lng_spec|].
  apply check_timezone_spec.
Qed.

Lemma violations_follow_field_order_witness :
  exists ed et ela eln etz : list string,
    Vedic.validateAstrologyInput Date_new_utc bad_date bad_time (VNum NaN) good_lng
      good_timezone
    = ed ++ et ++ ela ++ eln ++ etz /\
    block_spec (date_rule_ok bad_date) ed FDate 1 /\
    block_spec (time_ok bad_time) et FTime 3 /\
    block_spec (number_ok (-90) 90 (VNum NaN)) ela FLat 1 /\
    block_spec (number_ok (-180) 180 good_lng) eln FLng 1 /\
    block_spec (number_ok (-12) 14 good_timezone) etz FTimezone 1.
Proof.
  apply (violations_follow_field_order Date_new_utc bad_date bad_time (VNum NaN) good_lng
           good_timezone).
  - exact Date_new_utc_conforms.
  - reflexivity.
Defined.

(** X6. When the time is valid, the number of violations is the
    number of fields among date, latitude, longitude and timezone
    that break their rule: no field is reported twice and none is
    masked by another.  (Host and dates as in X4.) *)
Theorem one_violation_per_bad_field :
  forall (Date_new : string -> Date) (dateString timeString lat lng timezone : value),
    host_conforms Date_new ->
    date_host_dependent dateString = false ->
    time_ok timeString = true ->
    length (Vedic.validateAstrologyInput Date_new dateString timeString lat lng timezone)
    = (Nat.b2n (negb (date_rule_ok dateString))
       + Nat.b2n (negb (number_ok (-90) 90 lat))
       + Nat.b2n (negb (number_ok (-180) 180 lng))
       + Nat.b2n (negb (number_ok (-12) 14 timezone)))%nat.
Proof.
  intros Date_new d t la ln tz Hhost Hdep Ht.
  rewrite validate_concat.
  rewrite (block_ok_nil _ _ _ _ (check_time_spec t) Ht).
  rewrite !length_app.
  rewrite (block_length _ _ _ (check_date_rule_spec Date_new d Hhost Hdep)).
  rewrite (block_length _ _ _ (check_lat_spec la)).
  rewrite (block_length _ _ _ (check_lng_spec ln)).
  rewrite (block_length _ _ _ (check_timezone_spec tz)).
  simpl. lia.
Qed.

Lemma one_violation_per_bad_field_witness :
  length (Vedic.validateAstrologyInput Date_new_utc bad_date good_time (VNum NaN)
            good_lng good_timezone)
  = 2%nat.
Proof.
  apply (one_violation_per_bad_field Date_new_utc bad_date good_time (VNum NaN)
           good_lng good_timezone).
  - exact Date_new_utc_conforms.
  - reflexivity.
  - reflexivity.
Defined.

(** ** The service on valid input *)

Section Service.

Variable Date_new : string -> Date.
Variables dateString timeString lat lng timezone : value.

Hypothesis Hvalid :
  Vedic.validateAstrologyInput Date_new dateString timeString lat lng timezone = [].

Lemma service_try_not_loaded (vedicAstrology : package) :
  (forall f, vedicAstrology <> Loaded f) ->
  Vedic.getVedicAstrologyData_try Date_new vedicAstrology
    dateString timeString lat lng timezone
  = ([], inl (JsError
       "Vedic astrology package not properly loaded or missing required methods")).
Proof.
  intros Hpkg. unfold Vedic.getVedicAstrologyData_try. cbv zeta. rewrite Hvalid.
  destruct vedicAstrology as [| | |f]; try reflexivity.
  exfalso. apply (Hpkg f). reflexivity.
Qed.

Variable getBirthChart : value -> value -> value -> value -> value -> exc value.

Lemma service_try_throws (error : thrown) :
  getBirthChart dateString timeString lat lng timezone = inl error ->
  Vedic.getVedicAstrologyData_try Date_new (Loaded getBirthChart)
    dateString timeString lat lng timezone
  = ([GetBirthChart dateString timeString lat lng timezone], inl error).
Proof.
  intros Hcall. unfold Vedic.getVedicAstrologyData_try. cbv zeta. rewrite Hvalid.
  change (0 <? length (@nil string))%nat with false. cbv iota.
  rewrite Hcall. reflexivity.
Qed.

Lemma service_try_falsy (chart : value) :
  getBirthChart dateString timeString lat lng timezone = inr chart ->
  truthy chart = false ->
  Vedic.getVedicAstrologyData_try Date_new (Loaded getBirthChart)
    dateString timeString lat lng timezone
  = ([GetBirthChart dateString timeString lat lng timezone],
     inl (JsError "Vedic astrology package returned null/undefined birth chart")).
Proof.
  intros Hcall Hfalsy. unfold Vedic.getVedicAstrologyData_try. cbv zeta. rewrite Hvalid.
  change (0 <? length (@nil string))%nat with false. cbv iota.
  rewrite Hcall. cbv [mbind io_bind]. cbv beta iota. rewrite Hfalsy. reflexivity.
Qed.

Lemma service_try_no_meta (chart : value) :
  getBirthChart dateString timeString lat lng timezone = inr chart ->
  truthy chart = true ->
  chart_shape_ok chart = false ->
  Vedic.getVedicAstrologyData_try Date_new (Loaded getBirthChart)
    dateString timeString lat lng timezone
  = ([GetBirthChart dateString timeString lat lng timezone],
     inl (JsError "Birth chart missing required meta data")).
Proof.
  intros Hcall Htruthy Hshape.
  unfold Vedic.getVedicAstrologyData_try. cbv zeta. rewrite Hvalid.
  change (0 <? length (@nil string))%nat with false. cbv iota.
  rewrite Hcall. cbv [mbind io_bind]. cbv beta iota. rewrite Htruthy.
  change (negb true) with false. cbv iota. unfold get.
  assert (Hn : nullish chart = false) by (destruct chart; try discriminate; reflexivity).
  rewrite Hn. cbv [io_lift mret exc_ret]. cbv beta iota.
  assert (Hmeta : negb (truthy (prop chart "meta"))
                  || negb (String.eqb (typeof (prop chart "meta")) "object") = true).
  { unfold chart_shape_ok in Hshape.
    destruct chart as [| |b|n|s|o|]; try reflexivity.
    destruct (prop (VObj o) "meta") as [| |b|n|s|m|]; try reflexivity; try discriminate.
    - simpl. apply orb_true_r.
    - simpl. apply orb_true_r.
    - simpl. apply orb_true_r. }
  rewrite Hmeta. reflexivity.
Qed.

(** A chart with [meta]: the summary is returned unless the log
    line that interpolates the three signs throws. *)
Lemma service_try_chart (chart : value) :
  getBirthChart dateString timeString lat lng timezone = inr chart ->
  chart_shape_ok chart = true ->
  Vedic.getVedicAstrologyData_try Date_new (Loaded getBirthChart)
    dateString timeString lat lng timezone
  = ([GetBirthChart dateString timeString lat lng timezone],
     if signs_convert chart then inr (summary_of chart) else inl conversion_error).
Proof.
  intros Hcall Hshape.
  unfold Vedic.getVedicAstrologyData_try. cbv zeta. rewrite Hvalid.
  change (0 <? length (@nil string))%nat with false. cbv iota.
  rewrite Hcall. cbv [mbind io_bind]. cbv beta iota.
  unfold signs_convert, summary_of, sign_of.
  unfold chart_shape_ok in Hshape.
  destruct chart as [| | | | |o|]; try discriminate.
  change (truthy (VObj o)) with true. change (negb true) with false. cbv iota.
  unfold get. change (nullish (VObj o)) with false. cbv iota.
  cbv [io_lift mret exc_ret io_ret]. cbv beta iota.
  destruct (prop (VObj o) "meta") as [| | | | |m|a]; try discriminate;
    cbn [truthy typeof nullish negb orb]; cbv beta iota zeta;
    change (String.eqb "object" "object") with true; cbv beta iota zeta;
    unfold interpolate; cbn [forallb];
    repeat match goal with
           | |- context [converts (or_else ?a ?b)] => destruct (converts (or_else a b))
           end; reflexivity.
Qed.

Lemma service_try_summary (chart : value) :
  getBirthChart dateString timeString lat lng timezone = inr chart ->
  chart_shape_ok chart = true ->
  signs_convert chart = true ->
  Vedic.getVedicAstrologyData_try Date_new (Loaded getBirthChart)
    dateString timeString lat lng timezone
  = ([GetBirthChart dateString timeString lat lng timezone], inr (summary_of chart)).
Proof.
  intros Hcall Hshape Hsigns.
  rewrite (service_try_chart chart Hcall Hshape), Hsigns. reflexivity.
Qed.

End Service.

Lemma truthy_not_nullish (v : value) : truthy v = true -> nullish v = false.
Proof. destruct v; try discriminate; reflexivity. Qed.

Lemma shaped_truthy (chart : value) : chart_shape_ok chart = true -> truthy chart = true.
Proof. destruct chart; try discriminate; reflexivity. Qed.

Lemma sign_of_truthy (chart : value) (code : string) : truthy (sign_of chart code) = true.
Proof.
  unfold sign_of, or_else.
  destruct (truthy (get_opt (prop (prop chart "meta") code) "rashi")) eqn:E;
    [exact E | reflexivity].
Qed.

(** Every way a call of the service can end. *)
Lemma service_cases (Date_new : string -> Date) (vedicAstrology : package)
    (dateString timeString lat lng timezone : value) :
  let tz := Vedic.timezone_or_default timezone in
  let errors := Vedic.validateAstrologyInput Date_new dateString timeString lat lng tz in
  let call := GetBirthChart dateString timeString lat lng tz in
  let run := Vedic.getVedicAstrologyData Date_new vedicAstrology
               dateString timeString lat lng timezone in
  (forallb converts [dateString; timeString; lat; lng] = false /\ errors <> [] /\
   run = ([], inl conversion_error)) \/
  (forallb converts [dateString; timeString; lat; lng] = true /\ errors <> [] /\
   run = ([], inl (JsError ("Invalid input parameters: Input validation failed: " +:+
                            join ", " errors)))) \/
  (errors = [] /\ (forall f, vedicAstrology <> Loaded f) /\
   run = ([], inl (JsError "Astrology calculation service is currently unavailable"))) \/
  (errors = [] /\ exists f, vedicAstrology = Loaded f /\
     ((exists error, f dateString timeString lat lng tz = inl error /\
                     run = ([call], inl (Vedic.rethrow error))) \/
      (exists chart, f dateString timeString lat lng tz = inr chart /\
                     truthy chart = false /\
                     run = ([call], inl (JsError
                              "Astrology calculation service is currently unavailable"))) \/
      (exists chart, f dateString timeString lat lng tz = inr chart /\
                     truthy chart = true /\ chart_shape_ok chart = false /\
                     run = ([call], inl (JsError
                              "Failed to generate valid birth chart data"))) \/
      (exists chart, f dateString timeString lat lng tz = inr chart /\
                     chart_shape_ok chart = true /\ signs_convert chart = true /\
                     run = ([call], inr (summary_of chart))) \/
      (exists chart, f dateString timeString lat lng tz = inr chart /\
                     chart_shape_ok chart = true /\ signs_convert chart = false /\
                     run = ([call], inl (Vedic.rethrow conversion_error))))).
Proof.
  intros tz errors call run. subst run. rewrite service_unfold. fold tz.
  destruct errors as [|e es] eqn:Herr; subst errors.
  - right. right. rewrite (valid_input_converts Date_new _ _ _ _ tz Herr).
    assert (Hloaded : (forall f, vedicAstrology <> Loaded f) \/
                      exists f, vedicAstrology = Loaded f).
    { destruct vedicAstrology as [| | |f]; [left; discriminate.. | right; eauto]. }
    destruct Hloaded as [Hno | [f ->]].
    + left. split; [reflexivity|]. split; [exact Hno|].
      rewrite (service_try_not_loaded Date_new _ _ _ _ tz Herr vedicAstrology Hno).
      reflexivity.
    + right. split; [reflexivity|]. exists f. split; [reflexivity|].
      destruct (f dateString timeString lat lng tz) as [error|chart] eqn:Hcall.
      * left. exists error. split; [reflexivity|].
        rewrite (service_try_throws Date_new _ _ _ _ tz Herr f error Hcall).
        reflexivity.
      * right. destruct (truthy chart) eqn:Htruthy.
        -- right. destruct (chart_shape_ok chart) eqn:Hshape.
           ++ right.
              rewrite (service_try_chart Date_new _ _ _ _ tz Herr f chart Hcall Hshape).
              destruct (signs_convert chart) eqn:Hsigns.
              ** left. exists chart. repeat split; assumption.
              ** right. exists chart. repeat split; assumption.
           ++ left. exists chart. split; [reflexivity|]. split; [exact Htruthy|].
              split; [exact Hshape|].
              rewrite (service_try_no_meta Date_new _ _ _ _ tz Herr f chart Hcall
                         Htruthy Hshape).
              reflexivity.
        -- left. exists chart. split; [reflexivity|]. split; [exact Htruthy|].
           rewrite (service_try_falsy Date_new _ _ _ _ tz Herr f chart Hcall Htruthy).
           reflexivity.
  - destruct (forallb converts [dateString; timeString; lat; lng]).
    + right. left. split; [reflexivity|]. split; [discriminate|].
      rewrite <- Herr. apply rejected_in_try. rewrite Herr. discriminate.
    + left. split; [reflexivity|]. split; [discriminate | reflexivity].
Qed.

(** On valid input the first log line does not throw, and the
    service is its classified [try] block. *)
Lemma service_valid_unfold (Date_new : string -> Date) (vedicAstrology : package)
    (dateString timeString lat lng timezone : value) :
  Vedic.validateAstrologyInput Date_new dateString timeString lat lng
    (Vedic.timezone_or_default timezone) = [] ->
  Vedic.getVedicAstrologyData Date_new vedicAstrology
    dateString timeString lat lng timezone
  = try_rethrow
      (Vedic.getVedicAstrologyData_try Date_new vedicAstrology
         dateString timeString lat lng (Vedic.timezone_or_default timezone))
      Vedic.rethrow.
Proof.
  intros Hvalid.
  rewrite service_unfold, (valid_input_converts Date_new _ _ _ _ _ Hvalid).
  reflexivity.
Qed.

(** X7. On valid input, a library that answers with a chart whose
    [meta] is an object is called once, with the timezone defaulted
    to 5.5 when omitted.  The service then returns the summary of
    that chart: the three signs with their "Unknown" fallback, the
    Atmakarak, and the chart itself unchanged; unless one of the
    three signs does not convert to a string for the log line, in
    which case the service throws "Astrology calculation failed:
    Cannot convert object to primitive value". *)
Theorem service_returns_summary :
  forall (Date_new : string -> Date)
         (getBirthChart : value -> value -> value -> value -> value -> exc value)
         (dateString timeString lat lng timezone chart : value),
    Vedic.validateAstrologyInput Date_new dateString timeString lat lng
      (Vedic.timezone_or_default timezone) = [] ->
    getBirthChart dateString timeString lat lng (Vedic.timezone_or_default timezone)
    = inr chart ->
    chart_shape_ok chart = true ->
    Vedic.getVedicAstrologyData Date_new (Loaded getBirthChart)
      dateString timeString lat lng timezone
    = ([GetBirthChart dateString timeString lat lng (Vedic.timezone_or_default timezone)],
       if signs_convert chart then inr (summary_of chart)
       else inl (JsError
              "Astrology calculation failed: Cannot convert object to primitive value")).
Proof.
  intros Date_new f d t la ln tz chart Hvalid Hcall Hshape.
  rewrite (service_valid_unfold Date_new _ d t la ln tz Hvalid).
  rewrite (service_try_chart Date_new _ _ _ _ _ Hvalid f chart Hcall Hshape).
  destruct (signs_convert chart); reflexivity.
Qed.

Lemma service_returns_summary_witness :
  Vedic.getVedicAstrologyData Date_new_utc signs_package
    good_date good_time good_lat good_lng VUndefined
  = ([GetBirthChart good_date good_time good_lat good_lng good_timezone],
     inr {| Types.moonSign := VStr "Cancer";
            Types.sunSign := VStr "Aries";
            Types.ascendant := VStr "Leo";
            Types.atmakarak := "Mars";
            Types.birthChart := chart_distinct_extra |}) /\
  Vedic.getVedicAstrologyData Date_new_utc unprintable_sign_package
    good_date good_time good_lat good_lng VUndefined
  = ([GetBirthChart good_date good_time good_lat good_lng good_timezone],
     inl (JsError
            "Astrology calculation failed: Cannot convert object to primitive value")).
Proof.
  split.
  - apply (service_returns_summary Date_new_utc (fun _ _ _ _ _ => mret chart_distinct_extra)
             good_date good_time good_lat good_lng VUndefined chart_distinct_extra).
    + reflexivity.
    + reflexivity.
    + reflexivity.
  - apply (service_returns_summary Date_new_utc
             (fun _ _ _ _ _ => mret chart_unprintable_sign)
             good_date good_time good_lat good_lng VUndefined chart_unprintable_sign).
    + reflexivity.
    + reflexivity.
    + reflexivity.
Defined.

(** X8. On valid input, a library that is missing, or lacks its
    positioner or its getBirthChart, makes the service throw
    "Astrology calculation service is currently unavailable" without
    any call. *)
Theorem missing_library_reported_unavailable :
  forall (Date_new : string -> Date) (vedicAstrology : package)
         (dateString timeString lat lng timezone : value),
    Vedic.validateAstrologyInput Date_new dateString timeString lat lng
      (Vedic.timezone_or_default timezone) = [] ->
    (forall f, vedicAstrology <> Loaded f) ->
    Vedic.getVedicAstrologyData Date_new vedicAstrology
      dateString timeString lat lng timezone
    = ([], inl (JsError "Astrology calculation service is currently unavailable")).
Proof.
  intros Date_new pkg d t la ln tz Hvalid Hpkg.
  rewrite (service_valid_unfold Date_new _ d t la ln tz Hvalid).
  rewrite (service_try_not_loaded Date_new _ _ _ _ _ Hvalid pkg Hpkg).
  reflexivity.
Qed.

Lemma missing_library_reported_unavailable_witness :
  Vedic.getVedicAstrologyData Date_new_utc NoGetBirthChart
    good_date good_time good_lat good_lng good_timezone
  = ([], inl (JsError "Astrology calculation service is currently unavailable")).
Proof.
  apply (missing_library_reported_unavailable Date_new_utc NoGetBirthChart
           good_date good_time good_lat good_lng good_timezone).
  - reflexivity.
  - discriminate.
Defined.

(** X9. On valid input, a library that answers with null, undefined
    or any other falsy value is reported like a missing library:
    the service throws "Astrology calculation service is currently
    unavailable", after the one call. *)
Theorem falsy_chart_reported_unavailable :
  forall (Date_new : string -> Date)
         (getBirthChart : value -> value -> value -> value -> value -> exc value)
         (dateString timeString lat lng timezone chart : value),
    Vedic.validateAstrologyInput Date_new dateString timeString lat lng
      (Vedic.timezone_or_default timezone) = [] ->
    getBirthChart dateString timeString lat lng (Vedic.timezone_or_default timezone)
    = inr chart ->
    truthy chart = false ->
    Vedic.getVedicAstrologyData Date_new (Loaded getBirthChart)
      dateString timeString lat lng timezone
    = ([GetBirthChart dateString timeString lat lng (Vedic.timezone_or_default timezone)],
       inl (JsError "Astrology calculation service is currently unavailable")).
Proof.
  intros Date_new f d t la ln tz chart Hvalid Hcall Hfalsy.
  rewrite (service_valid_unfold Date_new _ d t la ln tz Hvalid).
  rewrite (service_try_falsy Date_new _ _ _ _ _ Hvalid f chart Hcall Hfalsy).
  reflexivity.
Qed.

Lemma falsy_chart_reported_unavailable_witness :
  Vedic.getVedicAstrologyData Date_new_utc null_chart_package
    good_date good_time good_lat good_lng good_timezone
  = ([GetBirthChart good_date good_time good_lat good_lng good_timezone],
     inl (JsError "Astrology calculation service is currently unavailable")).
Proof.
  apply (falsy_chart_reported_unavailable Date_new_utc (fun _ _ _ _ _ => mret VNull)
           good_date good_time good_lat good_lng good_timezone VNull).
  - reflexivity.
  - reflexivity.
  - reflexivity.
Defined.

(** X10. On valid input, a truthy answer of the library that is not
    an object with an object under [meta] makes the service throw
    "Failed to generate valid birth chart data". *)
Theorem chart_without_meta_reported :
  forall (Date_new : string -> Date)
         (getBirthChart : value -> value -> value -> value -> value -> exc value)
         (dateString timeString lat lng timezone chart : value),
    Vedic.validateAstrologyInput Date_new dateString timeString lat lng
      (Vedic.timezone_or_default timezone) = [] ->
    getBirthChart dateString timeString lat lng (Vedic.timezone_or_default timezone)
    = inr chart ->
    truthy chart = true ->
    chart_shape_ok chart = false ->
    Vedic.getVedicAstrologyData Date_new (Loaded getBirthChart)
      dateString timeString lat lng timezone
    = ([GetBirthChart dateString timeString lat lng (Vedic.timezone_or_default timezone)],
       inl (JsError "Failed to generate valid birth chart data")).
Proof.
  intros Date_new f d t la ln tz chart Hvalid Hcall Htruthy Hshape.
  rewrite (service_valid_unfold Date_new _ d t la ln tz Hvalid).
  rewrite (service_try_no_meta Date_new _ _ _ _ _ Hvalid f chart Hcall Htruthy Hshape).
  reflexivity.
Qed.

Lemma chart_without_meta_reported_witness :
  Vedic.getVedicAstrologyData Date_new_utc no_meta_package
    good_date good_time good_lat good_lng good_timezone
  = ([GetBirthChart good_date good_time good_lat good_lng good_timezone],
     inl (JsError "Failed to generate valid birth chart data")).
Proof.
  apply (chart_without_meta_reported Date_new_utc
           (fun _ _ _ _ _ => mret (VObj (list_to_map [("house", VNum (Finite 1))])))
           good_date good_time good_lat good_lng good_timezone
           (VObj (list_to_map [("house", VNum (Finite 1))]))).
  - reflexivity.
  - reflexivity.
  - reflexivity.
  - reflexivity.
Defined.

(** X11. The library is called at most once: exactly once, with the
    caller's arguments and the defaulted timezone, when the input is
    valid and the library is loaded, and not at all otherwise. *)
Theorem library_called_once_when_valid :
  forall (Date_new : string -> Date) (vedicAstrology : package)
         (dateString timeString lat lng timezone : value),
    calls (Vedic.getVedicAstrologyData Date_new vedicAstrology
             dateString timeString lat lng timezone)
    = match Vedic.validateAstrologyInput Date_new dateString timeString lat lng
              (Vedic.timezone_or_default timezone), vedicAstrology with
      | [], Loaded _ =>
          [GetBirthChart dateString timeString lat lng
             (Vedic.timezone_or_default timezone)]
      | _, _ => []
      end.
Proof.
  intros Date_new pkg d t la ln tz.
  destruct (service_cases Date_new pkg d t la ln tz)
    as [(_ & Hbad & ->) | [(_ & Hbad & ->) | [(Hok & Hpkg & ->) | (Hok & f & -> & Hrun)]]].
  - destruct (Vedic.validateAstrologyInput _ _ _ _ _ _); [congruence|reflexivity].
  - destruct (Vedic.validateAstrologyInput _ _ _ _ _ _); [congruence|reflexivity].
  - rewrite Hok. destruct pkg as [| | |f]; try reflexivity.
    exfalso. apply (Hpkg f). reflexivity.
  - rewrite Hok.
    destruct Hrun as [(e & _ & ->) | [(c & _ & _ & ->) | [(c & _ & _ & _ & ->)
                       | [(c & _ & _ & _ & ->) | (c & _ & _ & _ & ->)]]]];
      reflexivity.
Qed.

(** X12. Whatever the service returns is well formed: the three
    signs are truthy (a label or "Unknown"), the Atmakarak is one of
    the seven full names, the chart passed on has an object under
    [meta], and the whole summary is the one derived from that
    chart. *)
Theorem returned_summary_well_formed :
  forall (Date_new : string -> Date) (vedicAstrology : package)
         (dateString timeString lat lng timezone : value)
         (result : Types.VedicAstrologyData),
    outcome (Vedic.getVedicAstrologyData Date_new vedicAstrology
               dateString timeString lat lng timezone) = inr result ->
    truthy (Types.moonSign result) = true /\
    truthy (Types.sunSign result) = true /\
    truthy (Types.ascendant result) = true /\
    In (Types.atmakarak result) full_names /\
    chart_shape_ok (Types.birthChart result) = true /\
    result = summary_of (Types.birthChart result).
Proof.
  intros Date_new pkg d t la ln tz result.
  destruct (service_cases Date_new pkg d t la ln tz)
    as [(_ & _ & ->) | [(_ & _ & ->) | [(Hok & Hpkg & ->) | (Hok & f & -> & Hrun)]]];
    try discriminate.
  destruct Hrun as [(e & _ & ->) | [(c & _ & _ & ->) | [(c & _ & _ & _ & ->)
                     | [(c & _ & Hshape & _ & ->) | (c & _ & _ & _ & ->)]]]];
    try discriminate.
  unfold outcome. cbn [snd]. intros [= <-]. cbn [summary_of Types.moonSign
    Types.sunSign Types.ascendant Types.atmakarak Types.birthChart].
  split; [apply sign_of_truthy|]. split; [apply sign_of_truthy|].
  split; [apply sign_of_truthy|].
  split; [|split; [exact Hshape | reflexivity]].
  rewrite (calculateAtmakarak_shaped c Hshape). cbv zeta.
  destruct (length _ =? 0)%nat; [left; reflexivity|].
  destruct (scan_all_atmakarak_in c Vedic.planets Vedic.locals_init) as [H|H].
  - rewrite <- H. left. reflexivity.
  - apply planet_name_full. exact H.
Qed.

Lemma returned_summary_well_formed_witness :
  truthy (Types.moonSign (summary_of chart_distinct)) = true /\
  truthy (Types.sunSign (summary_of chart_distinct)) = true /\
  truthy (Types.ascendant (summary_of chart_distinct)) = true /\
  In (Types.atmakarak (summary_of chart_distinct)) full_names /\
  chart_shape_ok (Types.birthChart (summary_of chart_distinct)) = true /\
  summary_of chart_distinct = summary_of (Types.birthChart (summary_of chart_distinct)).
Proof.
  apply (returned_summary_well_formed Date_new_utc sample_package
           good_date good_time good_lat good_lng good_timezone
           (summary_of chart_distinct)).
  reflexivity.
Defined.

(** The messages of the errors that leave the [catch] block. *)
Lemma rethrow_forms (error : thrown) :
  exists message,
    Vedic.rethrow error = JsError message /\
    (String.prefix "Invalid input parameters: " message = true \/
     message = "Astrology calculation service is currently unavailable" \/
     message = "Failed to generate valid birth chart data" \/
     String.prefix "Astrology calculation failed: " message = true \/
     message = "Unknown error occurred during astrology calculation").
Proof.
  unfold Vedic.rethrow. destruct error as [m|].
  - destruct (includes m "Input validation failed").
    { eexists. split; [reflexivity|]. left. apply prefix_app. }
    destruct (includes m "vedic-astrology" || includes m "package").
    { eexists. split; [reflexivity|]. right. left. reflexivity. }
    destruct (includes m "birth chart" || includes m "meta").
    { eexists. split; [reflexivity|]. right. right. left. reflexivity. }
    eexists. split; [reflexivity|]. right. right. right. left. apply prefix_app.
  - eexists. split; [reflexivity|]. right. right. right. right. reflexivity.
Qed.

(** X13. The service never throws anything but an [Error].  Its
    message is "Cannot convert object to primitive value" when an
    argument does not convert to a string for the first log line,
    and otherwise has one of the five forms given by the [catch]
    block: "Invalid input parameters: ...", the unavailable-service
    text, the failed-chart text, "Astrology calculation failed: ..."
    or the unknown-error text. *)
Theorem service_error_forms :
  forall (Date_new : string -> Date) (vedicAstrology : package)
         (dateString timeString lat lng timezone : value) (error : thrown),
    outcome (Vedic.getVedicAstrologyData Date_new vedicAstrology
               dateString timeString lat lng timezone) = inl error ->
    exists message,
      error = JsError message /\
      if forallb converts [dateString; timeString; lat; lng] then
        String.prefix "Invalid input parameters: " message = true \/
        message = "Astrology calculation service is currently unavailable" \/
        message = "Failed to generate valid birth chart data" \/
        String.prefix "Astrology calculation failed: " message = true \/
        message = "Unknown error occurred during astrology calculation"
      else message = "Cannot convert object to primitive value".
Proof.
  intros Date_new pkg d t la ln tz error. rewrite service_unfold.
  destruct (forallb converts [d; t; la; ln]).
  - unfold try_rethrow, outcome.
    destruct (Vedic.getVedicAstrologyData_try _ _ _ _ _ _ _) as [log [e|r]];
      cbn [snd]; [|discriminate].
    intros [= <-]. apply rethrow_forms.
  - unfold outcome. cbn [snd]. intros [= <-]. eexists. split; reflexivity.
Qed.

Lemma service_error_forms_witness :
  (exists message,
     JsError "Unknown error occurred during astrology calculation" = JsError message /\
     if forallb converts [good_date; good_time; good_lat; good_lng] then
       String.prefix "Invalid input parameters: " message = true \/
       message = "Astrology calculation service is currently unavailable" \/
       message = "Failed to generate valid birth chart data" \/
       String.prefix "Astrology calculation failed: " message = true \/
       message = "Unknown error occurred during astrology calculation"
     else message = "Cannot convert object to primitive value") /\
  (exists message,
     conversion_error = JsError message /\
     if forallb converts [good_date; good_time; unprintable; good_lng] then
       String.prefix "Invalid input parameters: " message = true \/
       message = "Astrology calculation service is currently unavailable" \/
       message = "Failed to generate valid birth chart data" \/
       String.prefix "Astrology calculation failed: " message = true \/
       message = "Unknown error occurred during astrology calculation"
     else message = "Cannot convert object to primitive value").
Proof.
  split.
  - apply (service_error_forms Date_new_utc throwing_package
             good_date good_time good_lat good_lng good_timezone
             (JsError "Unknown error occurred during astrology calculation")).
    reflexivity.
  - apply (service_error_forms Date_new_utc sample_package
             good_date good_time unprintable good_lng good_timezone conversion_error).
    reflexivity.
Defined.

(** X14. On valid input, whatever the library throws reaches the
    caller only through the classification of the [catch] block,
    after the one call. *)
Theorem library_exception_rewrapped :
  forall (Date_new : string -> Date)
         (getBirthChart : value -> value -> value -> value -> value -> exc value)
         (dateString timeString lat lng timezone : value) (error : thrown),
    Vedic.validateAstrologyInput Date_new dateString timeString lat lng
      (Vedic.timezone_or_default timezone) = [] ->
    getBirthChart dateString timeString lat lng (Vedic.timezone_or_default timezone)
    = inl error ->
    Vedic.getVedicAstrologyData Date_new (Loaded getBirthChart)
      dateString timeString lat lng timezone
    = ([GetBirthChart dateString timeString lat lng (Vedic.timezone_or_default timezone)],
       inl (Vedic.rethrow error)).
Proof.
  intros Date_new f d t la ln tz error Hvalid Hcall.
  rewrite (service_valid_unfold Date_new _ d t la ln tz Hvalid).
  rewrite (service_try_throws Date_new _ _ _ _ _ Hvalid f error Hcall).
  reflexivity.
Qed.

Lemma library_exception_rewrapped_witness :
  Vedic.getVedicAstrologyData Date_new_utc throwing_package
    good_date good_time good_lat good_lng good_timezone
  = ([GetBirthChart good_date good_time good_lat good_lng good_timezone],
     inl (JsError "Unknown error occurred during astrology calculation")).
Proof.
  apply (library_exception_rewrapped Date_new_utc (fun _ _ _ _ _ => throw NonError)
           good_date good_time good_lat good_lng good_timezone NonError).
  - reflexivity.
  - reflexivity.
Defined.

(** ** The two validators *)

Lemma validateInput_blocks (Date_new : string -> Date)
    (dateOfBirth timeOfBirth lat lng : value) :
  Server.validateInput Date_new dateOfBirth timeOfBirth lat lng
  = route_check_lng
      (route_check_lat
         (route_check_time (route_check_date Date_new [] dateOfBirth) timeOfBirth)
         lat)
      lng.
Proof. reflexivity. Qed.

Ltac block_appends :=
  unfold push;
  repeat match goal with
         | |- context [if ?b then _ else _] => destruct b
         end; cbv zeta; simpl; rewrite ?app_nil_r; reflexivity.

Lemma route_check_time_app (errors : list string) (v : value) :
  route_check_time errors v = errors ++ route_check_time [] v.
Proof. unfold route_check_time. block_appends. Qed.

Lemma route_check_lat_app (errors : list string) (v : value) :
  route_check_lat errors v = errors ++ route_check_lat [] v.
Proof. unfold route_check_lat. block_appends. Qed.

Lemma route_check_lng_app (errors : list string) (v : value) :
  route_check_lng errors v = errors ++ route_check_lng [] v.
Proof. unfold route_check_lng. block_appends. Qed.

Lemma validateInput_concat (Date_new : string -> Date)
    (dateOfBirth timeOfBirth lat lng : value) :
  Server.validateInput Date_new dateOfBirth timeOfBirth lat lng
  = route_check_date Date_new [] dateOfBirth ++ route_check_time [] timeOfBirth
    ++ route_check_lat [] lat ++ route_check_lng [] lng.
Proof.
  rewrite validateInput_blocks.
  rewrite route_check_lng_app, route_check_lat_app, route_check_time_app.
  rewrite <- !app_assoc. reflexivity.
Qed.

Lemma route_number_guard (v : value) :
  nullish v || negb (String.eqb (typeof v) "number")
  = match v with
    | VNum _ => false
    | _ => true
    end.
Proof. destruct v; reflexivity. Qed.

Lemma route_check_date_nil (Date_new : string -> Date) (v : value) :
  route_check_date Date_new [] v = [] <->
  exists s tm y, v = VStr s /\ regex_test dateRegex s = true /\
                 Date_new s = ValidDate tm y.
Proof.
  unfold route_check_date. rewrite string_guard. split.
  - destruct v as [| | | |s| |]; try discriminate.
    unfold Vedic.as_string.
    destruct (String.eqb s EmptyString); [discriminate|].
    destruct (regex_test dateRegex s) eqn:Hre; [|discriminate].
    cbn [negb]. cbv zeta.
    destruct (Date_new s) as [|tm y] eqn:Hdate; [discriminate|].
    intros _. exists s, tm, y. split; [reflexivity|]. split; assumption.
  - intros (s & tm & y & -> & Hre & Hdate). unfold Vedic.as_string.
    destruct (String.eqb s EmptyString) eqn:Hs.
    { apply String.eqb_eq in Hs. subst s. discriminate Hre. }
    rewrite Hre. cbn [negb]. cbv zeta. rewrite Hdate. reflexivity.
Qed.

Lemma route_check_time_nil (v : value) :
  route_check_time [] v = [] <->
  exists s, v = VStr s /\ regex_test timeRegex s = true.
Proof.
  unfold route_check_time. rewrite string_guard. split.
  - destruct v as [| | | |s| |]; try discriminate.
    unfold Vedic.as_string.
    destruct (String.eqb s EmptyString); [discriminate|].
    destruct (regex_test timeRegex s) eqn:Hre; [|discriminate].
    intros _. exists s. split; [reflexivity | assumption].
  - intros (s & -> & Hre). unfold Vedic.as_string.
    destruct (String.eqb s EmptyString) eqn:Hs.
    { apply String.eqb_eq in Hs. subst s. discriminate Hre. }
    rewrite Hre. reflexivity.
Qed.

Lemma route_check_lat_nil (v : value) :
  route_check_lat [] v = [] <->
  exists n, v = VNum n /\ (n = NaN \/ in_range (-90) 90 n = true).
Proof.
  unfold route_check_lat. rewrite route_number_guard. split.
  - destruct v as [| | |n| | |]; try discriminate. unfold Vedic.as_number.
    intros H. exists n. split; [reflexivity|].
    destruct (isNaN n) eqn:Hn; [left; destruct n; try discriminate; reflexivity|].
    right. rewrite (range_guard _ _ n Hn) in H.
    destruct (in_range (-90) 90 n); [reflexivity | discriminate H].
  - intros (n & -> & [-> | Hin]); [reflexivity|]. unfold Vedic.as_number.
    assert (Hn : isNaN n = false) by (destruct n; [discriminate Hin | reflexivity..]).
    rewrite (range_guard _ _ n Hn), Hin. reflexivity.
Qed.

Lemma route_check_lng_nil (v : value) :
  route_check_lng [] v = [] <->
  exists n, v = VNum n /\ (n = NaN \/ in_range (-180) 180 n = true).
Proof.
  unfold route_check_lng. rewrite route_number_guard. split.
  - destruct v as [| | |n| | |]; try discriminate. unfold Vedic.as_number.
    intros H. exists n. split; [reflexivity|].
    destruct (isNaN n) eqn:Hn; [left; destruct n; try discriminate; reflexivity|].
    right. rewrite (range_guard _ _ n Hn) in H.
    destruct (in_range (-180) 180 n); [reflexivity | discriminate H].
  - intros (n & -> & [-> | Hin]); [reflexivity|]. unfold Vedic.as_number.
    assert (Hn : isNaN n = false) by (destruct n; [discriminate Hin | reflexivity..]).
    rewrite (range_guard _ _ n Hn), Hin. reflexivity.
Qed.

(** What a request that passes [validateInput] looks like. *)
Lemma validateInput_accepts_iff (Date_new : string -> Date)
    (dateOfBirth timeOfBirth lat lng : value) :
  Server.validateInput Date_new dateOfBirth timeOfBirth lat lng = [] <->
  (exists s tm y, dateOfBirth = VStr s /\ regex_test dateRegex s = true /\
                  Date_new s = ValidDate tm y) /\
  (exists s, timeOfBirth = VStr s /\ regex_test timeRegex s = true) /\
  (exists n, lat = VNum n /\ (n = NaN \/ in_range (-90) 90 n = true)) /\
  (exists n, lng = VNum n /\ (n = NaN \/ in_range (-180) 180 n = true)).
Proof.
  rewrite validateInput_concat.
  rewrite <- route_check_date_nil, <- route_check_time_nil,
    <- route_check_lat_nil, <- route_check_lng_nil.
  split.
  - intros H.
    apply app_eq_nil in H. destruct H as [Hd H].
    apply app_eq_nil in H. destruct H as [Ht H].
    apply app_eq_nil in H. destruct H as [Hla Hln].
    repeat split; assumption.
  - intros (-> & -> & -> & ->). reflexivity.
Qed.

(** A request that passes [validateInput] is made of strings and
    numbers, which convert. *)
Lemma route_valid_converts (Date_new : string -> Date)
    (dateOfBirth timeOfBirth lat lng : value) :
  Server.validateInput Date_new dateOfBirth timeOfBirth lat lng = [] ->
  forallb converts [dateOfBirth; timeOfBirth; lat; lng] = true.
Proof.
  intros H. apply validateInput_accepts_iff in H.
  destruct H as ((sd & tm & y & -> & _) & (st & -> & _) & (nla & -> & _)
                 & (nln & -> & _)).
  reflexivity.
Qed.

Lemma service_valid_route_valid (Date_new : string -> Date)
    (dateString timeString lat lng timezone : value) :
  Vedic.validateAstrologyInput Date_new dateString timeString lat lng timezone = [] ->
  Server.validateInput Date_new dateString timeString lat lng = [].
Proof.
  intros H. apply validate_nil_fields_ok in H.
  destruct H as (Hd & Ht & Hla & Hln & _).
  apply validateInput_accepts_iff.
  split; [|split; [|split]].
  - destruct dateString as [| | | |s| |]; try discriminate Hd.
    simpl in Hd. apply andb_true_iff in Hd. destruct Hd as [Hre Hdate].
    destruct (Date_new s) as [|tm y] eqn:E; [discriminate|].
    exists s, tm, y. repeat split; assumption.
  - destruct timeString as [| | | |s| |]; try discriminate Ht.
    simpl in Ht. apply andb_true_iff in Ht. destruct Ht as [Hre _].
    exists s. split; [reflexivity | exact Hre].
  - destruct lat as [| | |n| | |]; try discriminate Hla.
    exists n. split; [reflexivity | right; exact Hla].
  - destruct lng as [| | |n| | |]; try discriminate Hln.
    exists n. split; [reflexivity | right; exact Hln].
Qed.

(** X15. The route's own validation never rejects what the service's
    validation accepts: the checks of [validateInput] are implied by
    those of [validateAstrologyInput]. *)
Theorem service_validation_implies_route_validation :
  forall (Date_new : string -> Date) (dateString timeString lat lng timezone : value),
    Vedic.validateAstrologyInput Date_new dateString timeString lat lng timezone = [] ->
    Server.validateInput Date_new dateString timeString lat lng = [].
Proof. exact service_valid_route_valid. Qed.

Lemma service_validation_implies_route_validation_witness :
  Server.validateInput Date_new_utc good_date good_time good_lat good_lng = [].
Proof.
  apply (service_validation_implies_route_validation Date_new_utc
           good_date good_time good_lat good_lng good_timezone).
  reflexivity.
Defined.

(** The violations the service can still find in a request that
    passed the route's validation, with the timezone left out. *)
Lemma service_errors_after_route (Date_new : string -> Date)
    (dateOfBirth timeOfBirth lat lng : value) :
  Server.validateInput Date_new dateOfBirth timeOfBirth lat lng = [] ->
  exists b1 b2 b3 b4 b5 b6 : bool,
    Vedic.validateAstrologyInput Date_new dateOfBirth timeOfBirth lat lng
      (Vedic.timezone_or_default VUndefined)
    = (if b1 then ["Date must be between 1900 and 2100"] else [])
      ++ (if b2 then ["Hours must be between 00 and 23"] else [])
      ++ (if b3 then ["Minutes must be between 00 and 59"] else [])
      ++ (if b4 then ["Seconds must be between 00 and 59"] else [])
      ++ (if b5 then ["Latitude must be a valid number"] else [])
      ++ (if b6 then ["Longitude must be a valid number"] else []).
Proof.
  intros H. apply validateInput_accepts_iff in H.
  destruct H as ((sd & tm & y & -> & Hrd & Hdate) & (st & -> & Hrt)
                 & (nla & -> & Hla) & (nln & -> & Hln)).
  rewrite validate_concat.
  assert (Hd : exists b : bool, check_date Date_new [] (VStr sd)
                         = if b then ["Date must be between 1900 and 2100"] else []).
  { unfold check_date. rewrite string_guard. unfold Vedic.as_string.
    destruct (String.eqb sd EmptyString) eqn:Hs.
    { apply String.eqb_eq in Hs. subst sd. discriminate Hrd. }
    rewrite Hrd. cbn [negb]. cbv zeta. rewrite Hdate. cbn [getTime isNaN getFullYear].
    exists (num_lt (num y) (num 1900) || num_gt (num y) (num 2100)).
    change (Finite (inject_Z y)) with (num y).
    destruct (num_lt (num y) (num 1900) || num_gt (num y) (num 2100)); reflexivity. }
  destruct Hd as [b1 ->].
  destruct (time_violations_by_component st Hrt) as (h & m & sec & _ & ->).
  assert (Hnum : forall (n : number) (lo hi : Z),
             n = NaN \/ in_range lo hi n = true ->
             isNaN n = false -> num_lt n (num lo) || num_gt n (num hi) = false).
  { intros n lo hi [-> | Hin] Hn; [discriminate Hn|].
    rewrite (range_guard _ _ n Hn), Hin. reflexivity. }
  assert (Hlat : check_lat [] (VNum nla)
                 = if isNaN nla then ["Latitude must be a valid number"] else []).
  { unfold check_lat. rewrite number_guard. unfold Vedic.as_number.
    destruct (isNaN nla) eqn:Hn; [reflexivity|].
    rewrite (Hnum nla _ _ Hla Hn). reflexivity. }
  assert (Hlng : check_lng [] (VNum nln)
                 = if isNaN nln then ["Longitude must be a valid number"] else []).
  { unfold check_lng. rewrite number_guard. unfold Vedic.as_number.
    destruct (isNaN nln) eqn:Hn; [reflexivity|].
    rewrite (Hnum nln _ _ Hln Hn). reflexivity. }
  rewrite Hlat, Hlng.
  exists b1, (negb (in_range 0 23 (num h))), (negb (in_range 0 59 (num m))),
    (negb (in_range 0 59 (num sec))), (isNaN nla), (isNaN nln).
  change (check_timezone [] (Vedic.timezone_or_default VUndefined)) with (@nil string).
  rewrite app_nil_r, <- !app_assoc.
  destruct (in_range 0 23 (num h)), (in_range 0 59 (num m)), (in_range 0 59 (num sec));
    reflexivity.
Qed.

(** X16. A request that passed the route's validation can still be
    rejected by the service only for a year outside 1900-2100,
    for hours, minutes or seconds out of range, or for a latitude or
    longitude that is NaN. *)
Theorem violations_left_to_the_service :
  forall (Date_new : string -> Date) (dateOfBirth timeOfBirth lat lng : value)
         (violation : string),
    Server.validateInput Date_new dateOfBirth timeOfBirth lat lng = [] ->
    In violation
       (Vedic.validateAstrologyInput Date_new dateOfBirth timeOfBirth lat lng
          (Vedic.timezone_or_default VUndefined)) ->
    In violation
       ["Date must be between 1900 and 2100"; "Hours must be between 00 and 23";
        "Minutes must be between 00 and 59"; "Seconds must be between 00 and 59";
        "Latitude must be a valid number"; "Longitude must be a valid number"].
Proof.
  intros Date_new d t la ln violation Hroute Hin.
  destruct (service_errors_after_route Date_new d t la ln Hroute)
    as (b1 & b2 & b3 & b4 & b5 & b6 & Heq).
  rewrite Heq in Hin.
  repeat (apply in_app_or in Hin; destruct Hin as [Hin|Hin]);
    repeat match type of Hin with
           | In _ (if ?b then _ else _) => destruct b
           end;
    simpl in Hin; simpl; tauto.
Qed.

Lemma violations_left_to_the_service_witness :
  In "Date must be between 1900 and 2100"
     ["Date must be between 1900 and 2100"; "Hours must be between 00 and 23";
      "Minutes must be between 00 and 59"; "Seconds must be between 00 and 59";
      "Latitude must be a valid number"; "Longitude must be a valid number"].
Proof.
  apply (violations_left_to_the_service Date_new_utc early_date good_time good_lat
           good_lng "Date must be between 1900 and 2100").
  - reflexivity.
  - vm_compute. tauto.
Defined.

(** ** The route, case by case *)

Lemma route_try_body (Date_new : string -> Date)
    (service : value -> value -> value -> value -> value -> io Types.VedicAstrologyData)
    (reqBody : value) :
  nullish reqBody = false ->
  Server.astrology_data_try Date_new service reqBody
  = let dateOfBirth := prop reqBody "dateOfBirth" in
    let timeOfBirth := prop reqBody "timeOfBirth" in
    let lat := prop reqBody "lat" in
    let lng := prop reqBody "lng" in
    let validationErrors := Server.validateInput Date_new dateOfBirth timeOfBirth lat lng in
    if (0 <? length validationErrors)%nat then
      ([], inr {| status := 400;
                  json := InvalidInputBody "Invalid input" validationErrors |})
    else
      match service dateOfBirth timeOfBirth lat lng VUndefined with
      | (log, inr result) => (log, inr {| status := 200; json := ResultBody result |})
      | (log, inl error) => (log, inl error)
      end.
Proof.
  intros Hn. unfold Server.astrology_data_try, get. rewrite Hn.
  cbv [mbind io_bind io_lift mret io_ret exc_ret]. cbv beta iota zeta.
  destruct (0 <? length _)%nat; [reflexivity|].
  destruct (service _ _ _ _ _) as [log [e|r]]; cbn [app]; [reflexivity|].
  rewrite app_nil_r. reflexivity.
Qed.

(** X17. A request whose fields fail the route's validation is
    answered 400 "Invalid input" with the violations as details, and
    the service is not called. *)
Theorem route_rejects_before_service :
  forall (Date_new : string -> Date) (development : bool)
         (service : value -> value -> value -> value -> value ->
                    io Types.VedicAstrologyData)
         (reqBody : value),
    nullish reqBody = false ->
    Server.validateInput Date_new (prop reqBody "dateOfBirth")
      (prop reqBody "timeOfBirth") (prop reqBody "lat") (prop reqBody "lng") <> [] ->
    Server.astrology_data Date_new development service reqBody
    = ([], {| status := 400;
              json := InvalidInputBody "Invalid input"
                        (Server.validateInput Date_new (prop reqBody "dateOfBirth")
                           (prop reqBody "timeOfBirth") (prop reqBody "lat")
                           (prop reqBody "lng")) |}).
Proof.
  intros Date_new dev service body Hn Hbad.
  unfold Server.astrology_data. rewrite (route_try_body Date_new service body Hn).
  cbv zeta.
  destruct (Server.validateInput Date_new _ _ _ _) as [|e es]; [congruence|].
  reflexivity.
Qed.

Lemma route_rejects_before_service_witness :
  Server.astrology_data Date_new_utc false
    (Vedic.getVedicAstrologyData Date_new_utc sample_package) query_wrong_separator
  = ([], {| status := 400;
            json := InvalidInputBody "Invalid input"
                      ["dateOfBirth must be in YYYY-MM-DD format";
                       "lat is required and must be a number"] |}).
Proof.
  apply (route_rejects_before_service Date_new_utc false
           (Vedic.getVedicAstrologyData Date_new_utc sample_package)
           query_wrong_separator).
  - reflexivity.
  - vm_compute. discriminate.
Defined.

Lemma validation_message_status (development : bool) (errors : list string) :
  status (Server.error_response development
            (JsError ("Invalid input parameters: Input validation failed: " +:+
                      join ", " errors))) = 400%Z.
Proof.
  unfold Server.error_response.
  destruct (includes _ "Invalid date" || includes _ "Invalid time"); [reflexivity|].
  destruct (includes _ "coordinates" || includes _ "latitude" || includes _ "longitude");
    [reflexivity|].
  change ("Invalid input parameters: Input validation failed: " +:+ join ", " errors)
    with ("Invalid input parameters: " +:+
          ("Input validation failed" +:+ (": " +:+ join ", " errors))).
  rewrite (includes_app_r "Invalid input parameters: " _ "Input validation failed"
             (includes_prefix _ _)).
  reflexivity.
Qed.

(** X18. A request that passes the route's validation but not the
    service's is answered 400 "Invalid input parameters", the
    violations are in the message, and the library is not called. *)
Theorem service_rejection_answered_400 :
  forall (Date_new : string -> Date) (development : bool) (vedicAstrology : package)
         (reqBody : value),
    nullish reqBody = false ->
    Server.validateInput Date_new (prop reqBody "dateOfBirth")
      (prop reqBody "timeOfBirth") (prop reqBody "lat") (prop reqBody "lng") = [] ->
    Vedic.validateAstrologyInput Date_new (prop reqBody "dateOfBirth")
      (prop reqBody "timeOfBirth") (prop reqBody "lat") (prop reqBody "lng")
      (Vedic.timezone_or_default VUndefined) <> [] ->
    Server.astrology_data Date_new development
      (Vedic.getVedicAstrologyData Date_new vedicAstrology) reqBody
    = ([], {| status := 400;
              json := ErrorBody "Invalid input parameters"
                        (Some ("Invalid input parameters: Input validation failed: " +:+
                               join ", "
                                 (Vedic.validateAstrologyInput Date_new
                                    (prop reqBody "dateOfBirth")
                                    (prop reqBody "timeOfBirth")
                                    (prop reqBody "lat") (prop reqBody "lng")
                                    (Vedic.timezone_or_default VUndefined))))
                        None |}).
Proof.
  intros Date_new dev pkg body Hn Hroute Hservice.
  unfold Server.astrology_data.
  rewrite (route_try_body Date_new _ body Hn). cbv zeta. rewrite Hroute.
  change (0 <? length (@nil string))%nat with false. cbv iota.
  rewrite service_unfold, (route_valid_converts Date_new _ _ _ _ Hroute).
  rewrite (rejected_in_try Date_new pkg _ _ _ _ _ Hservice).
  destruct (service_errors_after_route Date_new _ _ _ _ Hroute)
    as (b1 & b2 & b3 & b4 & b5 & b6 & Heq).
  rewrite Heq in *.
  destruct b1, b2, b3, b4, b5, b6; try (exfalso; apply Hservice; reflexivity);
    reflexivity.
Qed.

Lemma service_rejection_answered_400_witness :
  Server.astrology_data Date_new_utc false
    (Vedic.getVedicAstrologyData Date_new_utc sample_package) query_early_year
  = ([], {| status := 400;
            json := ErrorBody "Invalid input parameters"
                      (Some "Invalid input parameters: Input validation failed: Date must be between 1900 and 2100")
                      None |}).
Proof.
  apply (service_rejection_answered_400 Date_new_utc false sample_package
           query_early_year).
  - reflexivity.
  - reflexivity.
  - vm_compute. discriminate.
Defined.

(** X19. End to end: a request whose fields pass the service's
    validation, served by a library that answers with a chart whose
    [meta] is an object, causes one call of the library with
    timezone 5.5 and is answered 200 with the summary of that chart;
    unless one of the three signs of the chart does not convert to a
    string, in which case the answer is 500 "Internal server
    error". *)
Theorem route_answers_summary :
  forall (Date_new : string -> Date) (development : bool)
         (getBirthChart : value -> value -> value -> value -> value -> exc value)
         (reqBody chart : value),
    nullish reqBody = false ->
    Vedic.validateAstrologyInput Date_new (prop reqBody "dateOfBirth")
      (prop reqBody "timeOfBirth") (prop reqBody "lat") (prop reqBody "lng")
      (Vedic.timezone_or_default VUndefined) = [] ->
    getBirthChart (prop reqBody "dateOfBirth") (prop reqBody "timeOfBirth")
      (prop reqBody "lat") (prop reqBody "lng") (Vedic.timezone_or_default VUndefined)
    = inr chart ->
    chart_shape_ok chart = true ->
    Server.astrology_data Date_new development
      (Vedic.getVedicAstrologyData Date_new (Loaded getBirthChart)) reqBody
    = ([GetBirthChart (prop reqBody "dateOfBirth") (prop reqBody "timeOfBirth")
          (prop reqBody "lat") (prop reqBody "lng") (VNum (Finite (11 # 2)))],
       if signs_convert chart then
         {| status := 200; json := ResultBody (summary_of chart) |}
       else
         {| status := 500;
            json := ErrorBody "Internal server error"
                      (Some "Failed to calculate astrology data. Please try again later.")
                      (if development
                       then Some "Astrology calculation failed: Cannot convert object to primitive value"
                       else None) |}).
Proof.
  intros Date_new dev f body chart Hn Hvalid Hcall Hshape.
  unfold Server.astrology_data.
  rewrite (route_try_body Date_new _ body Hn). cbv zeta.
  rewrite (service_valid_route_valid Date_new _ _ _ _ _ Hvalid).
  change (0 <? length (@nil string))%nat with false. cbv iota.
  rewrite (service_valid_unfold Date_new _ _ _ _ _ VUndefined Hvalid).
  rewrite (service_try_chart Date_new _ _ _ _ _ Hvalid f chart Hcall Hshape).
  destruct (signs_convert chart); [reflexivity|].
  destruct dev; reflexivity.
Qed.

Lemma route_answers_summary_witness :
  Server.astrology_data Date_new_utc false
    (Vedic.getVedicAstrologyData Date_new_utc sample_package) sample_query
  = ([GetBirthChart good_date good_time good_lat good_lng good_timezone],
     {| status := 200; json := ResultBody (summary_of chart_distinct) |}) /\
  Server.astrology_data Date_new_utc true
    (Vedic.getVedicAstrologyData Date_new_utc unprintable_sign_package) sample_query
  = ([GetBirthChart good_date good_time good_lat good_lng good_timezone],
     {| status := 500;
        json := ErrorBody "Internal server error"
                  (Some "Failed to calculate astrology data. Please try again later.")
                  (Some "Astrology calculation failed: Cannot convert object to primitive value") |}).
Proof.
  split.
  - apply (route_answers_summary Date_new_utc false (fun _ _ _ _ _ => mret chart_distinct)
             sample_query chart_distinct).
    + reflexivity.
    + reflexivity.
    + reflexivity.
    + reflexivity.
  - apply (route_answers_summary Date_new_utc true
             (fun _ _ _ _ _ => mret chart_unprintable_sign)
             sample_query chart_unprintable_sign).
    + reflexivity.
    + reflexivity.
    + reflexivity.
    + reflexivity.
Defined.

Lemma error_response_statuses (development : bool) (error : thrown) :
  In (status (Server.error_response development error)) [400; 503; 500]%Z.
Proof.
  unfold Server.error_response. destruct error as [m|]; [|simpl; tauto].
  repeat match goal with
         | |- context [if ?b then _ else _] => destruct b
         end; simpl; tauto.
Qed.

(** X20. Whatever the request and whatever the library does, the
    route answers 200, 400 or 500. *)
Theorem route_statuses :
  forall (Date_new : string -> Date) (development : bool) (vedicAstrology : package)
         (reqBody : value),
    In (status (snd (Server.astrology_data Date_new development
                       (Vedic.getVedicAstrologyData Date_new vedicAstrology) reqBody)))
       [200; 400; 500]%Z.
Proof.
  intros Date_new dev pkg body.
  pose proof (route_never_answers_503 Date_new dev pkg body) as Hno.
  revert Hno. unfold Server.astrology_data.
  destruct (Server.astrology_data_try Date_new
              (Vedic.getVedicAstrologyData Date_new pkg) body) as [log [e|res]] eqn:Htry.
  - cbn [snd]. intros Hno.
    destruct (error_response_statuses dev e) as [H|[H|[H|[]]]];
      [right; left; exact H | congruence | right; right; left; exact H].
  - cbn [snd]. intros _.
    destruct (astrology_data_try_cases Date_new
                (Vedic.getVedicAstrologyData Date_new pkg) body)
      as [[_ H] | [[details H] | (d & t & la & ln & H)]]; rewrite H in Htry.
    + discriminate Htry.
    + injection Htry as _ <-. right. left. reflexivity.
    + destruct (Vedic.getVedicAstrologyData Date_new pkg d t la ln VUndefined)
        as [log' [e|r]]; [discriminate Htry|].
      injection Htry as _ <-. left. reflexivity.
Qed.

(** X21. A request whose body is an object with none of the four
    fields, such as the empty object, is answered 400 "Invalid input"
    with the four "required" violations, and the service is not
    called. *)
Theorem empty_body_answered_400 :
  forall (Date_new : string -> Date) (development : bool)
         (service : value -> value -> value -> value -> value ->
                    io Types.VedicAstrologyData)
         (reqBody : value),
    nullish reqBody = false ->
    prop reqBody "dateOfBirth" = VUndefined ->
    prop reqBody "timeOfBirth" = VUndefined ->
    prop reqBody "lat" = VUndefined ->
    prop reqBody "lng" = VUndefined ->
    Server.astrology_data Date_new development service reqBody
    = ([], {| status := 400;
              json := InvalidInputBody "Invalid input"
                        ["dateOfBirth is required and must be a string";
                         "timeOfBirth is required and must be a string";
                         "lat is required and must be a number";
                         "lng is required and must be a number"] |}).
Proof.
  intros Date_new dev service body Hn Hd Ht Hla Hln.
  unfold Server.astrology_data. rewrite (route_try_body Date_new service body Hn).
  cbv zeta. rewrite Hd, Ht, Hla, Hln. reflexivity.
Qed.

Lemma empty_body_answered_400_witness :
  Server.astrology_data Date_new_utc false
    (Vedic.getVedicAstrologyData Date_new_utc sample_package) (VObj ∅)
  = ([], {| status := 400;
            json := InvalidInputBody "Invalid input"
                      ["dateOfBirth is required and must be a string";
                       "timeOfBirth is required and must be a string";
                       "lat is required and must be a number";
                       "lng is required and must be a number"] |}).
Proof.
  apply (empty_body_answered_400 Date_new_utc false
           (Vedic.getVedicAstrologyData Date_new_utc sample_package) (VObj ∅));
    reflexivity.
Defined.

(** ** The plain route *)

Lemma simple_route_body
    (service : value -> value -> value -> value -> value -> io Types.VedicAstrologyData)
    (reqBody : value) :
  nullish reqBody = false ->
  ServerSimple.astrology_data service reqBody
  = let dateOfBirth := prop reqBody "dateOfBirth" in
    let timeOfBirth := prop reqBody "timeOfBirth" in
    let lat := prop reqBody "lat" in
    let lng := prop reqBody "lng" in
    if negb (truthy dateOfBirth) || negb (truthy timeOfBirth) || nullish lat || nullish lng
    then ([], inr {| status := 400;
                     json := ErrorBody "Missing required fields" None None |})
    else
      match service dateOfBirth timeOfBirth lat lng VUndefined with
      | (log, inr result) => (log, inr {| status := 200; json := ResultBody result |})
      | (log, inl error) =>
          (log, inr {| status := 500;
                       json := ErrorBody
                                 match error with
                                 | JsError message =>
                                     if String.eqb message EmptyString
                                     then "Unknown server error"
                                     else message
                                 | NonError => "Unknown server error"
                                 end None None |})
      end.
Proof.
  intros Hn. unfold ServerSimple.astrology_data, ServerSimple.destructure. rewrite Hn.
  cbv [mbind io_bind io_lift mret io_ret exc_ret]. cbv beta iota zeta.
  destruct (negb _ || negb _ || nullish _ || nullish _); [reflexivity|].
  destruct (service _ _ _ _ _) as [log [e|r]]; reflexivity.
Qed.

(** Without a body the destructuring throws before the [try]. *)
Lemma simple_route_without_body
    (service : value -> value -> value -> value -> value -> io Types.VedicAstrologyData) :
  ServerSimple.astrology_data service VUndefined
  = ([], inl (JsError
       "Cannot destructure property 'dateOfBirth' of 'req.body' as it is undefined.")).
Proof. reflexivity. Qed.

(** X22. The plain route answers 400 "Missing required fields",
    without calling the service, when the date or the time is absent
    or empty or when the latitude or the longitude is null or
    undefined. *)
Theorem simple_route_missing_fields :
  forall (service : value -> value -> value -> value -> value ->
                    io Types.VedicAstrologyData)
         (reqBody : value),
    nullish reqBody = false ->
    truthy (prop reqBody "dateOfBirth") = false \/
    truthy (prop reqBody "timeOfBirth") = false \/
    nullish (prop reqBody "lat") = true \/
    nullish (prop reqBody "lng") = true ->
    ServerSimple.astrology_data service reqBody
    = ([], inr {| status := 400;
                  json := ErrorBody "Missing required fields" None None |}).
Proof.
  intros service body Hn Hmissing.
  rewrite (simple_route_body service body Hn). cbv zeta.
  assert (Hcond : negb (truthy (prop body "dateOfBirth"))
                  || negb (truthy (prop body "timeOfBirth"))
                  || nullish (prop body "lat") || nullish (prop body "lng") = true).
  { destruct Hmissing as [H|[H|[H|H]]]; rewrite H; cbn [negb orb];
      rewrite ?orb_true_r; reflexivity. }
  rewrite Hcond. reflexivity.
Qed.

Lemma simple_route_missing_fields_witness :
  ServerSimple.astrology_data (Vedic.getVedicAstrologyData Date_new_utc sample_package)
    query_without_time
  = ([], inr {| status := 400;
                json := ErrorBody "Missing required fields" None None |}).
Proof.
  apply (simple_route_missing_fields
           (Vedic.getVedicAstrologyData Date_new_utc sample_package) query_without_time).
  - reflexivity.
  - right. left. reflexivity.
Defined.

(** X23. Through the plain route a request whose fields are present
    but fail the service's validation is answered 500 and the
    library is not called.  The error text is the service's whole
    validation message when the four fields convert to strings, and
    "Cannot convert object to primitive value" when one of them
    does not. *)
Theorem simple_route_validation_fault_500 :
  forall (Date_new : string -> Date) (vedicAstrology : package) (reqBody : value),
    nullish reqBody = false ->
    truthy (prop reqBody "dateOfBirth") = true ->
    truthy (prop reqBody "timeOfBirth") = true ->
    nullish (prop reqBody "lat") = false ->
    nullish (prop reqBody "lng") = false ->
    Vedic.validateAstrologyInput Date_new (prop reqBody "dateOfBirth")
      (prop reqBody "timeOfBirth") (prop reqBody "lat") (prop reqBody "lng")
      (Vedic.timezone_or_default VUndefined) <> [] ->
    ServerSimple.astrology_data (Vedic.getVedicAstrologyData Date_new vedicAstrology)
      reqBody
    = ([], inr {| status := 500;
                  json := ErrorBody
                            (if forallb converts
                                  [prop reqBody "dateOfBirth"; prop reqBody "timeOfBirth";
                                   prop reqBody "lat"; prop reqBody "lng"]
                             then
                               "Invalid input parameters: Input validation failed: " +:+
                               join ", "
                                 (Vedic.validateAstrologyInput Date_new
                                    (prop reqBody "dateOfBirth")
                                    (prop reqBody "timeOfBirth")
                                    (prop reqBody "lat") (prop reqBody "lng")
                                    (Vedic.timezone_or_default VUndefined))
                             else "Cannot convert object to primitive value")
                            None None |}).
Proof.
  intros Date_new pkg body Hn Hd Ht Hla Hln Hbad.
  rewrite (simple_route_body _ body Hn). cbv zeta.
  rewrite Hd, Ht, Hla, Hln. cbn [negb orb].
  rewrite service_unfold.
  destruct (forallb converts _); [|reflexivity].
  rewrite (rejected_in_try Date_new pkg _ _ _ _ _ Hbad).
  reflexivity.
Qed.

Lemma simple_route_validation_fault_500_witness :
  ServerSimple.astrology_data (Vedic.getVedicAstrologyData Date_new_utc sample_package)
    query_early_year
  = ([], inr {| status := 500;
                json := ErrorBody
                          "Invalid input parameters: Input validation failed: Date must be between 1900 and 2100"
                          None None |}) /\
  ServerSimple.astrology_data (Vedic.getVedicAstrologyData Date_new_utc sample_package)
    query_unprintable_lat
  = ([], inr {| status := 500;
                json := ErrorBody "Cannot convert object to primitive value" None None |}).
Proof.
  split.
  - apply (simple_route_validation_fault_500 Date_new_utc sample_package query_early_year).
    + reflexivity.
    + reflexivity.
    + reflexivity.
    + reflexivity.
    + reflexivity.
    + vm_compute. discriminate.
  - apply (simple_route_validation_fault_500 Date_new_utc sample_package
             query_unprintable_lat).
    + reflexivity.
    + reflexivity.
    + reflexivity.
    + reflexivity.
    + reflexivity.
    + vm_compute. discriminate.
Defined.

(** ** The first revision *)

Section Legacy.

Variable coerce : value -> number.

(** A degree that converts is read without a throw; one that does
    not makes [String] throw. *)
Lemma legacy_degree_read (chart : value) (c : string) :
  degree_converts chart c = true ->
  VedicLegacy.coerced_degree coerce (prop (prop chart "meta") c)
  = inr (legacy_degree coerce chart c).
Proof.
  unfold degree_converts, legacy_degree, VedicLegacy.coerced_degree,
    VedicLegacy.parseFloat_String.
  cbv zeta. intros Hconv.
  destruct (nullish (get_opt (prop (prop chart "meta") c) "degree")); [reflexivity|].
  rewrite Hconv. reflexivity.
Qed.

Lemma legacy_degree_throws (chart : value) (c : string) :
  degree_converts chart c = false ->
  VedicLegacy.coerced_degree coerce (prop (prop chart "meta") c)
  = inl conversion_error.
Proof.
  unfold degree_converts, VedicLegacy.coerced_degree, VedicLegacy.parseFloat_String.
  cbv zeta. intros Hconv.
  destruct (nullish (get_opt (prop (prop chart "meta") c) "degree")) eqn:Hn.
  - destruct (get_opt (prop (prop chart "meta") c) "degree");
      discriminate Hn || discriminate Hconv.
  - rewrite Hconv. reflexivity.
Qed.

Lemma legacy_scan_planet_eq (chart : value) (st : VedicLegacy.locals) (p : string) :
  nullish (prop chart "meta") = false ->
  degree_converts chart p = true ->
  VedicLegacy.scan_planet coerce (prop chart "meta") st p
  = inr (legacy_step (legacy_degree coerce chart p) st p).
Proof.
  intros Hn Hconv. unfold VedicLegacy.scan_planet, get, legacy_step. rewrite Hn.
  change (mret (prop (prop chart "meta") p) ≫= ?f) with (f (prop (prop chart "meta") p)).
  cbv beta. rewrite (legacy_degree_read chart p Hconv).
  change (inr ?x ≫= ?f) with (f x). cbv beta.
  destruct (num_gt _ _); reflexivity.
Qed.

Lemma legacy_scan_planet_throws (chart : value) (st : VedicLegacy.locals) (p : string) :
  nullish (prop chart "meta") = false ->
  degree_converts chart p = false ->
  VedicLegacy.scan_planet coerce (prop chart "meta") st p = inl conversion_error.
Proof.
  intros Hn Hconv. unfold VedicLegacy.scan_planet, get. rewrite Hn.
  change (mret (prop (prop chart "meta") p) ≫= ?f) with (f (prop (prop chart "meta") p)).
  cbv beta. rewrite (legacy_degree_throws chart p Hconv). reflexivity.
Qed.

Lemma legacy_for_of (chart : value) (ps : list string) :
  nullish (prop chart "meta") = false ->
  (forall c, In c ps -> degree_converts chart c = true) ->
  forall st : VedicLegacy.locals,
    for_of ps (VedicLegacy.scan_planet coerce (prop chart "meta")) st
    = inr (legacy_all coerce chart ps st).
Proof.
  intros Hn. induction ps as [|p ps IH]; intros Hconv st.
  - reflexivity.
  - change (for_of (p :: ps) (VedicLegacy.scan_planet coerce (prop chart "meta")) st)
      with (VedicLegacy.scan_planet coerce (prop chart "meta") st p ≫=
            for_of ps (VedicLegacy.scan_planet coerce (prop chart "meta"))).
    rewrite (legacy_scan_planet_eq _ st p Hn (Hconv p (or_introl eq_refl))).
    change (inr ?x ≫= ?f) with (f x). apply IH.
    intros c Hc. apply Hconv. right. exact Hc.
Qed.

(** The loop throws at the first degree that does not convert. *)
Lemma legacy_for_of_throws (chart : value) (ps : list string) :
  nullish (prop chart "meta") = false ->
  (exists c, In c ps /\ degree_converts chart c = false) ->
  forall st : VedicLegacy.locals,
    for_of ps (VedicLegacy.scan_planet coerce (prop chart "meta")) st
    = inl conversion_error.
Proof.
  intros Hn. induction ps as [|p ps IH]; intros (c & Hc & Hconv) st.
  - destruct Hc.
  - change (for_of (p :: ps) (VedicLegacy.scan_planet coerce (prop chart "meta")) st)
      with (VedicLegacy.scan_planet coerce (prop chart "meta") st p ≫=
            for_of ps (VedicLegacy.scan_planet coerce (prop chart "meta"))).
    destruct (degree_converts chart p) eqn:Hp.
    + rewrite (legacy_scan_planet_eq _ st p Hn Hp).
      change (inr ?x ≫= ?f) with (f x). apply IH.
      destruct Hc as [<-|Hc]; [congruence|]. exists c. split; assumption.
    + rewrite (legacy_scan_planet_throws _ st p Hn Hp). reflexivity.
Qed.

Lemma legacy_calculate_eq (chart : value) :
  nullish chart = false ->
  nullish (prop chart "meta") = false ->
  (forall c, In c Vedic.planets -> degree_converts chart c = true) ->
  VedicLegacy.calculateAtmakarak coerce chart
  = inr (Vedic.planet_name
           (VedicLegacy.atmakarak
              (legacy_all coerce chart Vedic.planets VedicLegacy.locals_init))).
Proof.
  intros Hc Hm Hconv. unfold VedicLegacy.calculateAtmakarak, get. rewrite Hc.
  change (mret (prop chart "meta") ≫= ?f) with (f (prop chart "meta")). cbv beta.
  rewrite (legacy_for_of chart Vedic.planets Hm Hconv). reflexivity.
Qed.

Lemma legacy_all_cons (chart : value) (p : string) (ps : list string)
    (st : VedicLegacy.locals) :
  legacy_all coerce chart (p :: ps) st
  = legacy_all coerce chart ps (legacy_step (legacy_degree coerce chart p) st p).
Proof. reflexivity. Qed.

Lemma legacy_all_atmakarak_in (chart : value) (ps : list string) :
  forall st : VedicLegacy.locals,
    In (VedicLegacy.atmakarak (legacy_all coerce chart ps st))
       (VedicLegacy.atmakarak st :: ps).
Proof.
  induction ps as [|p ps IH]; intros st.
  - left. reflexivity.
  - rewrite legacy_all_cons.
    destruct (IH (legacy_step (legacy_degree coerce chart p) st p)) as [H|H].
    + rewrite <- H. unfold legacy_step.
      destruct (num_gt _ _); [right; left; reflexivity | left; reflexivity].
    + right. right. exact H.
Qed.

(** Degrees that are all finite and below a bound keep the maximum
    below it. *)
Lemma legacy_all_below (chart : value) (ps : list string) (b : Q) :
  forall (st : VedicLegacy.locals) (m : Q),
    VedicLegacy.maxDegrees st = Finite m -> (m < b)%Q ->
    (forall c, In c ps -> exists q, legacy_degree coerce chart c = Finite q /\ (q < b)%Q) ->
    exists m', VedicLegacy.maxDegrees (legacy_all coerce chart ps st) = Finite m'
               /\ (m' < b)%Q.
Proof.
  induction ps as [|p ps IH]; intros st m Hm Hmb Hlt.
  - exists m. split; assumption.
  - rewrite legacy_all_cons.
    destruct (Hlt p (or_introl eq_refl)) as (q & Hq & Hqb).
    unfold legacy_step. rewrite Hq.
    destruct (num_gt (Finite q) (VedicLegacy.maxDegrees st)).
    + apply (IH {| VedicLegacy.maxDegrees := Finite q; VedicLegacy.atmakarak := p |}
               q eq_refl Hqb).
      intros c Hc. apply Hlt. right. exact Hc.
    + apply (IH st m Hm Hmb). intros c Hc. apply Hlt. right. exact Hc.
Qed.

Lemma legacy_all_no_update (chart : value) (ps : list string) :
  forall (st : VedicLegacy.locals) (m : Q),
    VedicLegacy.maxDegrees st = Finite m ->
    (forall c, In c ps -> exists q, legacy_degree coerce chart c = Finite q /\ (q <= m)%Q) ->
    legacy_all coerce chart ps st = st.
Proof.
  induction ps as [|p ps IH]; intros st m Hm Hle.
  - reflexivity.
  - rewrite legacy_all_cons.
    destruct (Hle p (or_introl eq_refl)) as (q & Hq & Hqm).
    assert (Hstep : legacy_step (legacy_degree coerce chart p) st p = st).
    { unfold legacy_step. rewrite Hq, Hm. unfold num_gt. cbn [num_lt].
      apply Qltb_ge in Hqm. rewrite Hqm. reflexivity. }
    rewrite Hstep. apply (IH st m Hm). intros c Hc. apply Hle. right. exact Hc.
Qed.

Lemma legacy_all_winner (chart : value) (l1 l2 : list string) (w : string) (q : Q) :
  forall (st : VedicLegacy.locals) (m : Q),
    VedicLegacy.maxDegrees st = Finite m -> (m < q)%Q ->
    legacy_degree coerce chart w = Finite q ->
    (forall c, In c l1 -> exists q', legacy_degree coerce chart c = Finite q' /\ (q' < q)%Q) ->
    (forall c, In c l2 -> exists q', legacy_degree coerce chart c = Finite q' /\ (q' <= q)%Q) ->
    VedicLegacy.atmakarak (legacy_all coerce chart (l1 ++ w :: l2) st) = w.
Proof.
  intros st m Hm Hmq Hw Hl1 Hl2.
  unfold legacy_all. rewrite fold_left_app. fold (legacy_all coerce chart l1 st).
  cbn [fold_left].
  destruct (legacy_all_below chart l1 q st m Hm Hmq Hl1) as (m1 & Hm1 & Hm1q).
  assert (Hstep : legacy_step (legacy_degree coerce chart w)
                    (legacy_all coerce chart l1 st) w
                  = {| VedicLegacy.maxDegrees := Finite q; VedicLegacy.atmakarak := w |}).
  { unfold legacy_step. rewrite Hw, Hm1. unfold num_gt. cbn [num_lt].
    apply Qltb_lt in Hm1q. rewrite Hm1q. reflexivity. }
  rewrite Hstep.
  fold (legacy_all coerce chart l2
          {| VedicLegacy.maxDegrees := Finite q; VedicLegacy.atmakarak := w |}).
  rewrite (legacy_all_no_update chart l2
             {| VedicLegacy.maxDegrees := Finite q; VedicLegacy.atmakarak := w |}
             q eq_refl Hl2).
  reflexivity.
Qed.

(** The degree the first revision reads where the filtering revision
    sees a valid degree, and where the degree is missing. *)
Lemma legacy_degree_valid (chart : value) (c : string) (q : Q) :
  valid_degree chart c = Some q -> legacy_degree coerce chart c = Finite q.
Proof.
  intros Hq. destruct (valid_degree_field chart c q Hq) as (e & He & Hd).
  unfold legacy_degree, VedicLegacy.coerced_degree, get_opt. rewrite He.
  change (nullish (VObj e)) with false. cbv iota zeta. rewrite Hd. reflexivity.
Qed.

Lemma legacy_degree_missing (chart : value) (c : string) :
  degree_missing chart c = true ->
  legacy_degree coerce chart c = num 0 /\ valid_degree chart c = None.
Proof.
  unfold degree_missing, legacy_degree, VedicLegacy.coerced_degree.
  intros Hmiss. cbv zeta. rewrite Hmiss. split; [reflexivity|].
  unfold valid_degree, degree_field. unfold get_opt in Hmiss.
  destruct (prop (prop chart "meta") c) as [| | | | |e|]; try reflexivity.
  change (nullish (VObj e)) with false in Hmiss. cbv iota in Hmiss.
  destruct (prop (VObj e) "degree"); try discriminate Hmiss; reflexivity.
Qed.

End Legacy.

Lemma valid_degree_converts (chart : value) (c : string) (q : Q) :
  valid_degree chart c = Some q -> degree_converts chart c = true.
Proof.
  intros Hq. destruct (valid_degree_field chart c q Hq) as (e & He & Hd).
  unfold degree_converts, get_opt. rewrite He.
  change (nullish (VObj e)) with false. cbv iota. rewrite Hd. reflexivity.
Qed.

Lemma missing_degree_converts (chart : value) (c : string) :
  degree_missing chart c = true -> degree_converts chart c = true.
Proof.
  unfold degree_missing, degree_converts.
  destruct (get_opt (prop (prop chart "meta") c) "degree"); try discriminate;
    reflexivity.
Qed.

(** X24. Unlike the filtering revision, the first revision of
    [calculateAtmakarak] throws: a TypeError on the missing property
    when the chart, or its [meta], is null or undefined, and the
    TypeError of [String] when the degree of one of the seven planets
    does not convert to a string.  On every other chart it returns
    one of the seven full names. *)
Theorem legacy_atmakarak_throws_without_meta :
  forall (coerce : value -> number) (chart : value),
    (nullish chart = true ->
     VedicLegacy.calculateAtmakarak coerce chart = inl (type_error chart "meta")) /\
    (nullish chart = false -> nullish (prop chart "meta") = true ->
     VedicLegacy.calculateAtmakarak coerce chart
     = inl (type_error (prop chart "meta") "Su")) /\
    (nullish chart = false -> nullish (prop chart "meta") = false ->
     (exists c, In c Vedic.planets /\ degree_converts chart c = false) ->
     VedicLegacy.calculateAtmakarak coerce chart
     = inl (JsError "Cannot convert object to primitive value")) /\
    (nullish chart = false -> nullish (prop chart "meta") = false ->
     (forall c, In c Vedic.planets -> degree_converts chart c = true) ->
     exists name, VedicLegacy.calculateAtmakarak coerce chart = inr name /\
                  In name full_names).
Proof.
  intros coerce chart. split; [|split; [|split]].
  - intros Hc. unfold VedicLegacy.calculateAtmakarak, get. rewrite Hc. reflexivity.
  - intros Hc Hm. unfold VedicLegacy.calculateAtmakarak, get. rewrite Hc.
    change (mret (prop chart "meta") ≫= ?f) with (f (prop chart "meta")). cbv beta.
    assert (Hthrow : forall st p,
               VedicLegacy.scan_planet coerce (prop chart "meta") st p
               = inl (type_error (prop chart "meta") p)).
    { intros st p. unfold VedicLegacy.scan_planet, get. rewrite Hm. reflexivity. }
    unfold Vedic.planets. cbn [for_of].
    rewrite (Hthrow VedicLegacy.locals_init "Su"). reflexivity.
  - intros Hc Hm Hbad. unfold VedicLegacy.calculateAtmakarak, get. rewrite Hc.
    change (mret (prop chart "meta") ≫= ?f) with (f (prop chart "meta")). cbv beta.
    rewrite (legacy_for_of_throws coerce chart Vedic.planets Hm Hbad). reflexivity.
  - intros Hc Hm Hconv. rewrite (legacy_calculate_eq coerce chart Hc Hm Hconv).
    eexists. split; [reflexivity|].
    destruct (legacy_all_atmakarak_in coerce chart Vedic.planets VedicLegacy.locals_init)
      as [H|H].
    + rewrite <- H. left. reflexivity.
    + apply planet_name_full. exact H.
Qed.

Lemma legacy_atmakarak_throws_without_meta_witness :
  VedicLegacy.calculateAtmakarak (fun _ => NaN) VNull
  = inl (JsError "Cannot read properties of null (reading 'meta')") /\
  VedicLegacy.calculateAtmakarak (fun _ => NaN) (VObj ∅)
  = inl (JsError "Cannot read properties of undefined (reading 'Su')") /\
  VedicLegacy.calculateAtmakarak (fun _ => NaN) chart_unprintable_degree
  = inl (JsError "Cannot convert object to primitive value") /\
  exists name, VedicLegacy.calculateAtmakarak (fun _ => NaN) chart_malformed = inr name /\
               In name full_names.
Proof.
  split; [|split; [|split]].
  - apply (proj1 (legacy_atmakarak_throws_without_meta (fun _ => NaN) VNull)).
    reflexivity.
  - refine (eq_trans (proj1 (proj2 (legacy_atmakarak_throws_without_meta
                                      (fun _ => NaN) (VObj ∅))) eq_refl eq_refl) _).
    reflexivity.
  - apply (proj1 (proj2 (proj2 (legacy_atmakarak_throws_without_meta
                                  (fun _ => NaN) chart_unprintable_degree))));
      [reflexivity | reflexivity |].
    exists "Mo". split; [vm_compute; tauto | reflexivity].
  - apply (proj2 (proj2 (proj2 (legacy_atmakarak_throws_without_meta (fun _ => NaN)
                                  chart_malformed))));
      [reflexivity | reflexivity |].
    intros c H. each_planet H; reflexivity.
Defined.

(** X25. The first revision of the service validates nothing: a
    loaded library is called exactly once whatever the arguments are,
    with the timezone defaulted to 5.5 when omitted; and every
    failure is thrown as an Error whose message starts with "Failed
    to calculate vedic astrology data: ". *)
Theorem legacy_service_unvalidated :
  forall (coerce : value -> number)
         (getBirthChart : value -> value -> value -> value -> value -> exc value)
         (dateString timeString lat lng timezone : value),
    calls (VedicLegacy.getVedicAstrologyData coerce (Loaded getBirthChart)
             dateString timeString lat lng timezone)
    = [GetBirthChart dateString timeString lat lng (Vedic.timezone_or_default timezone)] /\
    forall error,
      outcome (VedicLegacy.getVedicAstrologyData coerce (Loaded getBirthChart)
                 dateString timeString lat lng timezone) = inl error ->
      exists message,
        error = JsError ("Failed to calculate vedic astrology data: " +:+ message).
Proof.
  intros coerce f d t la ln tz. split.
  - unfold VedicLegacy.getVedicAstrologyData, VedicLegacy.getVedicAstrologyData_try,
      try_rethrow, calls. cbv zeta.
    cbv [mbind io_bind io_lift mret io_ret]. cbv beta iota.
    destruct (f d t la ln (Vedic.timezone_or_default tz)) as [e|chart]; [reflexivity|].
    repeat match goal with
           | |- context [match ?x with inl _ => _ | inr _ => _ end] =>
               lazymatch x with
               | get _ _ => destruct x
               | VedicLegacy.calculateAtmakarak _ _ => destruct x
               end
           end; reflexivity.
  - intros error. unfold VedicLegacy.getVedicAstrologyData, try_rethrow, outcome.
    cbv zeta.
    destruct (VedicLegacy.getVedicAstrologyData_try _ _ _ _ _ _ _) as [log [e|r]];
      cbn [snd]; [|discriminate].
    intros [= <-]. unfold VedicLegacy.rethrow. eexists. reflexivity.
Qed.

(** When every planet's degree is valid or missing, the two loops
    stay in step. *)
Lemma legacy_all_simulation (coerce : value -> number) (chart : value)
    (ps : list string) :
  (forall c, In c ps ->
     (exists q, valid_degree chart c = Some q) \/ degree_missing chart c = true) ->
  forall (st : Vedic.locals) (st' : VedicLegacy.locals) (m : Q),
    Vedic.maxDegrees st = Finite m -> (0 <= m)%Q ->
    VedicLegacy.maxDegrees st' = Finite m ->
    VedicLegacy.atmakarak st' = Vedic.atmakarak st ->
    VedicLegacy.atmakarak (legacy_all coerce chart ps st')
    = Vedic.atmakarak (scan_all chart ps st).
Proof.
  induction ps as [|p ps IH]; intros Hcases st st' m Hm Hpos Hm' Hatm.
  - exact Hatm.
  - rewrite legacy_all_cons, scan_all_cons.
    assert (Hrest : forall c, In c ps ->
               (exists q, valid_degree chart c = Some q) \/ degree_missing chart c = true)
      by (intros c Hc; apply Hcases; right; exact Hc).
    destruct (Hcases p (or_introl eq_refl)) as [[q Hq] | Hmiss].
    + rewrite (legacy_degree_valid coerce chart p q Hq), Hq.
      unfold legacy_step, scan_step. rewrite Hm, Hm'. unfold num_gt. cbn [num_lt].
      destruct (Qltb m q) eqn:Hlt.
      * apply Qltb_lt in Hlt.
        apply (IH Hrest
                 {| Vedic.maxDegrees := Finite q;
                    Vedic.atmakarak := p;
                    Vedic.validPlanets := push (Vedic.validPlanets st) p |}
                 {| VedicLegacy.maxDegrees := Finite q; VedicLegacy.atmakarak := p |}
                 q eq_refl); [|reflexivity|reflexivity].
        apply Qlt_le_weak. apply Qle_lt_trans with m; assumption.
      * apply (IH Hrest
                 {| Vedic.maxDegrees := Finite m;
                    Vedic.atmakarak := Vedic.atmakarak st;
                    Vedic.validPlanets := push (Vedic.validPlanets st) p |}
                 st' m eq_refl Hpos Hm' Hatm).
    + destruct (legacy_degree_missing coerce chart p Hmiss) as [Hzero Hnone].
      rewrite Hzero, Hnone. cbn [scan_step].
      assert (Hstep : legacy_step (num 0) st' p = st').
      { unfold legacy_step. rewrite Hm'. unfold num_gt, num. cbn [num_lt].
        change (inject_Z 0) with 0%Q.
        apply Qltb_ge in Hpos. rewrite Hpos. reflexivity. }
      rewrite Hstep. apply (IH Hrest st st' m Hm Hpos Hm' Hatm).
Qed.

(** The filtering revision returns the name of the scan's winner,
    whatever the shape of the chart. *)
Lemma calculateAtmakarak_scan_name (chart : value) :
  Vedic.calculateAtmakarak chart
  = Vedic.planet_name
      (Vedic.atmakarak (scan_all chart Vedic.planets Vedic.locals_init)).
Proof.
  destruct (chart_shape_ok chart) eqn:Hshape.
  - rewrite (calculateAtmakarak_shaped chart Hshape). cbv zeta.
    destruct (length _ =? 0)%nat eqn:Hlen; [|reflexivity].
    rewrite (scan_all_none chart Vedic.planets Vedic.locals_init
               (scan_all_no_valid chart Vedic.planets Vedic.locals_init Hlen)).
    reflexivity.
  - rewrite (calculateAtmakarak_unshaped chart Hshape).
    rewrite (scan_all_none chart Vedic.planets Vedic.locals_init
               (fun c _ => unshaped_no_valid_degree chart c Hshape)).
    reflexivity.
Qed.

(** X26. The two revisions of [calculateAtmakarak] agree on every
    chart with a [meta] in which each of the seven planets has either
    a valid degree or no degree at all: a missing degree read as 0
    never displaces a winner. *)
Theorem revisions_agree_on_valid_or_missing :
  forall (coerce : value -> number) (chart : value),
    nullish chart = false ->
    nullish (prop chart "meta") = false ->
    (forall c, In c Vedic.planets ->
       (exists q, valid_degree chart c = Some q) \/ degree_missing chart c = true) ->
    VedicLegacy.calculateAtmakarak coerce chart = inr (Vedic.calculateAtmakarak chart).
Proof.
  intros coerce chart Hc Hm Hcases.
  assert (Hconv : forall c, In c Vedic.planets -> degree_converts chart c = true).
  { intros c Hin. destruct (Hcases c Hin) as [[q Hq] | Hmiss];
      [apply (valid_degree_converts chart c q Hq) | apply missing_degree_converts; exact Hmiss]. }
  rewrite (legacy_calculate_eq coerce chart Hc Hm Hconv), calculateAtmakarak_scan_name.
  rewrite (legacy_all_simulation coerce chart Vedic.planets Hcases
             Vedic.locals_init VedicLegacy.locals_init 0 eq_refl (Qle_refl 0)
             eq_refl eq_refl).
  reflexivity.
Qed.

Lemma revisions_agree_on_valid_or_missing_witness :
  VedicLegacy.calculateAtmakarak (fun _ => NaN) chart_partial = inr "Moon".
Proof.
  apply (revisions_agree_on_valid_or_missing (fun _ => NaN) chart_partial).
  - reflexivity.
  - reflexivity.
  - intros c H. each_planet H;
      first [left; eexists; reflexivity | right; reflexivity].
Defined.

Lemma degree_field_shape (chart : value) (c : string) (n : number) :
  degree_field chart c = VNum n ->
  nullish chart = false /\ nullish (prop chart "meta") = false /\
  exists e, prop (prop chart "meta") c = VObj e.
Proof.
  unfold degree_field. intros H.
  destruct chart as [| | | | |o|]; try discriminate H.
  destruct (prop (VObj o) "meta") as [| | | | |m|]; try discriminate H.
  destruct (prop (VObj m) c) as [| | | | |e|]; try discriminate H.
  repeat split. exists e. reflexivity.
Qed.

(** X27. The revisions part ways on degrees beyond the range: when a
    planet carries a numeric degree above 360 and every other planet
    has a valid degree or none, the first revision returns that
    planet, and the filtering revision does not, unless the planet is
    Sun. *)
Theorem legacy_picks_degree_beyond_range :
  forall (coerce : value -> number) (chart : value) (earlier later : list string)
         (w : string) (q : Q),
    Vedic.planets = earlier ++ w :: later ->
    degree_field chart w = VNum (Finite q) ->
    (360 < q)%Q ->
    (forall c, In c (earlier ++ later) ->
       (exists q', valid_degree chart c = Some q') \/ degree_missing chart c = true) ->
    VedicLegacy.calculateAtmakarak coerce chart = inr (Vedic.planet_name w) /\
    (w <> "Su" -> Vedic.calculateAtmakarak chart <> Vedic.planet_name w).
Proof.
  intros coerce chart earlier later w q Hsplit Hdeg Hq Hothers.
  destruct (degree_field_shape chart w _ Hdeg) as (Hc & Hm & e & He).
  assert (Hw : legacy_degree coerce chart w = Finite q).
  { unfold legacy_degree, VedicLegacy.coerced_degree, get_opt. rewrite He.
    change (nullish (VObj e)) with false. cbv iota zeta.
    unfold degree_field in Hdeg. rewrite He in Hdeg. rewrite Hdeg. reflexivity. }
  assert (Hfin : forall c, In c (earlier ++ later) ->
             exists q', legacy_degree coerce chart c = Finite q' /\ (q' < q)%Q).
  { intros c Hin. destruct (Hothers c Hin) as [[q' Hq'] | Hmiss].
    - exists q'. split; [apply legacy_degree_valid; exact Hq'|].
      apply Qle_lt_trans with 360%Q; [apply (valid_degree_range chart c q' Hq') | exact Hq].
    - exists 0%Q. split; [apply (legacy_degree_missing coerce chart c Hmiss)|].
      apply Qlt_trans with 360%Q; [reflexivity | exact Hq]. }
  assert (Hconv : forall c, In c Vedic.planets -> degree_converts chart c = true).
  { intros c Hin. rewrite Hsplit in Hin. apply in_app_or in Hin.
    assert (Hrest : In c (earlier ++ later) -> degree_converts chart c = true).
    { intros Hin'. destruct (Hothers c Hin') as [[q' Hq'] | Hmiss];
        [apply (valid_degree_converts chart c q' Hq')
        | apply missing_degree_converts; exact Hmiss]. }
    destruct Hin as [Hin | [<- | Hin]].
    - apply Hrest. apply in_or_app. left. exact Hin.
    - unfold degree_converts, get_opt. rewrite He.
      change (nullish (VObj e)) with false. cbv iota.
      unfold degree_field in Hdeg. rewrite He in Hdeg. rewrite Hdeg. reflexivity.
    - apply Hrest. apply in_or_app. right. exact Hin. }
  split.
  - rewrite (legacy_calculate_eq coerce chart Hc Hm Hconv), Hsplit.
    rewrite (legacy_all_winner coerce chart earlier later w q
               VedicLegacy.locals_init 0 eq_refl); try assumption.
    + reflexivity.
    + apply Qlt_trans with 360%Q; [reflexivity | exact Hq].
    + intros c Hin. apply Hfin. apply in_or_app. left. exact Hin.
    + intros c Hin. destruct (Hfin c) as (q' & Hq' & Hlt);
        [apply in_or_app; right; exact Hin|].
      exists q'. split; [exact Hq' | apply Qlt_le_weak; exact Hlt].
  - intros Hne Hres.
    assert (Hin : In w Vedic.planets) by (rewrite Hsplit; apply in_elt).
    destruct (zero_degree_never_wins chart w Hin Hne Hres) as (q' & Hq' & _).
    unfold valid_degree in Hq'. rewrite Hdeg in Hq'. unfold in_range_degree in Hq'.
    assert (Hout : Qle_bool q 360 = false) by (apply Qle_bool_false; exact Hq).
    rewrite Hout, andb_false_r in Hq'. discriminate Hq'.
Qed.

Lemma legacy_picks_degree_beyond_range_witness :
  VedicLegacy.calculateAtmakarak (fun _ => NaN) chart_beyond_range
  = inr (Vedic.planet_name "Mo") /\
  ("Mo" <> "Su" -> Vedic.calculateAtmakarak chart_beyond_range <> Vedic.planet_name "Mo").
Proof.
  apply (legacy_picks_degree_beyond_range (fun _ => NaN) chart_beyond_range
           ["Su"] ["Ma"; "Me"; "Ju"; "Ve"; "Sa"] "Mo" 400).
  - reflexivity.
  - reflexivity.
  - reflexivity.
  - intros c Hin. simpl in Hin.
    repeat (destruct Hin as [<-|Hin];
            [first [left; eexists; reflexivity | right; reflexivity]|]).
    contradiction.
Defined.
